(** * Allure telephony dashboard: report aggregation, comparison, download
      and client cache

    A shallow embedding of the aggregation core of the repository:

    - [Fetcher]  : allureReportFetcher.js ([fetchSummary], [listAllReports]),
    - [Server]   : the Express handler of GET /api/download-report/:runId,
    - [Compare]  : CompareReports.jsx ([generateComparison] and the
                   percent-change column of the detail table),
    - [Cache]    : ReportsContext.jsx ([shouldRefreshData],
                   [fetchAndCacheReports], [clearCache], [getCacheStatus]).

    JavaScript values are modelled in [JS]; promises that may reject and
    the state they thread (clock reads, network calls, the React state
    slot) are modelled by the monad [Async]. *)

From stdpp Require Import gmap strings list pretty.
From Stdlib Require Import ZArith QArith Ascii.

Local Open Scope string_scope.
Local Open Scope Z_scope.

(** ** JavaScript values *)

Module JS.

(** Numbers.  The counts and epoch-millisecond timestamps handled by the
    program are integers, on which double arithmetic is exact; the three
    non-finite doubles are kept because [Math.min()] and [Math.max()] of no
    argument produce them and arithmetic on [undefined] produces [NaN]. *)
Inductive number : Type :=
| NaN
| NegInfinity
| Finite (z : Z)
| Infinity.

(** Primitive values: what a field of a parsed JSON object, a
    [process.env] entry or a missing property can be. *)
Inductive value : Type :=
| VUndefined
| VNull
| VBool (b : bool)
| VNumber (n : number)
| VString (s : string).

(** A parsed JSON document: a primitive or an object, read as a map from
    property names to values.  (An array has none of the properties the
    program reads, so it behaves as the empty object.) *)
Inductive json : Type :=
| JValue (v : value)
| JObject (fields : gmap string value).

(** Results of a division: the quotient of two integers need not be an
    integer.  Exact rationals stand for the doubles. *)
Inductive ratio : Type :=
| RNaN
| RNegInfinity
| RFinite (q : Q)
| RInfinity.

Definition number_truthy (n : number) : bool :=
  match n with
  | NaN => false
  | Finite z => negb (z =? 0)
  | NegInfinity | Infinity => true
  end.

(** ToBoolean. *)
Definition truthy (v : value) : bool :=
  match v with
  | VUndefined | VNull => false
  | VBool b => b
  | VNumber n => number_truthy n
  | VString s => negb (String.eqb s "")
  end.

(** [Boolean(j)], the callback of [filter(Boolean)]. *)
Definition Boolean (j : json) : bool :=
  match j with
  | JValue v => truthy v
  | JObject _ => true
  end.

(** [a || b] *)
Definition or (a b : value) : value := if truthy a then a else b.

(** [j.k] for a truthy [j]: a primitive has none of the properties read
    here, an object answers from its fields, [undefined] when absent. *)
Definition prop (j : json) (k : string) : value :=
  match j with
  | JValue _ => VUndefined
  | JObject fields => default VUndefined (fields !! k)
  end.

(** [v === s] for a string literal [s]: no coercion, case-sensitive. *)
Definition strict_eq_string (v : value) (s : string) : bool :=
  match v with
  | VString t => String.eqb t s
  | _ => false
  end.

(** ToNumber on primitives; the StringToNumber grammar is a parameter. *)
Definition ToNumber (StringToNumber : string -> number) (v : value) : number :=
  match v with
  | VUndefined => NaN
  | VNull => Finite 0
  | VBool b => Finite (if b then 1 else 0)
  | VNumber n => n
  | VString s => StringToNumber s
  end.

Definition min2 (a b : number) : number :=
  match a, b with
  | NaN, _ | _, NaN => NaN
  | NegInfinity, _ | _, NegInfinity => NegInfinity
  | Infinity, x | x, Infinity => x
  | Finite x, Finite y => Finite (Z.min x y)
  end.

Definition max2 (a b : number) : number :=
  match a, b with
  | NaN, _ | _, NaN => NaN
  | Infinity, _ | _, Infinity => Infinity
  | NegInfinity, x | x, NegInfinity => x
  | Finite x, Finite y => Finite (Z.max x y)
  end.

(** [Math.min(...args)]: [Infinity] for no argument, [NaN] as soon as one
    argument is [NaN]. *)
Definition Math_min (args : list number) : number :=
  foldr min2 Infinity args.

(** [Math.max(...args)]: [-Infinity] for no argument. *)
Definition Math_max (args : list number) : number :=
  foldr max2 NegInfinity args.

(** [a - b] *)
Definition sub (a b : number) : number :=
  match a, b with
  | NaN, _ | _, NaN => NaN
  | Infinity, Infinity | NegInfinity, NegInfinity => NaN
  | Infinity, _ | _, NegInfinity => Infinity
  | NegInfinity, _ | _, Infinity => NegInfinity
  | Finite x, Finite y => Finite (x - y)
  end.

(** [a * b] *)
Definition mul (a b : number) : number :=
  match a, b with
  | NaN, _ | _, NaN => NaN
  | Finite x, Finite y => Finite (x * y)
  | Finite x, inf | inf, Finite x =>
      if x =? 0 then NaN else if 0 <? x then inf
      else match inf with Infinity => NegInfinity | _ => Infinity end
  | Infinity, Infinity | NegInfinity, NegInfinity => Infinity
  | _, _ => NegInfinity
  end.

(** [-a] *)
Definition neg (a : number) : number :=
  match a with
  | NaN => NaN
  | NegInfinity => Infinity
  | Finite x => Finite (- x)
  | Infinity => NegInfinity
  end.

(** [a < b] and [a > b]: false whenever an operand is [NaN]. *)
Definition lt (a b : number) : bool :=
  match a, b with
  | NaN, _ | _, NaN => false
  | _, NegInfinity | Infinity, _ => false
  | NegInfinity, _ | _, Infinity => true
  | Finite x, Finite y => x <? y
  end.

Definition gt (a b : number) : bool := lt b a.

(** [a === b] on numbers: [NaN] equals nothing. *)
Definition strict_eq (a b : number) : bool :=
  match a, b with
  | NegInfinity, NegInfinity | Infinity, Infinity => true
  | Finite x, Finite y => x =? y
  | _, _ => false
  end.

Definition ratio_of (n : number) : ratio :=
  match n with
  | NaN => RNaN
  | NegInfinity => RNegInfinity
  | Finite z => RFinite (inject_Z z)
  | Infinity => RInfinity
  end.

(** [a / b] *)
Definition div (a b : number) : ratio :=
  match a, b with
  | NaN, _ | _, NaN => RNaN
  | Finite x, Finite y =>
      if y =? 0 then
        if x =? 0 then RNaN else if 0 <? x then RInfinity else RNegInfinity
      else RFinite (inject_Z x / inject_Z y)%Q
  | Finite _, _ => RFinite 0%Q
  | Infinity, Finite y => if 0 <=? y then RInfinity else RNegInfinity
  | NegInfinity, Finite y => if 0 <=? y then RNegInfinity else RInfinity
  | _, _ => RNaN
  end.

(** [r * k] for a positive integer literal [k] *)
Definition scale (r : ratio) (k : Z) : ratio :=
  match r with
  | RFinite q => RFinite (q * inject_Z k)%Q
  | other => other
  end.

Definition ratio_truthy (r : ratio) : bool :=
  match r with
  | RNaN => false
  | RFinite q => negb (Qeq_bool q 0)
  | RNegInfinity | RInfinity => true
  end.

(** Strings. *)

(** [s.endsWith(suffix)] *)
Definition endsWith (s suffix : string) : bool :=
  let n := String.length s in
  let k := String.length suffix in
  (k <=? n)%nat && String.eqb (String.substring (n - k)%nat k s) suffix.

(** [s.replace(pattern, replacement)] with a string pattern: the first
    occurrence only. *)
Definition replace (s pattern replacement : string) : string :=
  match String.index 0 pattern s with
  | Some i =>
      let after := (i + String.length pattern)%nat in
      String.substring 0 i s +:+ replacement
        +:+ String.substring after (String.length s - after)%nat s
  | None => s
  end.

(** [s.replace(/\/$/, "")] *)
Definition strip_trailing_slash (s : string) : string :=
  if endsWith s "/" then String.substring 0 (String.length s - 1)%nat s else s.

End JS.

(** ** Promises and the state they thread *)

(** The settled state of an awaited promise. *)
Inductive outcome (A : Type) : Type :=
| Resolved (a : A)
| Rejected (message : string).
Arguments Resolved {A} a.
Arguments Rejected {A} message.

(** An [async] computation over a state [S]: it settles, and the state it
    leaves behind survives a rejection. *)
Definition Async (S A : Type) : Type := S -> outcome A * S.

#[global] Instance Async_ret {S} : MRet (Async S) :=
  fun A a s => (Resolved a, s).

#[global] Instance Async_bind {S} : MBind (Async S) :=
  fun A B f m s =>
    match m s with
    | (Resolved a, s') => f a s'
    | (Rejected e, s') => (Rejected e, s')
    end.

(** [throw new Error(message)] *)
Definition throw {S A} (message : string) : Async S A :=
  fun s => (Rejected message, s).

(** [try { body } catch (error) { handler(error.message) }] *)
Definition try_catch {S A} (body : Async S A) (handler : string -> Async S A)
  : Async S A :=
  fun s =>
    match body s with
    | (Resolved a, s') => (Resolved a, s')
    | (Rejected e, s') => handler e s'
    end.

(** Awaiting a promise whose settlement does not depend on the state. *)
Definition await {S A} (o : outcome A) : Async S A := fun s => (o, s).

(** ** The object store and the platform *)

Module S3.

Record ListObjectsV2Command : Type := {
  Bucket : JS.value;
  Prefix : string;
  Delimiter : option string;
  MaxKeys : option nat
}.

Record S3Object : Type := { Key : string }.

Record CommonPrefix : Type := { PrefixOf : string }.

(** [Contents] and [CommonPrefixes] are absent from a response that has
    nothing to list. *)
Record ListObjectsV2Output : Type := {
  Contents : option (list S3Object);
  CommonPrefixes : option (list CommonPrefix)
}.

Inductive GetObjectCommand : Type :=
| GetObject (bucket : JS.value) (key : string).

(** The client is a capability: [send] of a listing settles with a
    response, [send] of a get followed by reading the body stream settles
    with the text of the object. *)
Record Client : Type := {
  listObjectsV2 : ListObjectsV2Command -> outcome ListObjectsV2Output;
  getObject : GetObjectCommand -> outcome string
}.

End S3.

(** What the program takes from its platform: the environment variables,
    the storage client built from them, [JSON.parse] ([None] when it
    throws), the StringToNumber grammar, and the clock: [clock k] is what
    the [k]-th read of the current time returns. *)
Record Platform : Type := {
  process_env : gmap string string;
  s3Client : S3.Client;
  JSON_parse : string -> option JS.json;
  StringToNumber : string -> JS.number;
  clock : nat -> Z;
  toISOString : Z -> string
}.

(** [process.env.k] *)
Definition getenv (P : Platform) (k : string) : JS.value :=
  match process_env P !! k with
  | Some s => JS.VString s
  | None => JS.VUndefined
  end.

(** [Date.now()] over a state that counts the reads of the clock. *)
Definition Date_now (P : Platform) : Async nat Z :=
  fun reads => (Resolved (clock P reads), S reads).

(** ** allureReportFetcher.js *)

(** The module throws while it loads when the credentials are missing from
    the environment, so its two functions only ever run with credentials
    configured; the client of the platform is the one built from them. *)

Module Fetcher.

Import JS S3.

Record Statistic : Type := {
  total : nat;
  passed : nat;
  failed : nat;
  broken : nat;
  skipped : nat
}.

Record Time : Type := { start : value; stop : value }.

Record Summary : Type := {
  statistic : Statistic;
  time : Time;
  totalFiles : nat
}.

Record Report : Type := { runId : string; summary : Summary }.

Definition BUCKET_NAME (P : Platform) : value :=
  or (or (getenv P "VITE_S3_BUCKET") (getenv P "S3_BUCKET"))
     (VString "allure-report-telephony").

(** The callback of [resultFiles.map]: fetch and parse one file, [null]
    when anything throws. *)
Definition fetchResult (P : Platform) (file : S3Object) : Async nat json :=
  try_catch
    (body ← await (getObject (s3Client P) (GetObject (BUCKET_NAME P) (Key file)));
     match JSON_parse P body with
     | Some j => mret j
     | None => throw "Unexpected token in JSON"
     end)
    (fun _ => mret (JValue VNull)).

(** [v || Date.now()] *)
Definition or_now (P : Platform) (v : value) : Async nat value :=
  if truthy v then mret v
  else t ← Date_now P; mret (VNumber (Finite t)).

(** [cleanResults.filter((r) => r.status === status).length] *)
Definition countStatus (status : string) (cleanResults : list json) : nat :=
  length (List.filter (fun r => strict_eq_string (prop r "status") status)
            cleanResults).

Definition resultFilesOf (listResult : ListObjectsV2Output) : list S3Object :=
  default []
    (List.filter (fun obj => endsWith (Key obj) "-result.json")
       <$> Contents listResult).

Definition fetchSummary (P : Platform) (execId : string) : Async nat Summary :=
  listResult ← await (listObjectsV2 (s3Client P)
    {| Bucket := BUCKET_NAME P;
       Prefix := "reports/" +:+ execId +:+ "/";
       Delimiter := None;
       MaxKeys := Some 1000%nat |});
  let resultFiles := resultFilesOf listResult in
  if (length resultFiles =? 0)%nat then
    mret {| statistic :=
              {| total := 0; passed := 0; failed := 0; broken := 0;
                 skipped := 0 |};
            time := {| start := VNull; stop := VNull |};
            totalFiles := 0 |}
  else
    results ← mapM (fetchResult P) resultFiles;
    let cleanResults := List.filter Boolean results in
    starts ← mapM (fun r => or_now P (prop r "start")) cleanResults;
    stops ← mapM (fun r => or_now P (prop r "stop")) cleanResults;
    mret {| statistic :=
              {| total := length cleanResults;
                 passed := countStatus "passed" cleanResults;
                 failed := countStatus "failed" cleanResults;
                 broken := countStatus "broken" cleanResults;
                 skipped := countStatus "skipped" cleanResults |};
            time :=
              {| start :=
                   VNumber (Math_min (map (ToNumber (StringToNumber P)) starts));
                 stop :=
                   VNumber (Math_max (map (ToNumber (StringToNumber P)) stops)) |};
            totalFiles := length resultFiles |}.

Definition runIdsOf (res : ListObjectsV2Output) : list string :=
  default []
    (map (fun p => strip_trailing_slash (replace (PrefixOf p) "reports/" ""))
       <$> CommonPrefixes res).

Definition listAllReports (P : Platform) : Async nat (list Report) :=
  res ← await (listObjectsV2 (s3Client P)
    {| Bucket := BUCKET_NAME P;
       Prefix := "reports/allure-results-";
       Delimiter := Some "/";
       MaxKeys := None |});
  let runIds := runIdsOf res in
  mapM (fun runId =>
          summary ← fetchSummary P runId;
          mret {| runId := runId; summary := summary |})
       runIds.

End Fetcher.

(** ** The Express server: GET /api/reports and
       GET /api/download-report/:runId *)

Module Server.

Import JS S3.

Inductive Payload : Type :=
| ErrorPayload (fields : list (string * string))
| ReportsPayload (reports : list Fetcher.Report)
    (totalReports totalTests : nat) (lastUpdated : string).

(** What has been written to the response: nothing, one JSON document, or
    the archive stream with its entries (name and content). *)
Inductive Body : Type :=
| NoBody
| JsonBody (payload : Payload)
| ZipBody (entries : list (string * string)).

(** The Express [res] object. *)
Record Response : Type := {
  statusCode : nat;
  headers : gmap string string;
  headersSent : bool;
  body : Body
}.

Record HandlerState : Type := { reads : nat; res : Response }.

Definition freshResponse : Response :=
  {| statusCode := 200; headers := ∅; headersSent := false; body := NoBody |}.

(** Run a computation that only reads the clock inside a handler. *)
Definition withClock {A} (m : Async nat A) : Async HandlerState A :=
  fun s =>
    let '(o, n) := m (reads s) in
    (o, {| reads := n; res := res s |}).

Definition modifyResponse (f : Response -> Response) : Async HandlerState unit :=
  fun s => (Resolved tt, {| reads := reads s; res := f (res s) |}).

(** [res.status(code)] *)
Definition res_status (code : nat) : Async HandlerState unit :=
  modifyResponse (fun r =>
    {| statusCode := code; headers := headers r;
       headersSent := headersSent r; body := body r |}).

(** [res.set({...})] *)
Definition res_set (fields : list (string * string)) : Async HandlerState unit :=
  modifyResponse (fun r =>
    {| statusCode := statusCode r;
       headers := foldl (fun h kv => <[kv.1 := kv.2]> h) (headers r) fields;
       headersSent := headersSent r; body := body r |}).

(** [res.json(payload)]: sends the document, headers included. *)
Definition res_json (payload : Payload) : Async HandlerState unit :=
  modifyResponse (fun r =>
    {| statusCode := statusCode r;
       headers := <["Content-Type" := "application/json; charset=utf-8"]> (headers r);
       headersSent := true; body := JsonBody payload |}).

(** [archive.pipe(res)] followed by [archive.finalize()]: the archive with
    the appended entries is streamed to the response.  The archiver itself
    is taken to be reliable. *)
Definition archive_finalize (entries : list (string * string))
  : Async HandlerState unit :=
  modifyResponse (fun r =>
    {| statusCode := statusCode r; headers := headers r;
       headersSent := true; body := ZipBody entries |}).

(** [new Date().toISOString()] *)
Definition isoNow (P : Platform) : Async HandlerState string :=
  t ← withClock (Date_now P); mret (toISOString P t).

(** The double-quote character. *)
Definition quote : ascii := ascii_of_nat 34.

Fixpoint dropSlashes (l : list ascii) : list ascii :=
  match l with
  | "/"%char :: l' => dropSlashes l'
  | _ => l
  end.

Fixpoint takeSegment (l : list ascii) : list ascii :=
  match l with
  | [] => []
  | "/"%char :: _ => []
  | c :: l' => c :: takeSegment l'
  end.

(** [path.basename(p)] (POSIX): the last segment, trailing slashes
    ignored. *)
Definition basename (p : string) : string :=
  String.string_of_list_ascii
    (rev (takeSegment (dropSlashes (rev (String.list_ascii_of_string p))))).

Definition api_reports (P : Platform) : Async HandlerState unit :=
  try_catch
    (reports ← withClock (Fetcher.listAllReports P);
     let totalTests :=
       foldl (fun sum report =>
                (sum + Fetcher.total (Fetcher.statistic (Fetcher.summary report)))%nat)
             0%nat reports in
     lastUpdated ← isoNow P;
     res_json (ReportsPayload reports (length reports) totalTests lastUpdated))
    (fun message =>
       res_status 500;;
       timestamp ← isoNow P;
       res_json (ErrorPayload [("error", "Failed to fetch reports");
                               ("details", message);
                               ("timestamp", timestamp)])).

(** The callback of [files.map] in the download handler: one entry per
    object with a non-empty base name whose stream could be opened.  The
    callbacks run concurrently; the entries are taken in listing order. *)
Definition streamFile (P : Platform) (BUCKET_NAME : value) (file : S3Object)
  : Async HandlerState (option (string * string)) :=
  let filename := basename (Key file) in
  if negb (String.eqb filename "") then
    try_catch
      (content ← await (getObject (s3Client P) (GetObject BUCKET_NAME (Key file)));
       mret (Some (filename, content)))
      (fun _ => mret None)
  else mret None.

(** The handler of GET /api/download-report/:runId.  The dynamic imports
    of [path], [archiver] and the storage client are taken to succeed. *)
Definition download_report (P : Platform) (runId : string)
  : Async HandlerState unit :=
  try_catch
    (if String.eqb runId "" then
       res_status 400;;
       res_json (ErrorPayload [("error", "RunId is required")])
     else
       let AWS_ACCESS_KEY :=
         or (getenv P "VITE_AWS_ACCESS_KEY") (getenv P "AWS_ACCESS_KEY") in
       let AWS_SECRET_KEY :=
         or (getenv P "VITE_AWS_SECRET_KEY") (getenv P "AWS_SECRET_KEY") in
       let BUCKET_NAME :=
         or (or (getenv P "VITE_S3_BUCKET") (getenv P "S3_BUCKET"))
            (VString "allure-report-telephony") in
       if negb (truthy AWS_ACCESS_KEY) || negb (truthy AWS_SECRET_KEY) then
         throw "AWS credentials not configured. Please check your .env file."
       else
         listResult ← await (listObjectsV2 (s3Client P)
           {| Bucket := BUCKET_NAME;
              Prefix := "reports/" +:+ runId +:+ "/";
              Delimiter := None;
              MaxKeys := Some 1000%nat |});
         let files := default [] (Contents listResult) in
         if (length files =? 0)%nat then
           res_status 404;;
           res_json (ErrorPayload
                       [("error", "No files found for runId: " +:+ runId)])
         else
           res_set [("Content-Type", "application/zip");
                    ("Content-Disposition",
                     "attachment; filename=" +:+ String quote
                       (runId +:+ ".zip" +:+ String quote EmptyString))];;
           streamed ← mapM (streamFile P BUCKET_NAME) files;
           archive_finalize (omap id streamed))
    (fun message =>
       s ← (fun s => (Resolved s, s));
       if headersSent (res s) then mret tt
       else
         res_status 500;;
         timestamp ← isoNow P;
         res_json (ErrorPayload [("error", "Failed to create download");
                                 ("details", message);
                                 ("timestamp", timestamp)])).

End Server.

(** ** What the browser reads from /api/reports *)

Module Client.

Import JS.

(** A run summary after its trip through JSON: objects are maps from
    property names, and any property may be absent. *)
Record Summary : Type := {
  statistic : option (gmap string number);
  totalFiles : option number;
  time : option (gmap string value)
}.

Record Report : Type := { runId : string; summary : option Summary }.

(** [n || 0] for a property that is a number or absent. *)
Definition orZero (n : option number) : number :=
  match n with
  | Some x => if number_truthy x then x else Finite 0
  | None => Finite 0
  end.

(** [stats.k] inside an arithmetic expression: [undefined] becomes
    [NaN]. *)
Definition stat (stats : gmap string number) (k : string) : number :=
  default NaN (stats !! k).

End Client.

(** ** CompareReports.jsx *)

Module Compare.

Import JS Client.

Record ReportView : Type := {
  name : string;
  stats : gmap string number;
  viewTotalFiles : number;
  viewTime : gmap string value
}.

Record Percentages : Type := {
  percentagesReport1 : gmap string ratio;
  percentagesReport2 : gmap string ratio
}.

Record Comparison : Type := {
  report1 : ReportView;
  report2 : ReportView;
  differences : gmap string number;
  percentages : Percentages
}.

(** The object literal built for each side of the comparison. *)
Definition viewOf (report : Report) : ReportView :=
  {| name := runId report;
     stats := default ∅ (summary report ≫= statistic);
     viewTotalFiles := orZero (summary report ≫= totalFiles);
     viewTime := default ∅ (summary report ≫= time) |}.

(** [((stats.k / stats.total) * 100) || 0] *)
Definition percentOfTotal (stats : gmap string number) (k : string) : ratio :=
  let p := scale (div (stat stats k) (stat stats "total")) 100 in
  if ratio_truthy p then p else RFinite 0%Q.

Definition percentagesOf (stats : gmap string number) : gmap string ratio :=
  {[ "passed" := percentOfTotal stats "passed";
     "failed" := percentOfTotal stats "failed";
     "broken" := percentOfTotal stats "broken";
     "skipped" := percentOfTotal stats "skipped" ]}.

Definition compare (r1 r2 : Report) : Comparison :=
  let v1 := viewOf r1 in
  let v2 := viewOf r2 in
  {| report1 := v1;
     report2 := v2;
     differences :=
       {[ "total" := sub (stat (stats v2) "total") (stat (stats v1) "total");
          "passed" := sub (stat (stats v2) "passed") (stat (stats v1) "passed");
          "failed" := sub (stat (stats v2) "failed") (stat (stats v1) "failed");
          "broken" := sub (stat (stats v2) "broken") (stat (stats v1) "broken");
          "skipped" := sub (stat (stats v2) "skipped") (stat (stats v1) "skipped");
          "files" := sub (viewTotalFiles v2) (viewTotalFiles v1) ]};
     percentages :=
       {| percentagesReport1 := percentagesOf (stats v1);
          percentagesReport2 := percentagesOf (stats v2) |} |}.

(** [generateComparison]: [None] when it returns before
    [setComparisonData], otherwise the comparison it stores. *)
Definition generateComparison (availableReports : list Report)
    (selectedReport1 selectedReport2 : string) : option Comparison :=
  let report1 :=
    List.find (fun r => String.eqb (runId r) selectedReport1) availableReports in
  let report2 :=
    List.find (fun r => String.eqb (runId r) selectedReport2) availableReports in
  match report1, report2 with
  | Some r1, Some r2 => Some (compare r1 r2)
  | _, _ => None
  end.

Inductive Icon : Type := NoIcon | ArrowUp | ArrowDown.

Definition getDifferenceColor (value : number) (isNegativeGood : bool) : string :=
  if strict_eq value (Finite 0) then "text-gray-600"
  else if isNegativeGood then
    if gt value (Finite 0) then "text-red-600"
    else if lt value (Finite 0) then "text-green-600"
    else "text-gray-600"
  else
    if gt value (Finite 0) then "text-green-600"
    else if lt value (Finite 0) then "text-red-600"
    else "text-gray-600".

Definition getDifferenceIcon (value : number) (isNegativeGood : bool) : Icon :=
  if strict_eq value (Finite 0) then NoIcon
  else if isNegativeGood then
    if gt value (Finite 0) then ArrowDown
    else if lt value (Finite 0) then ArrowUp
    else NoIcon
  else
    if gt value (Finite 0) then ArrowUp
    else if lt value (Finite 0) then ArrowDown
    else NoIcon.

(** The value of the variable [percentChange]: the string [x.toFixed(1)]
    of a number [x], or the string N/A. *)
Inductive PercentChange : Type :=
| ToFixed1 (x : ratio)
| NotApplicable.

Record Metric : Type := { key : string; label : string; isNegativeGood : bool }.

Definition metrics : list Metric :=
  [ {| key := "total"; label := "Total Tests"; isNegativeGood := false |};
    {| key := "passed"; label := "Passed Tests"; isNegativeGood := false |};
    {| key := "failed"; label := "Failed Tests"; isNegativeGood := true |};
    {| key := "broken"; label := "Broken Tests"; isNegativeGood := true |};
    {| key := "skipped"; label := "Skipped Tests"; isNegativeGood := true |} ].

Record Row : Type := {
  rowLabel : string;
  value1 : number;
  value2 : number;
  diff : number;
  percentChange : PercentChange;
  (** whether the cell shows the sign and the percent character around
      [percentChange], and whether that sign is a plus *)
  decorated : bool;
  plusSign : bool;
  color : string;
  icon : Icon
}.

(** One row of the detail table: the callback of [metrics.map]. *)
Definition detailRow (comparisonData : Comparison) (metric : Metric) : Row :=
  let value1 := orZero (stats (report1 comparisonData) !! key metric) in
  let value2 := orZero (stats (report2 comparisonData) !! key metric) in
  let diff := sub value2 value1 in
  let percentChange :=
    if gt value1 (Finite 0) then
      ToFixed1 (scale (div diff value1) 100)
    else if gt value2 (Finite 0) && strict_eq value1 (Finite 0) then
      ToFixed1 (ratio_of (mul value2 (Finite 100)))
    else NotApplicable in
  {| rowLabel := label metric;
     value1 := value1;
     value2 := value2;
     diff := diff;
     percentChange := percentChange;
     decorated :=
       match percentChange with
       | NotApplicable => false
       | ToFixed1 _ => negb (strict_eq diff (Finite 0))
       end;
     plusSign := gt diff (Finite 0);
     color := getDifferenceColor diff (isNegativeGood metric);
     icon := getDifferenceIcon diff (isNegativeGood metric) |}.

Definition detailTable (comparisonData : Comparison) : list Row :=
  map (detailRow comparisonData) metrics.

End Compare.

(** ** ReportsContext.jsx: the client-side cache *)

Module Cache.

Import JS Client.

(** The single state slot of [ReportsProvider]. *)
Record ReportsCache : Type := {
  reports : list Report;
  summary : option (gmap string value);
  lastFetched : option Z;
  loading : bool;
  error : option string
}.

(** The body of a response of /api/reports: [None] for the document
    [null], otherwise the two properties the provider reads. *)
Record Data : Type := {
  dataReports : option (list Report);
  dataSummary : option (gmap string value)
}.

Record HttpResponse : Type := {
  ok : bool;
  status : nat;
  json : outcome (option Data)
}.

(** The browser: [network k] settles the [k]-th call of [fetch],
    [clock k] is the [k]-th reading of [Date.now()]. *)
Record Browser : Type := {
  network : nat -> outcome HttpResponse;
  clock : nat -> Z
}.

Record World : Type := {
  reportsCache : ReportsCache;
  clockReads : nat;
  fetchCalls : nat
}.

Record Result : Type := {
  resultReports : list Report;
  resultSummary : option (gmap string value)
}.

Definition initialCache : ReportsCache :=
  {| reports := []; summary := None; lastFetched := None;
     loading := false; error := None |}.

Definition Date_now (B : Browser) : Async World Z :=
  fun w =>
    (Resolved (clock B (clockReads w)),
     {| reportsCache := reportsCache w; clockReads := S (clockReads w);
        fetchCalls := fetchCalls w |}).

(** [await fetch(url)] *)
Definition fetch (B : Browser) : Async World HttpResponse :=
  fun w =>
    (network B (fetchCalls w),
     {| reportsCache := reportsCache w; clockReads := clockReads w;
        fetchCalls := S (fetchCalls w) |}).

(** [setReportsCache(prev => update(prev))] *)
Definition setReportsCache (update : ReportsCache -> ReportsCache)
  : Async World unit :=
  fun w =>
    (Resolved tt,
     {| reportsCache := update (reportsCache w); clockReads := clockReads w;
        fetchCalls := fetchCalls w |}).

(** The state captured by the callbacks of the latest render. *)
Definition currentCache : Async World ReportsCache :=
  fun w => (Resolved (reportsCache w), w).

(** [!lastFetched] is also true of the number 0. *)
Definition lastFetchedMissing (c : ReportsCache) : bool :=
  match lastFetched c with
  | None => true
  | Some t => t =? 0
  end.

Definition shouldRefreshData (B : Browser) (c : ReportsCache) : Async World bool :=
  if lastFetchedMissing c || (length (reports c) =? 0)%nat then mret true
  else
    now ← Date_now B;
    let fiveMinutesAgo := now - 5 * 60 * 1000 in
    mret (default 0 (lastFetched c) <? fiveMinutesAgo).

Definition fetchAndCacheReports (B : Browser) (forceRefresh : bool)
  : Async World Result :=
  c ← currentCache;
  refresh ← (if forceRefresh then mret true else shouldRefreshData B c);
  if negb refresh then
    mret {| resultReports := reports c; resultSummary := summary c |}
  else
    setReportsCache (fun prev =>
      {| reports := reports prev; summary := summary prev;
         lastFetched := lastFetched prev; loading := true; error := None |});;
    try_catch
      (response ← fetch B;
       if negb (ok response) then
         throw ("HTTP error! status: " +:+ pretty (status response))
       else
         body ← await (json response);
         match body with
         | None => throw "Cannot read properties of null (reading 'reports')"
         | Some data =>
             let reports := default [] (dataReports data) in
             let summary := dataSummary data in
             now ← Date_now B;
             setReportsCache (fun _ =>
               {| reports := reports; summary := summary;
                  lastFetched := Some now; loading := false;
                  error := None |});;
             mret {| resultReports := reports; resultSummary := summary |}
         end)
      (fun message =>
         setReportsCache (fun prev =>
           {| reports := reports prev; summary := summary prev;
              lastFetched := lastFetched prev; loading := false;
              error := Some message |});;
         throw message).

Definition getReports (B : Browser) (forceRefresh : bool) : Async World Result :=
  fetchAndCacheReports B forceRefresh.

Definition clearCache : Async World unit :=
  setReportsCache (fun _ => initialCache).

Definition getCacheStatus (B : Browser) : Async World string :=
  c ← currentCache;
  if lastFetchedMissing c then mret "No data cached"
  else
    now ← Date_now B;
    let ageInMinutes := (now - default 0 (lastFetched c)) / (1000 * 60) in
    if ageInMinutes <? 1 then mret "Just updated"
    else if ageInMinutes =? 1 then mret "1 minute ago"
    else mret (pretty ageInMinutes +:+ " minutes ago").

End Cache.

(** ** The Express server: POST /login and GET /dashboard *)

Module Auth.

Import JS.

(** What the two routes take from bcryptjs and jsonwebtoken at the time
    of a request: [compareSync(password, user.password)], which throws on
    a password that is not a string; the token [jwt.sign] issues for the
    user; and [jwt.verify], which yields the decoded payload or an
    error. *)
Record Crypto : Type := {
  compareSync : value -> outcome bool;
  sign : string;
  verify : string -> outcome (gmap string value)
}.

Inductive Reply : Type :=
| SendStatus (code : nat)
| Message (code : nat) (message : string)
| Token (token : string)
| Welcome (user : gmap string value).

Definition user_email : string := "test@example.com".

(** The handler of POST /login on the [email] and [password] of the
    request body; a rejection is an exception left to Express. *)
Definition login (C : Crypto) (email password : value) : outcome Reply :=
  if negb (strict_eq_string email user_email) then
    Resolved (Message 400 "Invalid email")
  else
    match compareSync C password with
    | Rejected message => Rejected message
    | Resolved isPasswordValid =>
        if negb isPasswordValid then Resolved (Message 400 "Invalid password")
        else Resolved (Token (sign C))
    end.

(** [s.split(separator)] for a one-character separator. *)
Fixpoint split (separator : ascii) (s : string) : list string :=
  match s with
  | EmptyString => [EmptyString]
  | String c rest =>
      if Ascii.eqb c separator then EmptyString :: split separator rest
      else
        match split separator rest with
        | first :: others => String c first :: others
        | [] => [String c EmptyString]
        end
  end.

(** [authHeader && authHeader.split(" ")[1]] *)
Definition tokenOf (authorization : option string) : value :=
  match authorization with
  | None => VUndefined
  | Some authHeader =>
      if truthy (VString authHeader) then
        match split " "%char authHeader !! 1%nat with
        | Some token => VString token
        | None => VUndefined
        end
      else VString authHeader
  end.

(** The handler of GET /dashboard on the authorization header of the
    request. *)
Definition dashboard (C : Crypto) (authorization : option string) : Reply :=
  match tokenOf authorization with
  | VString token =>
      if negb (truthy (VString token)) then SendStatus 401
      else
        match verify C token with
        | Rejected _ => SendStatus 403
        | Resolved decoded => Welcome decoded
        end
  | _ => SendStatus 401
  end.

End Auth.

(** ** LoginPage.jsx and ProtectedRoute.jsx *)

Module LoginPage.

Record TokenBody : Type := { token : option string }.

(** The response of POST /login as the page reads it: [json] yields
    [None] for the document [null]. *)
Record LoginResponse : Type := {
  ok : bool;
  json : outcome (option TokenBody)
}.

Record Page : Type := {
  localStorage : gmap string string;
  error : string;
  location : string
}.

(** [localStorage.setItem(k, v)] *)
Definition setItem (k v : string) : Async Page unit :=
  fun p =>
    (Resolved tt,
     {| localStorage := <[k := v]> (localStorage p); error := error p;
        location := location p |}).

Definition navigate (to : string) : Async Page unit :=
  fun p =>
    (Resolved tt,
     {| localStorage := localStorage p; error := error p; location := to |}).

Definition setError (message : string) : Async Page unit :=
  fun p =>
    (Resolved tt,
     {| localStorage := localStorage p; error := message;
        location := location p |}).

(** [handleSubmit], given how the call of [fetch] settles.  A token that
    is absent from the body is stored as the text of [undefined]. *)
Definition handleSubmit (response : outcome LoginResponse) : Async Page unit :=
  try_catch
    (res ← await response;
     if negb (ok res) then throw "Invalid credentials"
     else
       data ← await (json res);
       match data with
       | None => throw "Cannot read properties of null (reading 'token')"
       | Some body =>
           setItem "token" (default "undefined" (token body));;
           navigate "/dashboard"
       end)
    (fun message => setError message).

Inductive Rendered : Type :=
| Navigate (to : string)
| Children.

Definition ProtectedRoute (storage : gmap string string) : Rendered :=
  match storage !! "token" with
  | Some token => if String.eqb token "" then Navigate "/" else Children
  | None => Navigate "/"
  end.

End LoginPage.

(** ** ReportGenerator.jsx *)

Module ReportGenerator.

Import Client.

(** The response of GET /api/download-report/:runId as the page reads
    it: the text of an error body, and the chunks the body reader yields
    until it is done (or the error that interrupts it). *)
Record DownloadResponse : Type := {
  ok : bool;
  status : nat;
  text : outcome string;
  chunks : outcome (list string)
}.

Record Page : Type := {
  availableReports : list Report;
  isLoading : bool;
  error : string;
  downloadingReports : gset string;
  saved : list (string * list string)
}.

Definition modify (f : Page -> Page) : Async Page unit :=
  fun p => (Resolved tt, f p).

Definition setAvailableReports (reports : list Report) : Async Page unit :=
  modify (fun p =>
    {| availableReports := reports; isLoading := isLoading p; error := error p;
       downloadingReports := downloadingReports p; saved := saved p |}).

Definition setIsLoading (b : bool) : Async Page unit :=
  modify (fun p =>
    {| availableReports := availableReports p; isLoading := b; error := error p;
       downloadingReports := downloadingReports p; saved := saved p |}).

Definition setError (message : string) : Async Page unit :=
  modify (fun p =>
    {| availableReports := availableReports p; isLoading := isLoading p;
       error := message;
       downloadingReports := downloadingReports p; saved := saved p |}).

Definition setDownloadingReports (f : gset string -> gset string)
  : Async Page unit :=
  modify (fun p =>
    {| availableReports := availableReports p; isLoading := isLoading p;
       error := error p;
       downloadingReports := f (downloadingReports p); saved := saved p |}).

(** The temporary link that is clicked: the browser saves the blob under
    the name. *)
Definition saveAs (name : string) (blob : list string) : Async Page unit :=
  modify (fun p =>
    {| availableReports := availableReports p; isLoading := isLoading p;
       error := error p;
       downloadingReports := downloadingReports p;
       saved := saved p ++ [(name, blob)] |}).

(** [try { body } finally { cleanup }] *)
Definition try_finally {S A} (body : Async S A) (cleanup : Async S unit)
  : Async S A :=
  fun s =>
    match body s with
    | (o, s') =>
        match cleanup s' with
        | (Resolved _, s'') => (o, s'')
        | (Rejected e, s'') => (Rejected e, s'')
        end
    end.

(** [fetchAvailableReports], given how the call of [fetch] settles. *)
Definition fetchAvailableReports (response : outcome Cache.HttpResponse)
  : Async Page unit :=
  try_finally
    (try_catch
       (setIsLoading true;;
        res ← await response;
        if negb (Cache.ok res) then throw "Failed to fetch reports"
        else
          data ← await (Cache.json res);
          match data with
          | None => throw "Cannot read properties of null (reading 'reports')"
          | Some d => setAvailableReports (default [] (Cache.dataReports d))
          end)
       (fun message =>
          setError ("Failed to load available reports: " +:+ message)))
    (setIsLoading false).

(** [downloadReport(runId)], given how the call of [fetch] settles. *)
Definition downloadReport (response : outcome DownloadResponse) (runId : string)
  : Async Page unit :=
  setDownloadingReports (fun prev => prev ∪ {[ runId ]});;
  setError "";;
  try_finally
    (try_catch
       (res ← await response;
        if negb (ok res) then
          errorText ← await (text res);
          throw ("Failed to download report: " +:+ pretty (status res)
                   +:+ " " +:+ errorText)
        else
          blob ← await (chunks res);
          saveAs (runId +:+ ".zip") blob)
       (fun message =>
          setError ("Failed to download " +:+ runId +:+ ": " +:+ message)))
    (setDownloadingReports (fun prev => prev ∖ {[ runId ]})).

End ReportGenerator.

(** ** allureUtils.js *)

Module Utils.

Import JS S3.

Record Run : Type := { runId : string; name : string }.

(** [listAllRuns(s3Client, s3Config)]; the [catch] rethrows. *)
Definition listAllRuns {S} (s3Client : Client) (bucketName : value)
  : Async S (list Run) :=
  try_catch
    (data ← await (listObjectsV2 s3Client
       {| Bucket := bucketName; Prefix := "reports/";
          Delimiter := Some "/"; MaxKeys := None |});
     mret (default []
             (map (fun prefix =>
                     let runId :=
                       replace (replace (PrefixOf prefix) "reports/" "") "/" "" in
                     {| runId := runId; name := runId |})
                <$> CommonPrefixes data)))
    (fun message => throw message).

(** The body of the loop of [fetchRunResults] for one file: the record
    to push, if any.  Reading a property of [null] throws; the [catch]
    of the loop absorbs whatever is thrown. *)
Definition readResult {S} (parse : string -> option json) (s3Client : Client)
    (bucketName : value) (runId : string) (file : S3Object)
  : Async S (option (gmap string value)) :=
  try_catch
    (body ← await (getObject s3Client (GetObject bucketName (Key file)));
     match parse body with
     | None => throw "Unexpected token in JSON"
     | Some (JValue VNull) =>
         throw "Cannot read properties of null (reading 'name')"
     | Some jsonContent =>
         if truthy (prop jsonContent "name") && truthy (prop jsonContent "status")
         then
           match jsonContent with
           | JObject fields =>
               mret (Some (<["s3Key" := VString (Key file)]>
                             (<["runId" := VString runId]> fields)))
           | JValue _ => mret None
           end
         else mret None
     end)
    (fun _ => mret None).

(** [fetchRunResults(s3Client, s3Config, runId)]; the outer [catch]
    rethrows. *)
Definition fetchRunResults {S} (parse : string -> option json)
    (s3Client : Client) (bucketName : value) (runId : string)
  : Async S (list (gmap string value)) :=
  try_catch
    (data ← await (listObjectsV2 s3Client
       {| Bucket := bucketName; Prefix := "reports/" +:+ runId +:+ "/";
          Delimiter := None; MaxKeys := None |});
     let jsonFiles :=
       default []
         (List.filter (fun obj => endsWith (Key obj) ".json") <$> Contents data) in
     pushed ← mapM (readResult parse s3Client bucketName runId) jsonFiles;
     mret (omap id pushed))
    (fun message => throw message).

(** The text [formatDuration] returns: a literal, or an interpolation of
    numbers. *)
Inductive Duration : Type :=
| ZeroMs
| Ms (duration : number)
| Seconds (x : ratio)
| MinSec (minutes seconds : number).

(** [Math.floor(a / k)] for a positive integer literal [k] *)
Definition floorDiv (a : number) (k : Z) : number :=
  match a with
  | Finite z => Finite (z / k)
  | other => other
  end.

(** [a % k] for a positive integer literal [k]: the sign of the dividend,
    [NaN] for a dividend that is not finite. *)
Definition remainder (a : number) (k : Z) : number :=
  match a with
  | Finite z => Finite (Z.rem z k)
  | _ => NaN
  end.

Definition formatDuration (duration : number) : Duration :=
  if negb (number_truthy duration) || lt duration (Finite 0) then ZeroMs
  else if lt duration (Finite 1000) then Ms duration
  else if lt duration (Finite 60000) then Seconds (div duration (Finite 1000))
  else
    let minutes := floorDiv duration 60000 in
    let seconds := floorDiv (remainder duration 60000) 1000 in
    MinSec minutes seconds.

(** [toLowerCase] and [trim] are the platform's. *)
Record StringOps : Type := {
  toLowerCase : string -> string;
  trim : string -> string
}.

(** [s.includes(t)] *)
Definition includes (s t : string) : bool :=
  match String.index 0 t s with
  | Some _ => true
  | None => false
  end.

Record Filters : Type := { status : string; search : string }.

(** [v?.toLowerCase().includes(searchTerm)]: skipped for [undefined] and
    [null], a TypeError for a value that is not a string. *)
Definition fieldIncludes (ops : StringOps) (v : value) (searchTerm : string)
  : outcome bool :=
  match v with
  | VUndefined | VNull => Resolved false
  | VString s => Resolved (includes (toLowerCase ops s) searchTerm)
  | _ => Rejected "toLowerCase is not a function"
  end.

Definition field (result : gmap string value) (k : string) : value :=
  default VUndefined (result !! k).

(** The callback of the search filter: [a || b || c], left to right. *)
Definition matchesSearch (ops : StringOps) (searchTerm : string)
    (result : gmap string value) : outcome bool :=
  match fieldIncludes ops (field result "name") searchTerm with
  | Rejected e => Rejected e
  | Resolved true => Resolved true
  | Resolved false =>
      match fieldIncludes ops (field result "fullName") searchTerm with
      | Rejected e => Rejected e
      | Resolved true => Resolved true
      | Resolved false =>
          fieldIncludes ops (field result "description") searchTerm
      end
  end.

(** [array.filter(callback)] for a callback that may throw. *)
Fixpoint filterThrowing {A} (callback : A -> outcome bool) (l : list A)
  : outcome (list A) :=
  match l with
  | [] => Resolved []
  | x :: rest =>
      match callback x with
      | Rejected e => Rejected e
      | Resolved keep =>
          match filterThrowing callback rest with
          | Rejected e => Rejected e
          | Resolved kept => Resolved (if keep then x :: kept else kept)
          end
      end
  end.

Definition applyFilters (ops : StringOps) (results : list (gmap string value))
    (filters : Filters) : outcome (list (gmap string value)) :=
  if (length results =? 0)%nat then Resolved []
  else
    let filtered :=
      if negb (String.eqb (status filters) "")
         && negb (String.eqb (status filters) "all")
      then List.filter
             (fun result => strict_eq_string (field result "status") (status filters))
             results
      else results in
    if negb (String.eqb (search filters) "")
       && negb (String.eqb (trim ops (search filters)) "")
    then
      let searchTerm := trim ops (toLowerCase ops (search filters)) in
      filterThrowing (matchesSearch ops searchTerm) filtered
    else Resolved filtered.

End Utils.

(** ** Vocabulary of the specification *)

Module Spec.

Import JS S3.

#[global] Instance number_eq_dec : EqDecision number.
Proof. solve_decision. Defined.

#[global] Instance value_eq_dec : EqDecision value.
Proof. solve_decision. Defined.

(** The listing command [fetchSummary] sends for a run. *)
Definition runListing (P : Platform) (execId : string) : ListObjectsV2Command :=
  {| Bucket := Fetcher.BUCKET_NAME P;
     Prefix := "reports/" +:+ execId +:+ "/";
     Delimiter := None;
     MaxKeys := Some 1000%nat |}.

(** The listing command [listAllReports] sends for the catalog. *)
Definition catalogListing (P : Platform) : ListObjectsV2Command :=
  {| Bucket := Fetcher.BUCKET_NAME P;
     Prefix := "reports/allure-results-";
     Delimiter := Some "/";
     MaxKeys := None |}.

(** What one result file contributes to [results]: its parsed document,
    [null] when the object cannot be read or parsed. *)
Definition parsedFile (P : Platform) (file : S3Object) : json :=
  match getObject (s3Client P) (GetObject (Fetcher.BUCKET_NAME P) (Key file)) with
  | Resolved body => default (JValue VNull) (JSON_parse P body)
  | Rejected _ => JValue VNull
  end.

(** The clean list of a run: the parsed documents that are truthy. *)
Definition cleanList (P : Platform) (listResult : ListObjectsV2Output) : list json :=
  List.filter Boolean (map (parsedFile P) (Fetcher.resultFilesOf listResult)).

(** The record's status is exactly the string [status]. *)
Definition hasStatus (status : string) (r : json) : Prop :=
  prop r "status" = VString status.

#[global] Instance hasStatus_dec status r : Decision (hasStatus status r).
Proof. unfold hasStatus. apply _. Defined.

(** Number of records whose status is exactly [status]. *)
Fixpoint occurrences (status : string) (records : list json) : nat :=
  match records with
  | [] => 0
  | r :: rest =>
      ((if decide (hasStatus status r) then 1 else 0) + occurrences status rest)%nat
  end.

Definition knownStatus (r : json) : Prop :=
  hasStatus "passed" r \/ hasStatus "failed" r \/
  hasStatus "broken" r \/ hasStatus "skipped" r.

(** The field is a number that [||] keeps, or a value that [||] replaces. *)
Definition timestampOrFalsy (field : string) (r : json) : Prop :=
  (exists z, prop r field = VNumber (Finite z)) \/ truthy (prop r field) = false.

(** What a record contributes to a time bound: its field when that is a
    non-zero number, a reading of the clock taken during the call when
    the field is missing or falsy. *)
Definition contributes (P : Platform) (field : string) (reads reads' : nat)
    (r : json) (z : Z) : Prop :=
  (prop r field = VNumber (Finite z) /\ z <> 0) \/
  (truthy (prop r field) = false /\
   exists k, (reads <= k < reads')%nat /\ z = clock P k).

(** Each element of [cleanResults.map(r => r.field || Date.now())] is the
    record's field when truthy, a reading of the clock otherwise. *)
Definition produced (P : Platform) (field : string) (reads reads' : nat)
    (r : json) (v : value) : Prop :=
  (truthy (prop r field) = true /\ v = prop r field) \/
  (truthy (prop r field) = false /\
   exists k, (reads <= k < reads')%nat /\ v = VNumber (Finite (clock P k))).

(** The reading of the claim: a field that is a number contributes
    itself, only an absent field contributes a reading of the clock. *)
Definition contributesWhenPresent (P : Platform) (field : string)
    (r : json) (z : Z) : Prop :=
  prop r field = VNumber (Finite z) \/
  (prop r field = VUndefined /\ exists k, z = clock P k).

Definition isMinimum (m : Z) (l : list Z) : Prop :=
  In m l /\ Forall (fun x => m <= x) l.

Definition isMaximum (m : Z) (l : list Z) : Prop :=
  In m l /\ Forall (fun x => x <= m) l.

(** The claim on time bounds as it is worded: over records whose two
    fields are numbers or absent, the bounds are the minimum and maximum of
    what [contributesWhenPresent] allows. *)
Definition timeBoundsAsWorded : Prop :=
  forall (P : Platform) (execId : string) (reads : nat)
         (listResult : ListObjectsV2Output),
    listObjectsV2 (s3Client P) (runListing P execId) = Resolved listResult ->
    cleanList P listResult <> [] ->
    Forall (fun r =>
              forall field, In field ["start"; "stop"] ->
                (exists z, prop r field = VNumber (Finite z)) \/
                prop r field = VUndefined)
           (cleanList P listResult) ->
    forall s reads',
      Fetcher.fetchSummary P execId reads = (Resolved s, reads') ->
      exists starts stops m1 m2,
        Forall2 (contributesWhenPresent P "start") (cleanList P listResult) starts /\
        Forall2 (contributesWhenPresent P "stop") (cleanList P listResult) stops /\
        isMinimum m1 starts /\ isMaximum m2 stops /\
        Fetcher.start (Fetcher.time s) = VNumber (Finite m1) /\
        Fetcher.stop (Fetcher.time s) = VNumber (Finite m2).

(** The claim on isolation as it is worded: a run whose own summary can
    be fetched is in the list the catalog returns. *)
Definition isolationAsWorded : Prop :=
  forall (P : Platform) (reads : nat) (res : ListObjectsV2Output),
    listObjectsV2 (s3Client P) (catalogListing P) = Resolved res ->
    forall runId,
      In runId (Fetcher.runIdsOf res) ->
      (exists s n n', Fetcher.fetchSummary P runId n = (Resolved s, n')) ->
      exists reports reads',
        Fetcher.listAllReports P reads = (Resolved reports, reads') /\
        In runId (map Fetcher.runId reports).

(** The five categories of a comparison. *)
Definition categories : list string :=
  ["total"; "passed"; "failed"; "broken"; "skipped"].

(** The count of a category in a run summary that has it. *)
Definition countOf (report : Client.Report) (category : string) : option Z :=
  match Client.summary report ≫= Client.statistic with
  | Some stats =>
      match stats !! category with
      | Some (Finite z) => Some z
      | _ => None
      end
  | None => None
  end.

(** The credentials the download handler requires. *)
Definition credentialsConfigured (P : Platform) : Prop :=
  truthy (or (getenv P "VITE_AWS_ACCESS_KEY") (getenv P "AWS_ACCESS_KEY")) = true /\
  truthy (or (getenv P "VITE_AWS_SECRET_KEY") (getenv P "AWS_SECRET_KEY")) = true.

Definition downloadBucket (P : Platform) : value :=
  or (or (getenv P "VITE_S3_BUCKET") (getenv P "S3_BUCKET"))
     (VString "allure-report-telephony").

Definition downloadListing (P : Platform) (runId : string) : ListObjectsV2Command :=
  {| Bucket := downloadBucket P;
     Prefix := "reports/" +:+ runId +:+ "/";
     Delimiter := None;
     MaxKeys := Some 1000%nat |}.

(** The headers of a ZIP download are present on the response. *)
Definition zipHeaders (r : Server.Response) : Prop :=
  Server.headers r !! "Content-Type" = Some "application/zip" \/
  is_Some (Server.headers r !! "Content-Disposition").

Definition isArchive (b : Server.Body) : Prop :=
  match b with
  | Server.ZipBody _ => True
  | _ => False
  end.

Definition five_minutes : Z := 5 * 60 * 1000.

(** The world after one more reading of the clock and nothing else. *)
Definition afterClockRead (w : Cache.World) : Cache.World :=
  {| Cache.reportsCache := Cache.reportsCache w;
     Cache.clockReads := S (Cache.clockReads w);
     Cache.fetchCalls := Cache.fetchCalls w |}.

(** What a failed fetch leaves of the cache [c]: its data, with the
    message. *)
Definition withError (c : Cache.ReportsCache) (message : string)
  : Cache.ReportsCache :=
  {| Cache.reports := Cache.reports c;
     Cache.summary := Cache.summary c;
     Cache.lastFetched := Cache.lastFetched c;
     Cache.loading := false;
     Cache.error := Some message |}.

(** Whether the [k]-th call of [fetch] fails, and with which message:
    the call itself rejects, the status is not ok, or the body cannot be
    read as an object. *)
Definition fetchFailure (B : Cache.Browser) (k : nat) : option string :=
  match Cache.network B k with
  | Rejected message => Some message
  | Resolved response =>
      if negb (Cache.ok response) then
        Some ("HTTP error! status: " +:+ pretty (Cache.status response))
      else
        match Cache.json response with
        | Rejected message => Some message
        | Resolved None =>
            Some "Cannot read properties of null (reading 'reports')"
        | Resolved (Some _) => None
        end
  end.

(** The claim on cache hits as it is worded: once [get(false)] has
    returned data, a [get(false)] made less than five minutes after the
    time of the fetch returns the same data without a new fetch. *)
Definition cacheHitAsWorded : Prop :=
  forall (B : Cache.Browser) (w w1 w2 : Cache.World) (r : Cache.Result) (t : Z),
    Cache.getReports B false w = (Resolved r, w1) ->
    Cache.lastFetched (Cache.reportsCache w1) = Some t ->
    Cache.reportsCache w2 = Cache.reportsCache w1 ->
    Cache.clock B (Cache.clockReads w2) - t < five_minutes ->
    exists w3,
      Cache.getReports B false w2 = (Resolved r, w3) /\
      Cache.fetchCalls w3 = Cache.fetchCalls w2.

End Spec.

(** ** Example buckets, reports and browsers *)

Module Examples.

Import JS S3.

(** A platform over a bucket given by its listings, the text of its
    objects and a table standing for [JSON.parse]; the clock reads
    1000, 1001, ... *)
Definition platformOf (listing : string -> outcome ListObjectsV2Output)
    (objects : gmap string string) (documents : gmap string json) : Platform :=
  {| process_env :=
       {[ "AWS_ACCESS_KEY" := "key"; "AWS_SECRET_KEY" := "secret" ]};
     s3Client :=
       {| listObjectsV2 := fun command => listing (Prefix command);
          getObject := fun command =>
            match command with
            | GetObject _ key =>
                match objects !! key with
                | Some text => Resolved text
                | None => Rejected "NoSuchKey"
                end
            end |};
     JSON_parse := fun text => documents !! text;
     StringToNumber := fun _ => NaN;
     clock := fun k => 1000 + Z.of_nat k;
     toISOString := fun _ => "2025-01-01T00:00:00.000Z" |}.

Definition keys (l : list string) : option (list S3Object) :=
  Some (map (fun k => {| Key := k |}) l).

Definition record (status : string) (start stop : Z) : json :=
  JObject {[ "name" := VString "test"; "status" := VString status;
             "start" := VNumber (Finite start);
             "stop" := VNumber (Finite stop) ]}.

(** Two runs.  The first has three result files, one of them not JSON,
    and a log; the second has nothing under its prefix. *)
Definition twoRuns : Platform :=
  platformOf
    (fun prefix =>
       if String.eqb prefix "reports/allure-results-" then
         Resolved {| Contents := None;
                     CommonPrefixes :=
                       Some [ {| PrefixOf := "reports/allure-results-1/" |};
                              {| PrefixOf := "reports/allure-results-2/" |} ] |}
       else if String.eqb prefix "reports/allure-results-1/" then
         Resolved {| Contents :=
                       keys [ "reports/allure-results-1/a-result.json";
                              "reports/allure-results-1/b-result.json";
                              "reports/allure-results-1/c-result.json";
                              "reports/allure-results-1/run.log" ];
                     CommonPrefixes := None |}
       else Resolved {| Contents := None; CommonPrefixes := None |})
    {[ "reports/allure-results-1/a-result.json" := "a";
       "reports/allure-results-1/b-result.json" := "b";
       "reports/allure-results-1/c-result.json" := "<html>";
       "reports/allure-results-1/run.log" := "log" ]}
    {[ "a" := record "passed" 10 20; "b" := record "failed" 5 30 ]}.

Definition firstRunListing : ListObjectsV2Output :=
  {| Contents :=
       keys [ "reports/allure-results-1/a-result.json";
              "reports/allure-results-1/b-result.json";
              "reports/allure-results-1/c-result.json";
              "reports/allure-results-1/run.log" ];
     CommonPrefixes := None |}.

Definition catalogOfTwo : ListObjectsV2Output :=
  {| Contents := None;
     CommonPrefixes :=
       Some [ {| PrefixOf := "reports/allure-results-1/" |};
              {| PrefixOf := "reports/allure-results-2/" |} ] |}.

Definition oneResultFile : ListObjectsV2Output :=
  {| Contents := keys [ "reports/run/a-result.json" ];
     CommonPrefixes := None |}.

Definition nothingListed : ListObjectsV2Output :=
  {| Contents := None; CommonPrefixes := None |}.

(** The same catalog, but the listing of the second run is refused. *)
Definition secondRunRefused : Platform :=
  platformOf
    (fun prefix =>
       if String.eqb prefix "reports/allure-results-" then
         Resolved {| Contents := None;
                     CommonPrefixes :=
                       Some [ {| PrefixOf := "reports/allure-results-1/" |};
                              {| PrefixOf := "reports/allure-results-2/" |} ] |}
       else if String.eqb prefix "reports/allure-results-1/" then
         Resolved {| Contents := None; CommonPrefixes := None |}
       else Rejected "AccessDenied")
    ∅ ∅.

(** A run whose only result file is not JSON. *)
Definition unparsableRun : Platform :=
  platformOf
    (fun _ =>
       Resolved {| Contents := keys [ "reports/run/a-result.json" ];
                   CommonPrefixes := None |})
    {[ "reports/run/a-result.json" := "<html>" ]}
    ∅.

(** A run with one record, started at the epoch. *)
Definition epochRun : Platform :=
  platformOf
    (fun _ =>
       Resolved {| Contents := keys [ "reports/run/a-result.json" ];
                   CommonPrefixes := None |})
    {[ "reports/run/a-result.json" := "a" ]}
    {[ "a" := record "passed" 0 5 ]}.

(** A bucket with nothing in it. *)
Definition emptyBucket : Platform :=
  platformOf (fun _ => Resolved {| Contents := None; CommonPrefixes := None |})
    ∅ ∅.

Definition statsOf (total passed failed broken skipped : Z) : gmap string number :=
  {[ "total" := Finite total; "passed" := Finite passed;
     "failed" := Finite failed; "broken" := Finite broken;
     "skipped" := Finite skipped ]}.

Definition reportOf (runId : string) (stats : gmap string number) : Client.Report :=
  {| Client.runId := runId;
     Client.summary :=
       Some {| Client.statistic := Some stats;
               Client.totalFiles := stats !! "total";
               Client.time := None |} |}.

(** The two runs of the scenario of the specification. *)
Definition runA : Client.Report := reportOf "run-A" (statsOf 10 7 2 1 0).
Definition runB : Client.Report := reportOf "run-B" (statsOf 10 5 3 2 0).

(** A comparison whose first report has no passed test and whose second
    has four. *)
Definition noneThenFour : Compare.Comparison :=
  Compare.compare (reportOf "before" (statsOf 4 0 4 0 0))
                  (reportOf "after" (statsOf 4 4 0 0 0)).

Definition okResponse (reports : list Client.Report) : Cache.HttpResponse :=
  {| Cache.ok := true; Cache.status := 200;
     Cache.json :=
       Resolved (Some {| Cache.dataReports := Some reports;
                         Cache.dataSummary := Some ∅ |}) |}.

(** A browser whose every fetch returns the two runs; the clock reads
    1000, 1001, ... *)
Definition steadyBrowser : Cache.Browser :=
  {| Cache.network := fun _ => Resolved (okResponse [runA; runB]);
     Cache.clock := fun k => 1000 + Z.of_nat k |}.

(** A browser whose every fetch succeeds with an empty list of reports. *)
Definition emptyBrowser : Cache.Browser :=
  {| Cache.network := fun _ => Resolved (okResponse []);
     Cache.clock := fun k => 1000 + Z.of_nat k |}.

(** A browser whose server answers 500. *)
Definition failingBrowser : Cache.Browser :=
  {| Cache.network := fun _ =>
       Resolved {| Cache.ok := false; Cache.status := 500;
                   Cache.json := Rejected "Unexpected end of JSON input" |};
     Cache.clock := fun k => 1000 + Z.of_nat k |}.

Definition emptyWorld : Cache.World :=
  {| Cache.reportsCache := Cache.initialCache;
     Cache.clockReads := 0; Cache.fetchCalls := 0 |}.

(** A cache filled with the two runs at time 1000. *)
Definition filledWorld : Cache.World :=
  {| Cache.reportsCache :=
       {| Cache.reports := [runA; runB]; Cache.summary := Some ∅;
          Cache.lastFetched := Some 1000; Cache.loading := false;
          Cache.error := None |};
     Cache.clockReads := 1; Cache.fetchCalls := 1 |}.

Definition twoRunsResult : Cache.Result :=
  {| Cache.resultReports := [runA; runB]; Cache.resultSummary := Some ∅ |}.

Definition noRunsResult : Cache.Result :=
  {| Cache.resultReports := []; Cache.resultSummary := Some ∅ |}.

(** The cache after a fetch at time 1000 that returned no report. *)
Definition fetchedNothingWorld : Cache.World :=
  {| Cache.reportsCache :=
       {| Cache.reports := []; Cache.summary := Some ∅;
          Cache.lastFetched := Some 1000; Cache.loading := false;
          Cache.error := None |};
     Cache.clockReads := 1; Cache.fetchCalls := 1 |}.

End Examples.

(** ** Further vocabulary *)

Module Terms.

Import JS S3.

(** The common prefix under which the catalog lists the run [id]. *)
Definition prefixFor (id : string) : CommonPrefix :=
  {| PrefixOf := "reports/" +:+ id +:+ "/" |}.

(** Number of records whose [field] is replaced by a reading of the
    clock. *)
Definition falsyCount (field : string) (records : list json) : nat :=
  length (List.filter (fun r => negb (truthy (prop r field))) records).


(** The string has no slash in it. *)
Definition slashFree (s : string) : Prop :=
  ~ In "/"%char (String.list_ascii_of_string s).


(** The response to a handler that has sent nothing yet. *)
Definition fresh (reads : nat) : Server.HandlerState :=
  {| Server.reads := reads; Server.res := Server.freshResponse |}.

(** The headers of a response sent by [res.json] alone. *)
Definition jsonHeaders : gmap string string :=
  <["Content-Type" := "application/json; charset=utf-8"]> ∅.


(** The string has no space in it. *)
Definition spaceFree (s : string) : Prop :=
  ~ In " "%char (String.list_ascii_of_string s).

(** Whether a login attempt fails, and with which message: the call of
    [fetch] rejects, the status is not ok, or the body cannot be read as
    an object. *)
Definition loginFailure (response : outcome LoginPage.LoginResponse)
  : option string :=
  match response with
  | Rejected message => Some message
  | Resolved res =>
      if negb (LoginPage.ok res) then Some "Invalid credentials"
      else
        match LoginPage.json res with
        | Rejected message => Some message
        | Resolved None =>
            Some "Cannot read properties of null (reading 'token')"
        | Resolved (Some _) => None
        end
  end.

(** How the request for the list of reports ends for the pages that
    issue it themselves: the reports to show, or the message of the
    failure. *)
Definition reportsOutcome (response : outcome Cache.HttpResponse)
  : outcome (list Client.Report) :=
  match response with
  | Rejected message => Rejected message
  | Resolved res =>
      if negb (Cache.ok res) then Rejected "Failed to fetch reports"
      else
        match Cache.json res with
        | Rejected message => Rejected message
        | Resolved None =>
            Rejected "Cannot read properties of null (reading 'reports')"
        | Resolved (Some data) => Resolved (default [] (Cache.dataReports data))
        end
  end.

(** How a download ends: the chunks of the archive, or the message of
    the failure. *)
Definition downloadOutcome (response : outcome ReportGenerator.DownloadResponse)
  : outcome (list string) :=
  match response with
  | Rejected message => Rejected message
  | Resolved res =>
      if negb (ReportGenerator.ok res) then
        match ReportGenerator.text res with
        | Rejected message => Rejected message
        | Resolved errorText =>
            Rejected ("Failed to download report: "
                        +:+ pretty (ReportGenerator.status res)
                        +:+ " " +:+ errorText)
        end
      else ReportGenerator.chunks res
  end.

(** The record [fetchRunResults] pushes for one listed file, if any: the
    parsed object, when it has a truthy name and a truthy status, tagged
    with the run and the key. *)
Definition recordOf (parse : string -> option json) (s3Client : Client)
    (bucket : value) (runId : string) (file : S3Object)
  : option (gmap string value) :=
  match getObject s3Client (GetObject bucket (Key file)) with
  | Resolved body =>
      match parse body with
      | Some (JObject fields) =>
          if truthy (default VUndefined (fields !! "name"))
             && truthy (default VUndefined (fields !! "status"))
          then Some (<["s3Key" := VString (Key file)]>
                       (<["runId" := VString runId]> fields))
          else None
      | _ => None
      end
  | Rejected _ => None
  end.

(** The listing command [fetchRunResults] sends. *)
Definition resultsListing (bucket : value) (runId : string) : ListObjectsV2Command :=
  {| Bucket := bucket; Prefix := "reports/" +:+ runId +:+ "/";
     Delimiter := None; MaxKeys := None |}.

(** The listing command [listAllRuns] sends. *)
Definition runsListing (bucket : value) : ListObjectsV2Command :=
  {| Bucket := bucket; Prefix := "reports/"; Delimiter := Some "/";
     MaxKeys := None |}.

(** The status filter is in force. *)
Definition statusFiltered (filters : Utils.Filters) : Prop :=
  Utils.status filters <> "" /\ Utils.status filters <> "all".

(** The search box is empty or blank. *)
Definition searchBlank (ops : Utils.StringOps) (filters : Utils.Filters) : Prop :=
  Utils.search filters = "" \/ Utils.trim ops (Utils.search filters) = "".

End Terms.

(** ** Further example runs, pages and filters *)

Module Scenarios.

Import JS S3.

(** The summary of the first of the two runs of [Examples.twoRuns]. *)
Definition firstRunSummary : Fetcher.Summary :=
  {| Fetcher.statistic :=
       {| Fetcher.total := 2%nat; Fetcher.passed := 1%nat; Fetcher.failed := 1%nat;
          Fetcher.broken := 0%nat; Fetcher.skipped := 0%nat |};
     Fetcher.time :=
       {| Fetcher.start := VNumber (Finite 5); Fetcher.stop := VNumber (Finite 30) |};
     Fetcher.totalFiles := 3%nat |}.

(** The summary of [Examples.epochRun] when the clock reads 1000: the
    start of its record, 0, has been replaced by the reading. *)
Definition epochRunSummary : Fetcher.Summary :=
  {| Fetcher.statistic :=
       {| Fetcher.total := 1%nat; Fetcher.passed := 1%nat; Fetcher.failed := 0%nat;
          Fetcher.broken := 0%nat; Fetcher.skipped := 0%nat |};
     Fetcher.time :=
       {| Fetcher.start := VNumber (Finite 1000); Fetcher.stop := VNumber (Finite 5) |};
     Fetcher.totalFiles := 1%nat |}.

(** The listings of the two runs of [Examples.twoRuns]. *)
Definition listingsOfTwo (runId : string) : ListObjectsV2Output :=
  if String.eqb runId "allure-results-1" then Examples.firstRunListing
  else Examples.nothingListed.

(** The login page before an attempt, with the token of an earlier
    session still stored. *)
Definition loginScreen : LoginPage.Page :=
  {| LoginPage.localStorage := {[ "token" := "earlier" ]};
     LoginPage.error := ""; LoginPage.location := "/" |}.

(** The answer 400 of POST /login: a body with a message and no token. *)
Definition loginRefused : LoginPage.LoginResponse :=
  {| LoginPage.ok := false;
     LoginPage.json := Resolved (Some {| LoginPage.token := None |}) |}.

Definition issuedToken : LoginPage.TokenBody :=
  {| LoginPage.token := Some "header.payload.signature" |}.

Definition loginAccepted : LoginPage.LoginResponse :=
  {| LoginPage.ok := true; LoginPage.json := Resolved (Some issuedToken) |}.

(** [toLowerCase] and [trim] on ASCII letters and spaces. *)
Definition lowerAscii (c : ascii) : ascii :=
  let n := nat_of_ascii c in
  if (65 <=? n)%nat && (n <=? 90)%nat then ascii_of_nat (n + 32) else c.

Fixpoint lowerString (s : string) : string :=
  match s with
  | EmptyString => EmptyString
  | String c rest => String (lowerAscii c) (lowerString rest)
  end.

Fixpoint trimStart (s : string) : string :=
  match s with
  | String c rest => if Ascii.eqb c " " then trimStart rest else s
  | EmptyString => EmptyString
  end.

Fixpoint trimEnd (s : string) : string :=
  match s with
  | EmptyString => EmptyString
  | String c rest =>
      match trimEnd rest with
      | EmptyString => if Ascii.eqb c " " then EmptyString else String c EmptyString
      | kept => String c kept
      end
  end.

Definition asciiOps : Utils.StringOps :=
  {| Utils.toLowerCase := lowerString;
     Utils.trim := fun s => trimEnd (trimStart s) |}.

Definition testResult (name status : string) : gmap string value :=
  {[ "name" := VString name; "status" := VString status ]}.

Definition threeResults : list (gmap string value) :=
  [ testResult "login works" "passed";
    testResult "logout works" "failed";
    testResult "dial tone" "passed" ].

Definition passedLogin : Utils.Filters :=
  {| Utils.status := "passed"; Utils.search := " Login " |}.

Definition everything : Utils.Filters :=
  {| Utils.status := "all"; Utils.search := "  " |}.

End Scenarios.

(** * Properties *)

(** ** The Run Summarizer and the Run Catalog *)

(** Unfold the monad of [Async] computations down to pattern matching. *)
Ltac run_async :=
  unfold mbind, mret, Async_bind, Async_ret, await, throw, try_catch in *;
  cbn beta iota in *.

Section FetcherProperties.

Import JS S3 Fetcher Spec.

Variable P : Platform.

Lemma fetchResult_settles (file : S3Object) (reads : nat) :
  fetchResult P file reads = (Resolved (parsedFile P file), reads).
Proof.
  unfold fetchResult, parsedFile. run_async.
  destruct (getObject _ _) as [body|message]; [|reflexivity].
  destruct (JSON_parse P body); reflexivity.
Qed.

Lemma results_settle (files : list S3Object) (reads : nat) :
  mapM (fetchResult P) files reads = (Resolved (map (parsedFile P) files), reads).
Proof.
  induction files as [|file files IH]; [reflexivity|].
  cbn [mapM map]. run_async.
  rewrite fetchResult_settles, IH. reflexivity.
Qed.

Lemma or_now_settles (field : string) (r : json) (reads : nat) :
  exists v reads',
    or_now P (prop r field) reads = (Resolved v, reads') /\
    (reads <= reads')%nat /\
    ((truthy (prop r field) = true /\ v = prop r field /\ reads' = reads) \/
     (truthy (prop r field) = false /\ v = VNumber (Finite (clock P reads)) /\
      reads' = S reads)).
Proof.
  unfold or_now. destruct (truthy (prop r field)) eqn:Htruthy.
  - exists (prop r field), reads. run_async. split; [reflexivity|]. split; [lia|].
    left. auto.
  - exists (VNumber (Finite (clock P reads))), (S reads).
    unfold Date_now. run_async. split; [reflexivity|]. split; [lia|].
    right. auto.
Qed.

Lemma produced_mono field a a' b b' r v :
  (a' <= a)%nat -> (b <= b')%nat -> produced P field a b r v -> produced P field a' b' r v.
Proof.
  intros Ha Hb [H|[Hf [k [Hk Hv]]]]; [left; exact H|].
  right. split; [exact Hf|]. exists k. split; [lia|exact Hv].
Qed.

Lemma bounds_settle (field : string) (records : list json) (reads : nat) :
  exists vs reads',
    mapM (fun r => or_now P (prop r field)) records reads = (Resolved vs, reads') /\
    (reads <= reads')%nat /\
    Forall2 (produced P field reads reads') records vs.
Proof.
  revert reads. induction records as [|r records IH]; intros reads.
  - exists [], reads. cbn. run_async. split; [reflexivity|]. split; [lia|constructor].
  - destruct (or_now_settles field r reads) as (v & n1 & Hv & Hle & Hcase).
    destruct (IH n1) as (vs & n2 & Hvs & Hle2 & Hall).
    exists (v :: vs), n2. cbn [mapM]. run_async. rewrite Hv, Hvs.
    split; [reflexivity|]. split; [lia|].
    constructor.
    + destruct Hcase as [(Ht & -> & ->)|(Hf & -> & ->)].
      * left. auto.
      * right. split; [exact Hf|]. exists reads. split; [lia|reflexivity].
    + eapply Forall2_impl; [exact Hall|].
      intros r' v'. apply produced_mono; lia.
Qed.

Lemma strict_eq_string_spec (v : value) (s : string) :
  strict_eq_string v s = true <-> v = VString s.
Proof.
  destruct v; cbn; try (split; [discriminate|intros H; discriminate H]).
  rewrite String.eqb_eq. split; [intros ->; reflexivity|intros H; congruence].
Qed.

Lemma countStatus_occurrences (status : string) (records : list json) :
  countStatus status records = occurrences status records.
Proof.
  unfold countStatus. induction records as [|r records IH]; [reflexivity|].
  cbn [List.filter occurrences].
  destruct (strict_eq_string (prop r "status") status) eqn:Heq.
  - apply strict_eq_string_spec in Heq.
    destruct (decide (hasStatus status r)) as [_|Hn]; [|contradiction].
    cbn. rewrite IH. reflexivity.
  - destruct (decide (hasStatus status r)) as [Hy|_].
    + apply strict_eq_string_spec in Hy. congruence.
    + cbn. exact IH.
Qed.

Lemma known_statuses_partition (records : list json) :
  Forall knownStatus records ->
  (occurrences "passed" records + occurrences "failed" records +
   occurrences "broken" records + occurrences "skipped" records)%nat
  = length records.
Proof.
  induction 1 as [|r records Hr _ IH]; [reflexivity|].
  cbn [occurrences length]. rewrite <- IH.
  unfold knownStatus, hasStatus in Hr.
  repeat destruct (decide (hasStatus _ r)) as [?H|?H];
    unfold hasStatus in *; try congruence; try lia.
  destruct Hr as [?|[?|[?|?]]]; contradiction.
Qed.

Lemma fetchSummary_unfold (execId : string) (reads : nat)
    (listResult : ListObjectsV2Output) :
  listObjectsV2 (s3Client P) (runListing P execId) = Resolved listResult ->
  resultFilesOf listResult <> [] ->
  exists reads1 reads2 starts stops,
    mapM (fun r => or_now P (prop r "start")) (cleanList P listResult) reads
      = (Resolved starts, reads1) /\
    mapM (fun r => or_now P (prop r "stop")) (cleanList P listResult) reads1
      = (Resolved stops, reads2) /\
    Forall2 (produced P "start" reads reads2) (cleanList P listResult) starts /\
    Forall2 (produced P "stop" reads reads2) (cleanList P listResult) stops /\
    fetchSummary P execId reads =
      (Resolved
         {| statistic :=
              {| total := length (cleanList P listResult);
                 passed := countStatus "passed" (cleanList P listResult);
                 failed := countStatus "failed" (cleanList P listResult);
                 broken := countStatus "broken" (cleanList P listResult);
                 skipped := countStatus "skipped" (cleanList P listResult) |};
            time :=
              {| start := VNumber (Math_min (map (ToNumber (StringToNumber P)) starts));
                 stop := VNumber (Math_max (map (ToNumber (StringToNumber P)) stops)) |};
            totalFiles := length (resultFilesOf listResult) |},
       reads2).
Proof.
  intros Hlist Hfiles.
  destruct (bounds_settle "start" (cleanList P listResult) reads)
    as (starts & reads1 & Hstarts & Hle1 & Hall1).
  destruct (bounds_settle "stop" (cleanList P listResult) reads1)
    as (stops & reads2 & Hstops & Hle2 & Hall2).
  exists reads1, reads2, starts, stops.
  split; [exact Hstarts|]. split; [exact Hstops|].
  split; [eapply Forall2_impl; [exact Hall1|]; intros; eapply produced_mono; [| |eassumption]; lia|].
  split; [eapply Forall2_impl; [exact Hall2|]; intros; eapply produced_mono; [| |eassumption]; lia|].
  unfold fetchSummary. fold (runListing P execId). run_async. rewrite Hlist.
  destruct (resultFilesOf listResult) as [|file files] eqn:Hrf; [contradiction|].
  cbn [length Nat.eqb]. rewrite results_settle.
  unfold cleanList in *. rewrite Hrf in *.
  rewrite Hstarts, Hstops. reflexivity.
Qed.

Lemma fetchSummary_no_result_files (execId : string) (reads : nat)
    (listResult : ListObjectsV2Output) :
  listObjectsV2 (s3Client P) (runListing P execId) = Resolved listResult ->
  resultFilesOf listResult = [] ->
  fetchSummary P execId reads =
    (Resolved
       {| statistic :=
            {| total := 0; passed := 0; failed := 0; broken := 0; skipped := 0 |};
          time := {| start := VNull; stop := VNull |};
          totalFiles := 0 |},
     reads).
Proof.
  intros Hlist Hfiles.
  unfold fetchSummary. fold (runListing P execId). run_async.
  rewrite Hlist, Hfiles. reflexivity.
Qed.

Lemma fetchSummary_settles (execId : string) (reads : nat)
    (listResult : ListObjectsV2Output) :
  listObjectsV2 (s3Client P) (runListing P execId) = Resolved listResult ->
  exists s reads', fetchSummary P execId reads = (Resolved s, reads').
Proof.
  intros Hlist.
  destruct (resultFilesOf listResult) as [|file files] eqn:Hrf.
  - eexists _, _. apply (fetchSummary_no_result_files _ _ _ Hlist Hrf).
  - destruct (fetchSummary_unfold execId reads listResult Hlist)
      as (r1 & r2 & starts & stops & _ & _ & _ & _ & Heq); [congruence|].
    eexists _, _. exact Heq.
Qed.

Lemma Math_min_finite (zs : list Z) :
  zs <> [] ->
  exists m, Math_min (map Finite zs) = Finite m /\ isMinimum m zs.
Proof.
  induction zs as [|z zs IH]; [congruence|]. intros _.
  destruct zs as [|z' zs].
  - exists z. cbn. split; [reflexivity|].
    split; [left; reflexivity|]. constructor; [lia|constructor].
  - destruct IH as (m & Hm & Hin & Hall); [congruence|].
    exists (Z.min z m). unfold Math_min in *. cbn [map foldr] in *.
    rewrite Hm. cbn [min2]. split; [reflexivity|]. split.
    + destruct (Z.min_spec z m) as [[_ ->]|[_ ->]]; [left; reflexivity|right; exact Hin].
    + constructor; [lia|].
      eapply Forall_impl; [exact Hall|]. cbn. intros x Hx. lia.
Qed.

Lemma Math_max_finite (zs : list Z) :
  zs <> [] ->
  exists m, Math_max (map Finite zs) = Finite m /\ isMaximum m zs.
Proof.
  induction zs as [|z zs IH]; [congruence|]. intros _.
  destruct zs as [|z' zs].
  - exists z. cbn. split; [reflexivity|].
    split; [left; reflexivity|]. constructor; [lia|constructor].
  - destruct IH as (m & Hm & Hin & Hall); [congruence|].
    exists (Z.max z m). unfold Math_max in *. cbn [map foldr] in *.
    rewrite Hm. cbn [max2]. split; [reflexivity|]. split.
    + destruct (Z.max_spec z m) as [[_ ->]|[_ ->]]; [right; exact Hin|left; reflexivity].
    + constructor; [lia|].
      eapply Forall_impl; [exact Hall|]. cbn. intros x Hx. lia.
Qed.

(** Over records whose field is a number or falsy, what the map produces
    is a list of integers, each contributed as [contributes] says. *)
Lemma produced_timestamps (field : string) (reads reads' : nat)
    (records : list json) (vs : list value) :
  Forall (timestampOrFalsy field) records ->
  Forall2 (produced P field reads reads') records vs ->
  exists zs,
    map (ToNumber (StringToNumber P)) vs = map Finite zs /\
    Forall2 (contributes P field reads reads') records zs.
Proof.
  intros Hok Hall. induction Hall as [|r v records vs Hrv _ IH].
  - exists []. split; [reflexivity|constructor].
  - inversion Hok as [|? ? Hr Hrest]; subst.
    destruct (IH Hrest) as (zs & Hzs & Hcs).
    destruct Hrv as [[Ht ->]|[Hf [k [Hk ->]]]].
    + destruct Hr as [[z Hz]|Hfalsy]; [|congruence].
      exists (z :: zs). cbn [map]. rewrite Hz, Hzs. split; [reflexivity|].
      constructor; [|exact Hcs]. left. split; [exact Hz|].
      intros ->. rewrite Hz in Ht. discriminate Ht.
    + exists (clock P k :: zs). cbn [map ToNumber]. rewrite Hzs.
      split; [reflexivity|]. constructor; [|exact Hcs].
      right. split; [exact Hf|]. exists k. split; [exact Hk|reflexivity].
Qed.

(** C1: the summary a run's records produce has [total] equal to the
    length of the clean list, each per-status count equal to the number of
    clean records whose status is exactly that string, and the four counts
    sum to [total] when every status is one of the four known values. *)
Theorem summary_counts (execId : string) (reads : nat)
    (listResult : ListObjectsV2Output) :
  listObjectsV2 (s3Client P) (runListing P execId) = Resolved listResult ->
  exists s reads',
    fetchSummary P execId reads = (Resolved s, reads') /\
    total (statistic s) = length (cleanList P listResult) /\
    passed (statistic s) = occurrences "passed" (cleanList P listResult) /\
    failed (statistic s) = occurrences "failed" (cleanList P listResult) /\
    broken (statistic s) = occurrences "broken" (cleanList P listResult) /\
    skipped (statistic s) = occurrences "skipped" (cleanList P listResult) /\
    (Forall knownStatus (cleanList P listResult) ->
     (passed (statistic s) + failed (statistic s) + broken (statistic s)
      + skipped (statistic s))%nat = total (statistic s)).
Proof.
  intros Hlist.
  destruct (resultFilesOf listResult) as [|file files] eqn:Hrf.
  - eexists _, _. split; [apply (fetchSummary_no_result_files _ _ _ Hlist Hrf)|].
    unfold cleanList. rewrite Hrf. cbn. repeat split; reflexivity.
  - destruct (fetchSummary_unfold execId reads listResult Hlist)
      as (r1 & r2 & starts & stops & _ & _ & _ & _ & Heq); [congruence|].
    eexists _, _. split; [exact Heq|]. cbn [statistic total passed failed broken skipped].
    rewrite !countStatus_occurrences.
    repeat split; try reflexivity.
    apply known_statuses_partition.
Qed.

(** C8 (amended): over a non-empty clean list whose start and stop fields
    are numbers or falsy, [start] is the minimum and [stop] the maximum of
    what the records contribute: the field itself when it is a non-zero
    number, a reading of the clock taken during the call when the field is
    missing or falsy (undefined, null, 0, false, the empty string). *)
Theorem summary_time_bounds (execId : string) (reads : nat)
    (listResult : ListObjectsV2Output) :
  listObjectsV2 (s3Client P) (runListing P execId) = Resolved listResult ->
  cleanList P listResult <> [] ->
  Forall (timestampOrFalsy "start") (cleanList P listResult) ->
  Forall (timestampOrFalsy "stop") (cleanList P listResult) ->
  exists s reads' starts stops m1 m2,
    fetchSummary P execId reads = (Resolved s, reads') /\
    Forall2 (contributes P "start" reads reads') (cleanList P listResult) starts /\
    Forall2 (contributes P "stop" reads reads') (cleanList P listResult) stops /\
    isMinimum m1 starts /\ isMaximum m2 stops /\
    start (time s) = VNumber (Finite m1) /\
    stop (time s) = VNumber (Finite m2).
Proof.
  intros Hlist Hclean Hstart Hstop.
  assert (Hfiles : resultFilesOf listResult <> []).
  { intros Hnil. apply Hclean. unfold cleanList. rewrite Hnil. reflexivity. }
  destruct (fetchSummary_unfold execId reads listResult Hlist Hfiles)
    as (r1 & r2 & vstarts & vstops & _ & _ & Hp1 & Hp2 & Heq).
  destruct (produced_timestamps "start" _ _ _ _ Hstart Hp1) as (starts & Hs1 & Hc1).
  destruct (produced_timestamps "stop" _ _ _ _ Hstop Hp2) as (stops & Hs2 & Hc2).
  assert (Hne1 : starts <> []).
  { intros ->. inversion Hc1 as [Hnil|]. congruence. }
  assert (Hne2 : stops <> []).
  { intros ->. inversion Hc2 as [Hnil|]. congruence. }
  destruct (Math_min_finite starts Hne1) as (m1 & Hm1 & Hmin).
  destruct (Math_max_finite stops Hne2) as (m2 & Hm2 & Hmax).
  eexists _, r2, starts, stops, m1, m2.
  split; [exact Heq|]. cbn [time start stop].
  rewrite Hs1, Hs2, Hm1, Hm2. auto 10.
Qed.

Lemma reports_settle (runIds : list string) (reads : nat) :
  (forall runId, In runId runIds ->
     exists listResult,
       listObjectsV2 (s3Client P) (runListing P runId) = Resolved listResult) ->
  exists reports reads',
    mapM (fun runId =>
            summary ← fetchSummary P runId;
            mret {| runId := runId; summary := summary |}) runIds reads
      = (Resolved reports, reads') /\
    map runId reports = runIds /\
    Forall (fun report =>
              exists n n',
                fetchSummary P (runId report) n = (Resolved (summary report), n'))
           reports.
Proof.
  revert reads. induction runIds as [|id runIds IH]; intros reads Hall.
  - exists [], reads. repeat split. constructor.
  - destruct (Hall id) as (listResult & Hlist); [left; reflexivity|].
    destruct (fetchSummary_settles id reads listResult Hlist) as (s & n1 & Hs).
    destruct (IH n1) as (reports & n2 & Hreports & Hids & Hsums).
    { intros runId Hin. apply Hall. right. exact Hin. }
    exists ({| runId := id; summary := s |} :: reports), n2.
    cbn [mapM]. run_async. rewrite Hs. run_async.
    unfold mbind, Async_bind, mret, Async_ret in Hreports. rewrite Hreports.
    split; [reflexivity|]. split; [cbn; rewrite Hids; reflexivity|].
    constructor; [|exact Hsums]. exists reads, n1. exact Hs.
Qed.

Lemma fetchSummary_rejects (execId : string) (reads : nat) (message : string) :
  listObjectsV2 (s3Client P) (runListing P execId) = Rejected message ->
  fetchSummary P execId reads = (Rejected message, reads).
Proof.
  intros Hlist. unfold fetchSummary. fold (runListing P execId). run_async.
  rewrite Hlist. reflexivity.
Qed.

Lemma reports_reject (runIds : list string) (reads : nat) :
  (exists runId message,
     In runId runIds /\
     listObjectsV2 (s3Client P) (runListing P runId) = Rejected message) ->
  exists message reads',
    mapM (fun runId =>
            summary ← fetchSummary P runId;
            mret {| runId := runId; summary := summary |}) runIds reads
      = (Rejected message, reads').
Proof.
  revert reads. induction runIds as [|id runIds IH]; intros reads Hbad.
  - destruct Hbad as (runId & message & [] & _).
  - cbn [mapM]. run_async.
    destruct (listObjectsV2 (s3Client P) (runListing P id))
      as [listResult|message] eqn:Hlist.
    + destruct (fetchSummary_settles id reads listResult Hlist) as (s & n1 & Hs).
      rewrite Hs. run_async.
      destruct (IH n1) as (message & n2 & Hrest).
      { destruct Hbad as (runId & message & [<-|Hin] & Hrej); [congruence|].
        exists runId, message. split; assumption. }
      unfold mbind, Async_bind, mret, Async_ret in Hrest. rewrite Hrest.
      exists message, n2. reflexivity.
    + rewrite (fetchSummary_rejects id reads message Hlist).
      exists message, reads. reflexivity.
Qed.

(** C6 (amended): a file that cannot be fetched or parsed removes no run
    from the list: when the object listing of every enumerated run
    succeeds, every run appears in the output, in listing order, with the
    summary [fetchSummary] returned for it; when the object listing of
    some enumerated run fails, the whole call fails. *)
Theorem catalog_lists_every_run (reads : nat) (res : ListObjectsV2Output) :
  listObjectsV2 (s3Client P) (catalogListing P) = Resolved res ->
  ((forall runId, In runId (runIdsOf res) ->
      exists listResult,
        listObjectsV2 (s3Client P) (runListing P runId) = Resolved listResult) ->
   exists reports reads',
     listAllReports P reads = (Resolved reports, reads') /\
     map runId reports = runIdsOf res /\
     Forall (fun report =>
               exists n n',
                 fetchSummary P (runId report) n = (Resolved (summary report), n'))
            reports) /\
  ((exists runId message,
      In runId (runIdsOf res) /\
      listObjectsV2 (s3Client P) (runListing P runId) = Rejected message) ->
   exists message reads',
     listAllReports P reads = (Rejected message, reads')).
Proof.
  intros Hcatalog. split.
  - intros Hruns.
    destruct (reports_settle (runIdsOf res) reads Hruns)
      as (reports & reads' & Hrun & Hids & Hsums).
    exists reports, reads'. split; [|split; assumption].
    unfold listAllReports. fold (catalogListing P). run_async.
    rewrite Hcatalog. exact Hrun.
  - intros Hbad.
    destruct (reports_reject (runIdsOf res) reads Hbad) as (message & reads' & Hrun).
    exists message, reads'.
    unfold listAllReports. fold (catalogListing P). run_async.
    rewrite Hcatalog. exact Hrun.
Qed.

End FetcherProperties.

Section FetcherExamples.

Import JS S3 Fetcher Spec Examples.

Lemma summary_counts_witness :
  listObjectsV2 (s3Client twoRuns) (runListing twoRuns "allure-results-1")
    = Resolved firstRunListing /\
  exists s reads',
    fetchSummary twoRuns "allure-results-1" 0%nat = (Resolved s, reads') /\
    total (statistic s) = length (cleanList twoRuns firstRunListing) /\
    passed (statistic s) = occurrences "passed" (cleanList twoRuns firstRunListing) /\
    failed (statistic s) = occurrences "failed" (cleanList twoRuns firstRunListing) /\
    broken (statistic s) = occurrences "broken" (cleanList twoRuns firstRunListing) /\
    skipped (statistic s) = occurrences "skipped" (cleanList twoRuns firstRunListing) /\
    (Forall knownStatus (cleanList twoRuns firstRunListing) ->
     (passed (statistic s) + failed (statistic s) + broken (statistic s)
      + skipped (statistic s))%nat = total (statistic s)).
Proof.
  split; [vm_compute; reflexivity|].
  apply (summary_counts twoRuns "allure-results-1" 0%nat firstRunListing).
  vm_compute; reflexivity.
Defined.

(** The scenario of the specification: seven passed, two failed and one
    broken record are counted as such; a status in another case is not. *)
Example occurrences_scenario :
  let records :=
    (replicate 7 (record "passed" 1 2) ++ replicate 2 (record "failed" 1 2)
       ++ [record "broken" 1 2; record "Passed" 1 2])%list in
  (countStatus "passed" records, countStatus "failed" records,
   countStatus "broken" records, countStatus "skipped" records,
   length records) = (7, 2, 1, 0, 11)%nat.
Proof. vm_compute. reflexivity. Qed.

(** C2: a run whose only result file is not JSON has an empty clean
    list; its summary has all counts 0, but its time bounds are the
    values of [Math.min()] and [Math.max()] of no argument, not null. *)
Theorem unparsable_run_time_bounds :
  cleanList unparsableRun oneResultFile = [] /\
  fetchSummary unparsableRun "run" 0%nat =
    (Resolved
       {| statistic :=
            {| total := 0; passed := 0; failed := 0; broken := 0; skipped := 0 |};
          time := {| start := VNumber Infinity; stop := VNumber NegInfinity |};
          totalFiles := 1 |},
     0%nat).
Proof. split; vm_compute; reflexivity. Qed.

Lemma epochRun_clean : cleanList epochRun oneResultFile = [record "passed" 0 5].
Proof. vm_compute. reflexivity. Qed.

(** C8, as worded, fails on a run whose single record starts at 0: the
    record has the field, yet the summary starts at the clock reading
    1000. *)
Lemma time_bounds_counterexample : ~ timeBoundsAsWorded.
Proof.
  intros Hclaim.
  destruct (Hclaim epochRun "run" 0%nat oneResultFile) with
    (s := {| statistic :=
               {| total := 1; passed := 1; failed := 0; broken := 0; skipped := 0 |};
             time := {| start := VNumber (Finite 1000); stop := VNumber (Finite 5) |};
             totalFiles := 1 |})
    (reads' := 1%nat)
    as (starts & stops & m1 & m2 & Hstarts & _ & [Hin _] & _ & Hstart & _).
  - vm_compute. reflexivity.
  - rewrite epochRun_clean. discriminate.
  - rewrite epochRun_clean. constructor; [|constructor].
    intros field [<-|[<-|[]]]; left; eexists; vm_compute; reflexivity.
  - vm_compute. reflexivity.
  - rewrite epochRun_clean in Hstarts.
    inversion Hstarts as [|r z rs zs Hz Hrest]; subst.
    inversion Hrest; subst.
    assert (Hfield : prop (record "passed" 0 5) "start" = VNumber (Finite 0))
      by (vm_compute; reflexivity).
    destruct Hin as [<-|[]].
    destruct Hz as [Hz|[Hz _]]; rewrite Hfield in Hz; [|discriminate Hz].
    cbn [time start] in Hstart. congruence.
Qed.

Lemma summary_time_bounds_witness :
  listObjectsV2 (s3Client twoRuns) (runListing twoRuns "allure-results-1")
    = Resolved firstRunListing /\
  cleanList twoRuns firstRunListing <> [] /\
  Forall (timestampOrFalsy "start") (cleanList twoRuns firstRunListing) /\
  Forall (timestampOrFalsy "stop") (cleanList twoRuns firstRunListing) /\
  exists s reads' starts stops m1 m2,
    fetchSummary twoRuns "allure-results-1" 0%nat = (Resolved s, reads') /\
    Forall2 (contributes twoRuns "start" 0%nat reads')
      (cleanList twoRuns firstRunListing) starts /\
    Forall2 (contributes twoRuns "stop" 0%nat reads')
      (cleanList twoRuns firstRunListing) stops /\
    isMinimum m1 starts /\ isMaximum m2 stops /\
    start (time s) = VNumber (Finite m1) /\
    stop (time s) = VNumber (Finite m2).
Proof.
  assert (Hclean : cleanList twoRuns firstRunListing
                   = [record "passed" 10 20; record "failed" 5 30])
    by (vm_compute; reflexivity).
  assert (Hlist : listObjectsV2 (s3Client twoRuns)
                    (runListing twoRuns "allure-results-1")
                  = Resolved firstRunListing)
    by (vm_compute; reflexivity).
  assert (Hne : cleanList twoRuns firstRunListing <> [])
    by (rewrite Hclean; discriminate).
  assert (Hstart : Forall (timestampOrFalsy "start") (cleanList twoRuns firstRunListing)).
  { rewrite Hclean.
    constructor; [left; eexists; vm_compute; reflexivity|].
    constructor; [left; eexists; vm_compute; reflexivity|constructor]. }
  assert (Hstop : Forall (timestampOrFalsy "stop") (cleanList twoRuns firstRunListing)).
  { rewrite Hclean.
    constructor; [left; eexists; vm_compute; reflexivity|].
    constructor; [left; eexists; vm_compute; reflexivity|constructor]. }
  repeat (split; [assumption|]).
  exact (summary_time_bounds twoRuns "allure-results-1" 0%nat firstRunListing
           Hlist Hne Hstart Hstop).
Defined.

(** C6, as worded, fails when the listing of the second run is refused:
    the first run can be summarized, yet [listAllReports] rejects and
    returns no list at all. *)
Lemma isolation_counterexample : ~ isolationAsWorded.
Proof.
  intros Hclaim.
  destruct (Hclaim secondRunRefused 0%nat catalogOfTwo) with
    (runId := "allure-results-1")
    as (reports & reads' & Hrun & _).
  - vm_compute. reflexivity.
  - vm_compute. left. reflexivity.
  - eexists _, 0%nat, _. vm_compute. reflexivity.
  - vm_compute in Hrun. discriminate Hrun.
Qed.

Lemma catalog_lists_every_run_witness :
  listObjectsV2 (s3Client twoRuns) (catalogListing twoRuns) = Resolved catalogOfTwo /\
  (forall runId, In runId (runIdsOf catalogOfTwo) ->
     exists listResult,
       listObjectsV2 (s3Client twoRuns) (runListing twoRuns runId)
         = Resolved listResult) /\
  exists reports reads',
    listAllReports twoRuns 0%nat = (Resolved reports, reads') /\
    map runId reports = runIdsOf catalogOfTwo /\
    Forall (fun report =>
              exists n n',
                fetchSummary twoRuns (runId report) n
                  = (Resolved (summary report), n'))
           reports.
Proof.
  assert (Hcatalog : listObjectsV2 (s3Client twoRuns) (catalogListing twoRuns)
                     = Resolved catalogOfTwo)
    by (vm_compute; reflexivity).
  assert (Hruns : forall runId, In runId (runIdsOf catalogOfTwo) ->
            exists listResult,
              listObjectsV2 (s3Client twoRuns) (runListing twoRuns runId)
                = Resolved listResult).
  { intros runId [<-|[<-|[]]]; eexists; vm_compute; reflexivity. }
  split; [exact Hcatalog|]. split; [exact Hruns|].
  exact (proj1 (catalog_lists_every_run twoRuns 0%nat catalogOfTwo Hcatalog) Hruns).
Defined.

End FetcherExamples.

(** ** The Archive Builder *)

Section ServerProperties.

Import JS S3 Server Spec.

Variable P : Platform.

Lemma json_response_is_no_download (code : nat) (payload : Payload) :
  let r := {| statusCode := code;
              headers := <["Content-Type" := "application/json; charset=utf-8"]> ∅;
              headersSent := true;
              body := JsonBody payload |} in
  ~ zipHeaders r /\ ~ isArchive (body r).
Proof.
  cbn. split; [|tauto].
  unfold zipHeaders. cbn [headers].
  rewrite lookup_insert_eq, lookup_insert_ne, lookup_empty by discriminate.
  intros [H|[x H]]; discriminate H.
Qed.

(** C7: a download request whose prefix lists no object is answered 404
    with a JSON error and no archive; and whenever the response carries the
    headers of a ZIP download or an archive body, the listing had returned
    at least one object. *)
Theorem download_not_found (runId : string) (reads : nat) :
  (forall listResult,
     runId <> "" ->
     credentialsConfigured P ->
     listObjectsV2 (s3Client P) (downloadListing P runId) = Resolved listResult ->
     default [] (Contents listResult) = [] ->
     exists r,
       download_report P runId {| reads := reads; res := freshResponse |}
         = (Resolved tt, {| reads := reads; res := r |}) /\
       statusCode r = 404%nat /\
       body r = JsonBody (ErrorPayload
                            [("error", "No files found for runId: " +:+ runId)]) /\
       ~ zipHeaders r /\ ~ isArchive (body r)) /\
  (forall o s',
     download_report P runId {| reads := reads; res := freshResponse |} = (o, s') ->
     zipHeaders (res s') \/ isArchive (body (res s')) ->
     exists listResult,
       listObjectsV2 (s3Client P) (downloadListing P runId) = Resolved listResult /\
       default [] (Contents listResult) <> []).
Proof.
  split.
  - intros listResult Hid [Hkey Hsecret] Hlist Hempty.
    eexists. unfold download_report. run_async.
    apply String.eqb_neq in Hid. rewrite Hid.
    rewrite Hkey, Hsecret. cbn [negb orb].
    fold (downloadBucket P). fold (downloadListing P runId).
    rewrite Hlist, Hempty. cbn [length Nat.eqb].
    unfold res_status, res_json, modifyResponse, freshResponse. cbn.
    split; [reflexivity|]. split; [reflexivity|]. split; [reflexivity|].
    apply json_response_is_no_download.
  - intros o s'. unfold download_report. run_async.
    destruct (String.eqb runId "") eqn:Hid.
    { unfold res_status, res_json, modifyResponse, freshResponse. cbn.
      intros [= <- <-]. cbn [res body].
      intros H. exfalso.
      destruct (json_response_is_no_download 400
                  (ErrorPayload [("error", "RunId is required")])) as [H1 H2].
      destruct H as [H|H]; [apply H1|apply H2]; exact H. }
    fold (downloadBucket P). fold (downloadListing P runId).
    destruct (negb (truthy (or (getenv P "VITE_AWS_ACCESS_KEY") (getenv P "AWS_ACCESS_KEY")))
              || negb (truthy (or (getenv P "VITE_AWS_SECRET_KEY") (getenv P "AWS_SECRET_KEY"))))
      eqn:Hcred.
    { unfold isoNow, withClock, Date_now, res_status, res_json, modifyResponse, freshResponse.
      run_async. cbn.
      intros [= <- <-]. cbn [res body].
      intros H. exfalso.
      edestruct (json_response_is_no_download 500) as [H1 H2].
      destruct H as [H|H]; [apply H1|apply H2]; exact H. }
    destruct (listObjectsV2 (s3Client P) (downloadListing P runId))
      as [listResult|message] eqn:Hlist.
    2:{ unfold isoNow, withClock, Date_now, res_status, res_json, modifyResponse, freshResponse.
        run_async. cbn.
        intros [= <- <-]. cbn [res body].
        intros H. exfalso.
        edestruct (json_response_is_no_download 500) as [H1 H2].
        destruct H as [H|H]; [apply H1|apply H2]; exact H. }
    destruct (default [] (Contents listResult)) as [|file files] eqn:Hfiles.
    { unfold res_status, res_json, modifyResponse, freshResponse. cbn.
      intros [= <- <-]. cbn [res body].
      intros H. exfalso.
      edestruct (json_response_is_no_download 404) as [H1 H2].
      destruct H as [H|H]; [apply H1|apply H2]; exact H. }
    intros _ _. exists listResult. split; [reflexivity|].
    rewrite Hfiles. discriminate.
Qed.

End ServerProperties.

Section ServerExamples.

Import JS S3 Server Spec Examples.

Lemma download_not_found_witness :
  "run" <> "" /\
  credentialsConfigured emptyBucket /\
  listObjectsV2 (s3Client emptyBucket) (downloadListing emptyBucket "run")
    = Resolved nothingListed /\
  default [] (Contents nothingListed) = [] /\
  exists r,
    download_report emptyBucket "run" {| reads := 0; res := freshResponse |}
      = (Resolved tt, {| reads := 0; res := r |}) /\
    statusCode r = 404%nat /\
    body r = JsonBody (ErrorPayload [("error", "No files found for runId: run")]) /\
    ~ zipHeaders r /\ ~ isArchive (body r).
Proof.
  assert (Hid : "run" <> "") by discriminate.
  assert (Hcred : credentialsConfigured emptyBucket)
    by (split; vm_compute; reflexivity).
  assert (Hlist : listObjectsV2 (s3Client emptyBucket) (downloadListing emptyBucket "run")
                  = Resolved nothingListed)
    by (vm_compute; reflexivity).
  assert (Hempty : default [] (Contents nothingListed) = []) by reflexivity.
  repeat (split; [assumption|]).
  exact (proj1 (download_not_found emptyBucket "run" 0%nat)
           nothingListed Hid Hcred Hlist Hempty).
Defined.

(** A run with objects is answered with the download headers and one
    archive entry per object, named by its base name. *)
Example download_first_run :
  exists r,
    download_report twoRuns "allure-results-1" {| reads := 0; res := freshResponse |}
      = (Resolved tt, {| reads := 0; res := r |}) /\
    statusCode r = 200%nat /\
    headers r !! "Content-Type" = Some "application/zip" /\
    body r = ZipBody [("a-result.json", "a"); ("b-result.json", "b");
                      ("c-result.json", "<html>"); ("run.log", "log")].
Proof. eexists. repeat split; vm_compute; reflexivity. Qed.

End ServerExamples.

(** ** The Comparison Engine *)

Section CompareProperties.

Import JS Client Compare Spec.

Lemma differences_lookup (A B : Report) (X : string) :
  In X categories ->
  differences (compare A B) !! X
    = Some (sub (stat (stats (viewOf B)) X) (stat (stats (viewOf A)) X)).
Proof.
  unfold categories. intros HX. unfold compare. cbn [differences].
  repeat (destruct HX as [<-|HX];
          [rewrite ?lookup_insert_ne by discriminate;
           first [apply lookup_insert_eq|apply lookup_singleton_eq]|]).
  destruct HX.
Qed.

Lemma stat_of_count (A : Report) (X : string) (a : Z) :
  countOf A X = Some a -> stat (stats (viewOf A)) X = Finite a.
Proof.
  unfold countOf, stat, viewOf. cbn [stats].
  destruct (summary A ≫= statistic) as [m|]; [|discriminate]. cbn.
  destruct (m !! X) as [[| |z|]|]; try discriminate.
  intros [= ->]. reflexivity.
Qed.

(** C3: for two selected run summaries A and B with numeric statistics
    and every category X, [differences.X] of the comparison is B's count
    minus A's count; it is the opposite of [differences.X] of the
    comparison taken the other way round; and the comparison of A with
    itself has difference 0. *)
Theorem differences_antisymmetric (availableReports : list Report)
    (id1 id2 : string) (A B : Report) :
  List.find (fun r => String.eqb (runId r) id1) availableReports = Some A ->
  List.find (fun r => String.eqb (runId r) id2) availableReports = Some B ->
  (forall X, In X categories -> is_Some (countOf A X) /\ is_Some (countOf B X)) ->
  exists cAB cBA cAA,
    generateComparison availableReports id1 id2 = Some cAB /\
    generateComparison availableReports id2 id1 = Some cBA /\
    generateComparison availableReports id1 id1 = Some cAA /\
    forall X, In X categories ->
      exists a b,
        countOf A X = Some a /\ countOf B X = Some b /\
        differences cAB !! X = Some (Finite (b - a)) /\
        differences cAB !! X = neg <$> differences cBA !! X /\
        differences cAA !! X = Some (Finite 0).
Proof.
  intros HA HB Hnum.
  exists (compare A B), (compare B A), (compare A A).
  unfold generateComparison. rewrite HA, HB.
  repeat (split; [reflexivity|]).
  intros X HX. destruct (Hnum X HX) as [[a Ha] [b Hb]].
  exists a, b. split; [exact Ha|]. split; [exact Hb|].
  rewrite !differences_lookup by exact HX.
  rewrite (stat_of_count A X a Ha), (stat_of_count B X b Hb).
  cbn [sub neg fmap option_fmap option_map].
  repeat split; f_equal; f_equal; lia.
Qed.

(** C4: in the detail table, for a category whose counts are [a] in the
    first report and [b] in the second, the percent-change is the one
    decimal rendering of [(b - a) / a * 100] when [a > 0], of [b * 100]
    when [a = 0] and [b > 0], and the text N/A when both are 0. *)
Theorem percent_change_cases (comparisonData : Comparison) (metric : Metric)
    (a b : Z) :
  In metric metrics ->
  stats (report1 comparisonData) !! key metric = Some (Finite a) ->
  stats (report2 comparisonData) !! key metric = Some (Finite b) ->
  (0 < a ->
   percentChange (detailRow comparisonData metric)
     = ToFixed1 (RFinite (inject_Z (b - a) / inject_Z a * inject_Z 100)%Q)) /\
  (a = 0 -> 0 < b ->
   percentChange (detailRow comparisonData metric)
     = ToFixed1 (RFinite (inject_Z (b * 100)))) /\
  (a = 0 -> b = 0 ->
   percentChange (detailRow comparisonData metric) = NotApplicable).
Proof.
  intros _ Ha Hb. unfold detailRow. cbn [percentChange].
  rewrite Ha, Hb. unfold orZero, number_truthy.
  repeat split.
  - intros Hpos.
    assert (Hne : (a =? 0) = false) by (apply Z.eqb_neq; lia).
    rewrite Hne. cbn [negb gt lt].
    assert (Hlt : (0 <? a) = true) by (apply Z.ltb_lt; lia).
    rewrite Hlt.
    destruct (b =? 0) eqn:Hb0; cbn [negb sub div scale]; rewrite Hne.
    + apply Z.eqb_eq in Hb0. subst b. reflexivity.
    + reflexivity.
  - intros -> Hpos. cbn [Z.eqb negb gt lt Z.ltb Z.compare].
    assert (Hne : (b =? 0) = false) by (apply Z.eqb_neq; lia).
    rewrite Hne. cbn [negb lt strict_eq Z.eqb andb].
    assert (Hlt : (0 <? b) = true) by (apply Z.ltb_lt; lia).
    rewrite Hlt. cbn [andb mul ratio_of]. reflexivity.
  - intros -> ->. reflexivity.
Qed.

End CompareProperties.

Section CompareExamples.

Import JS Client Compare Spec Examples.

Lemma differences_antisymmetric_witness :
  List.find (fun r => String.eqb (runId r) "run-A") [runA; runB] = Some runA /\
  List.find (fun r => String.eqb (runId r) "run-B") [runA; runB] = Some runB /\
  (forall X, In X categories -> is_Some (countOf runA X) /\ is_Some (countOf runB X)) /\
  exists cAB cBA cAA,
    generateComparison [runA; runB] "run-A" "run-B" = Some cAB /\
    generateComparison [runA; runB] "run-B" "run-A" = Some cBA /\
    generateComparison [runA; runB] "run-A" "run-A" = Some cAA /\
    forall X, In X categories ->
      exists a b,
        countOf runA X = Some a /\ countOf runB X = Some b /\
        differences cAB !! X = Some (Finite (b - a)) /\
        differences cAB !! X = neg <$> differences cBA !! X /\
        differences cAA !! X = Some (Finite 0).
Proof.
  assert (HA : List.find (fun r => String.eqb (runId r) "run-A") [runA; runB] = Some runA)
    by reflexivity.
  assert (HB : List.find (fun r => String.eqb (runId r) "run-B") [runA; runB] = Some runB)
    by reflexivity.
  assert (Hnum : forall X, In X categories ->
                   is_Some (countOf runA X) /\ is_Some (countOf runB X)).
  { intros X [<-|[<-|[<-|[<-|[<-|[]]]]]]; split; eexists; vm_compute; reflexivity. }
  repeat (split; [assumption|]).
  exact (differences_antisymmetric [runA; runB] "run-A" "run-B" runA runB HA HB Hnum).
Defined.

(** The scenario of the specification: run-A {10, 7, 2, 1, 0} against
    run-B {10, 5, 3, 2, 0}. *)
Example differences_scenario :
  map (fun X => differences (compare runA runB) !! X) categories
  = [Some (Finite 0); Some (Finite (-2)); Some (Finite 1); Some (Finite 1);
     Some (Finite 0)].
Proof. vm_compute. reflexivity. Qed.

Lemma percent_change_cases_witness :
  let passedTests :=
    {| key := "passed"; label := "Passed Tests"; isNegativeGood := false |} in
  In passedTests metrics /\
  stats (report1 noneThenFour) !! "passed" = Some (Finite 0) /\
  stats (report2 noneThenFour) !! "passed" = Some (Finite 4) /\
  percentChange (detailRow noneThenFour passedTests) = ToFixed1 (RFinite 400%Q).
Proof.
  intros passedTests.
  assert (Hin : In passedTests metrics) by (right; left; reflexivity).
  assert (H1 : stats (report1 noneThenFour) !! key passedTests = Some (Finite 0))
    by (vm_compute; reflexivity).
  assert (H2 : stats (report2 noneThenFour) !! key passedTests = Some (Finite 4))
    by (vm_compute; reflexivity).
  split; [exact Hin|]. split; [exact H1|]. split; [exact H2|].
  exact (proj1 (proj2 (percent_change_cases noneThenFour passedTests 0 4 Hin H1 H2))
           eq_refl eq_refl).
Defined.

End CompareExamples.

(** ** The Client-Side Cache *)

Section CacheProperties.

Import JS Client Cache Spec.

Variable B : Browser.

Ltac run_cache :=
  unfold getReports, fetchAndCacheReports, shouldRefreshData, currentCache,
    setReportsCache, Cache.fetch, Cache.Date_now in *;
  run_async.

(** The part of [fetchAndCacheReports] after the decision to refresh
    always calls [fetch] once, whatever the call settles to. *)
Lemma forced_refresh_fetches (w : World) :
  fetchCalls (snd (fetchAndCacheReports B true w)) = S (fetchCalls w).
Proof.
  run_cache. cbn.
  destruct (network B (fetchCalls w)) as [response|message]; [|reflexivity].
  destruct (ok response); [|reflexivity]. cbn.
  destruct (json response) as [[data|]|message]; reflexivity.
Qed.

Lemma stale_refresh_fetches (w : World) :
  (lastFetchedMissing (reportsCache w) = true \/
   reports (reportsCache w) = [] \/
   default 0 (lastFetched (reportsCache w))
     < clock B (clockReads w) - five_minutes) ->
  fetchCalls (snd (fetchAndCacheReports B false w)) = S (fetchCalls w).
Proof.
  intros Hstale. run_cache.
  destruct (lastFetchedMissing (reportsCache w)
            || (length (reports (reportsCache w)) =? 0)%nat) eqn:Hguard.
  - cbn.
    destruct (network B (fetchCalls w)) as [response|message]; [|reflexivity].
    destruct (ok response); [|reflexivity]. cbn.
    destruct (json response) as [[data|]|message]; reflexivity.
  - apply orb_false_elim in Hguard. destruct Hguard as [Hmiss Hlen].
    destruct Hstale as [H|[H|H]].
    + congruence.
    + rewrite H in Hlen. discriminate Hlen.
    + unfold five_minutes in H. apply Z.ltb_lt in H. cbn. rewrite H. cbn.
      destruct (network B (fetchCalls w)) as [response|message]; [|reflexivity].
      destruct (ok response); [|reflexivity]. cbn.
      destruct (json response) as [[data|]|message]; reflexivity.
Qed.

Lemma fresh_cache_hit (w : World) (t : Z) :
  lastFetched (reportsCache w) = Some t ->
  t <> 0 ->
  reports (reportsCache w) <> [] ->
  clock B (clockReads w) - t <= five_minutes ->
  fetchAndCacheReports B false w =
    (Resolved {| resultReports := reports (reportsCache w);
                 resultSummary := summary (reportsCache w) |},
     afterClockRead w).
Proof.
  intros Ht Hne Hreports Hage. run_cache.
  unfold lastFetchedMissing. rewrite Ht.
  apply Z.eqb_neq in Hne. rewrite Hne.
  destruct (reports (reportsCache w)) as [|report rest] eqn:Hr; [congruence|].
  cbn [length Nat.eqb orb default from_option id].
  assert (Hfresh : (t <? clock B (clockReads w) - 5 * 60 * 1000) = false).
  { apply Z.ltb_ge. unfold five_minutes in Hage. lia. }
  rewrite Hfresh. cbn. reflexivity.
Qed.

(** After [get(false)] has returned [r], the cache holds [r] and a time
    of fetch; that time is not 0 and [r] is not empty when the call was
    answered from the cache. *)
Lemma get_leaves_result (w w1 : World) (r : Result) :
  fetchAndCacheReports B false w = (Resolved r, w1) ->
  reports (reportsCache w1) = resultReports r /\
  summary (reportsCache w1) = resultSummary r /\
  exists t, lastFetched (reportsCache w1) = Some t.
Proof.
  run_cache.
  destruct (lastFetchedMissing (reportsCache w)
            || (length (reports (reportsCache w)) =? 0)%nat) eqn:Hguard.
  - cbn.
    destruct (network B (fetchCalls w)) as [response|message]; [|discriminate].
    destruct (ok response); [|discriminate]. cbn.
    destruct (json response) as [[data|]|message]; try discriminate.
    cbn. intros [= <- <-]. cbn. eauto.
  - cbn.
    destruct (default 0 (lastFetched (reportsCache w))
              <? clock B (clockReads w) - 5 * 60 * 1000) eqn:Hold; cbn.
    + destruct (network B (fetchCalls w)) as [response|message]; [|discriminate].
      destruct (ok response); [|discriminate]. cbn.
      destruct (json response) as [[data|]|message]; try discriminate.
      cbn. intros [= <- <-]. cbn. eauto.
    + intros [= <- <-]. cbn. repeat split.
      apply orb_false_elim in Hguard. destruct Hguard as [Hmiss _].
      unfold lastFetchedMissing in Hmiss.
      destruct (lastFetched (reportsCache w)) as [t|]; [eauto|discriminate].
Qed.

(** C5 (amended): once [get(false)] has returned a non-empty list of
    reports, leaving a time of fetch other than 0 in the cache, a
    [get(false)] made no more than five minutes after that time returns
    the cached reports and summary without a new fetch; a [get(false)]
    made more than five minutes after it, and any [get(true)], performs
    one new fetch. *)
Theorem fresh_cache_is_reused (w w1 w2 : World) (r : Result) (t : Z) :
  getReports B false w = (Resolved r, w1) ->
  resultReports r <> [] ->
  lastFetched (reportsCache w1) = Some t ->
  t <> 0 ->
  reportsCache w2 = reportsCache w1 ->
  (clock B (clockReads w2) - t <= five_minutes ->
   getReports B false w2 = (Resolved r, afterClockRead w2)) /\
  (five_minutes < clock B (clockReads w2) - t ->
   fetchCalls (snd (getReports B false w2)) = S (fetchCalls w2)) /\
  fetchCalls (snd (getReports B true w2)) = S (fetchCalls w2).
Proof.
  unfold getReports. intros Hget Hreports Ht Hne Hsame.
  destruct (get_leaves_result w w1 r Hget) as (Hr & Hs & _).
  split; [|split].
  - intros Hage. rewrite (fresh_cache_hit w2 t).
    + rewrite Hsame, Hr, Hs. destruct r; reflexivity.
    + rewrite Hsame. exact Ht.
    + exact Hne.
    + rewrite Hsame, Hr. exact Hreports.
    + exact Hage.
  - intros Hage. apply stale_refresh_fetches. right. right.
    rewrite Hsame, Ht. cbn [default from_option id]. lia.
  - apply forced_refresh_fetches.
Qed.

(** C9: when the fetch triggered by a [get] fails, the call rejects with
    the message of the failure and the cache keeps its reports, summary
    and time of fetch, with [loading] false and [error] set to the
    message. *)
Theorem fetch_failure_keeps_data (forceRefresh : bool) (w : World)
    (message : string) :
  fetchCalls (snd (getReports B forceRefresh w)) <> fetchCalls w ->
  fetchFailure B (fetchCalls w) = Some message ->
  fst (getReports B forceRefresh w) = Rejected message /\
  reportsCache (snd (getReports B forceRefresh w))
    = withError (reportsCache w) message.
Proof.
  unfold fetchFailure. run_cache.
  destruct forceRefresh.
  - cbn. intros _.
    destruct (network B (fetchCalls w)) as [response|m]; [|intros [= ->]; split; reflexivity].
    destruct (ok response); cbn; [|intros [= ->]; split; reflexivity].
    destruct (json response) as [[data|]|m]; cbn;
      [discriminate|intros [= <-]; split; reflexivity|intros [= ->]; split; reflexivity].
  - destruct (lastFetchedMissing (reportsCache w)
              || (length (reports (reportsCache w)) =? 0)%nat); cbn.
    + intros _.
      destruct (network B (fetchCalls w)) as [response|m]; [|intros [= ->]; split; reflexivity].
      destruct (ok response); cbn; [|intros [= ->]; split; reflexivity].
      destruct (json response) as [[data|]|m]; cbn;
        [discriminate|intros [= <-]; split; reflexivity|intros [= ->]; split; reflexivity].
    + destruct (default 0 (lastFetched (reportsCache w))
                <? clock B (clockReads w) - 5 * 60 * 1000); cbn.
      * intros _.
        destruct (network B (fetchCalls w)) as [response|m]; [|intros [= ->]; split; reflexivity].
        destruct (ok response); cbn; [|intros [= ->]; split; reflexivity].
        destruct (json response) as [[data|]|m]; cbn;
          [discriminate|intros [= <-]; split; reflexivity|intros [= ->]; split; reflexivity].
      * intros Hfetched. exfalso. apply Hfetched. reflexivity.
Qed.

(** C10: with an empty list of reports in the cache, [get(false)]
    performs a fetch whatever the time of the last fetch. *)
Theorem empty_cache_always_fetches (w : World) :
  reports (reportsCache w) = [] ->
  fetchCalls (snd (getReports B false w)) = S (fetchCalls w).
Proof.
  intros Hempty. unfold getReports. apply stale_refresh_fetches. auto.
Qed.

End CacheProperties.

Section CacheExamples.

Import JS Client Cache Spec Examples.

Lemma fresh_cache_is_reused_witness :
  getReports steadyBrowser false emptyWorld = (Resolved twoRunsResult, filledWorld) /\
  resultReports twoRunsResult <> [] /\
  lastFetched (reportsCache filledWorld) = Some 1000 /\
  1000 <> 0 /\
  reportsCache filledWorld = reportsCache filledWorld /\
  (clock steadyBrowser (clockReads filledWorld) - 1000 <= five_minutes ->
   getReports steadyBrowser false filledWorld
     = (Resolved twoRunsResult, afterClockRead filledWorld)) /\
  (five_minutes < clock steadyBrowser (clockReads filledWorld) - 1000 ->
   fetchCalls (snd (getReports steadyBrowser false filledWorld))
     = S (fetchCalls filledWorld)) /\
  fetchCalls (snd (getReports steadyBrowser true filledWorld))
    = S (fetchCalls filledWorld).
Proof.
  assert (Hget : getReports steadyBrowser false emptyWorld
                 = (Resolved twoRunsResult, filledWorld))
    by (vm_compute; reflexivity).
  assert (Hreports : resultReports twoRunsResult <> []) by discriminate.
  assert (Ht : lastFetched (reportsCache filledWorld) = Some 1000) by reflexivity.
  assert (Hne : 1000 <> 0) by lia.
  assert (Hsame : reportsCache filledWorld = reportsCache filledWorld) by reflexivity.
  repeat (split; [assumption|]).
  exact (fresh_cache_is_reused steadyBrowser emptyWorld filledWorld filledWorld
           twoRunsResult 1000 Hget Hreports Ht Hne Hsame).
Defined.

(** C5, as worded, fails when the fetch returned no report: the second
    [get(false)], one millisecond later, calls [fetch] again. *)
Lemma cache_hit_counterexample : ~ cacheHitAsWorded.
Proof.
  intros Hclaim.
  destruct (Hclaim emptyBrowser emptyWorld fetchedNothingWorld fetchedNothingWorld
              noRunsResult 1000)
    as (w3 & Hget & Hcalls).
  - vm_compute. reflexivity.
  - reflexivity.
  - reflexivity.
  - vm_compute. reflexivity.
  - vm_compute in Hget. injection Hget as <-.
    vm_compute in Hcalls. discriminate Hcalls.
Qed.

Lemma fetch_failure_keeps_data_witness :
  fetchCalls (snd (getReports failingBrowser true filledWorld))
    <> fetchCalls filledWorld /\
  fetchFailure failingBrowser (fetchCalls filledWorld)
    = Some "HTTP error! status: 500" /\
  fst (getReports failingBrowser true filledWorld)
    = Rejected "HTTP error! status: 500" /\
  reportsCache (snd (getReports failingBrowser true filledWorld))
    = withError (reportsCache filledWorld) "HTTP error! status: 500".
Proof.
  assert (Hfetched : fetchCalls (snd (getReports failingBrowser true filledWorld))
                     <> fetchCalls filledWorld)
    by (vm_compute; discriminate).
  assert (Hfail : fetchFailure failingBrowser (fetchCalls filledWorld)
                  = Some "HTTP error! status: 500")
    by (vm_compute; reflexivity).
  split; [exact Hfetched|]. split; [exact Hfail|].
  exact (fetch_failure_keeps_data failingBrowser true filledWorld
           "HTTP error! status: 500" Hfetched Hfail).
Defined.

Lemma empty_cache_always_fetches_witness :
  reports (reportsCache fetchedNothingWorld) = [] /\
  fetchCalls (snd (getReports emptyBrowser false fetchedNothingWorld))
    = S (fetchCalls fetchedNothingWorld).
Proof.
  split; [reflexivity|].
  exact (empty_cache_always_fetches emptyBrowser fetchedNothingWorld eq_refl).
Defined.

(** [clearCache] empties the slot; the status line follows the age of the
    cache. *)
Example clear_then_status :
  fst (getCacheStatus steadyBrowser filledWorld) = Resolved "Just updated" /\
  fst (getCacheStatus steadyBrowser (snd (clearCache filledWorld)))
    = Resolved "No data cached" /\
  reportsCache (snd (clearCache filledWorld)) = initialCache.
Proof. repeat split; vm_compute; reflexivity. Qed.

End CacheExamples.

(** * Further properties of the code *)

(** ** Strings *)

Section StringFacts.

Import JS.

Lemma append_nil (t : string) : "" +:+ t = t.
Proof. reflexivity. Qed.

Lemma append_cons (c : ascii) (s t : string) :
  String c s +:+ t = String c (s +:+ t).
Proof. reflexivity. Qed.

Lemma length_append (s t : string) :
  String.length (s +:+ t) = (String.length s + String.length t)%nat.
Proof.
  induction s as [|c s IH]; [reflexivity|].
  rewrite append_cons. cbn [String.length Nat.add]. rewrite IH. reflexivity.
Qed.

Lemma substring_all (s : string) : String.substring 0 (String.length s) s = s.
Proof. induction s as [|c s IH]; cbn; [reflexivity|]. rewrite IH. reflexivity. Qed.

Lemma substring_take (s t : string) :
  String.substring 0 (String.length s) (s +:+ t) = s.
Proof.
  induction s as [|c s IH].
  - rewrite append_nil. destruct t; reflexivity.
  - rewrite append_cons. cbn [String.length String.substring].
    rewrite IH. reflexivity.
Qed.

Lemma substring_skip (s t : string) (m : nat) :
  String.substring (String.length s) m (s +:+ t) = String.substring 0 m t.
Proof.
  induction s as [|c s IH]; [reflexivity|].
  rewrite append_cons. cbn [String.length String.substring]. exact IH.
Qed.

Lemma substring_split (n : nat) (s : string) :
  (n <= String.length s)%nat ->
  s = String.substring 0 n s +:+ String.substring n (String.length s - n) s.
Proof.
  revert n. induction s as [|c s IH]; intros n Hle; cbn [String.length] in *.
  - destruct n; [reflexivity|lia].
  - destruct n as [|n]; cbn [String.substring Nat.sub].
    + rewrite append_nil, substring_all. reflexivity.
    + rewrite append_cons, <- IH by lia. reflexivity.
Qed.

Lemma append_assoc (s t u : string) : (s +:+ t) +:+ u = s +:+ (t +:+ u).
Proof.
  induction s as [|c s IH]; [reflexivity|].
  rewrite !append_cons, IH. reflexivity.
Qed.

(** [endsWith] holds exactly of the strings that are some text followed
    by the suffix. *)
Lemma endsWith_spec (s suffix : string) :
  endsWith s suffix = true <-> exists p, s = p +:+ suffix.
Proof.
  unfold endsWith. rewrite andb_true_iff, Nat.leb_le, String.eqb_eq. split.
  - intros [Hle Hsub].
    exists (String.substring 0 (String.length s - String.length suffix) s).
    rewrite (substring_split (String.length s - String.length suffix) s) at 1 by lia.
    f_equal. rewrite <- Hsub at 3. f_equal. lia.
  - intros [p ->]. rewrite length_append. split; [lia|].
    replace (String.length p + String.length suffix - String.length suffix)%nat
      with (String.length p) by lia.
    rewrite substring_skip. apply substring_all.
Qed.

Lemma strip_trailing_slash_append (s : string) :
  strip_trailing_slash (s +:+ "/") = s.
Proof.
  unfold strip_trailing_slash.
  assert (Hends : endsWith (s +:+ "/") "/" = true)
    by (apply endsWith_spec; exists s; reflexivity).
  rewrite Hends, length_append. cbn [String.length].
  replace (String.length s + 1 - 1)%nat with (String.length s) by lia.
  apply substring_take.
Qed.

Lemma prefix_append (s t : string) : String.prefix s (s +:+ t) = true.
Proof.
  induction s as [|c s IH].
  - rewrite append_nil. destruct t; reflexivity.
  - rewrite append_cons. cbn [String.prefix].
    destruct (ascii_dec c c) as [_|Hne]; [exact IH|congruence].
Qed.

Lemma replace_leading (pattern rest : string) :
  pattern <> "" ->
  replace (pattern +:+ rest) pattern "" = rest.
Proof.
  intros Hne. unfold replace.
  assert (Hindex : String.index 0 pattern (pattern +:+ rest) = Some 0%nat).
  { pose proof (prefix_append pattern rest) as Hprefix.
    destruct pattern as [|c pattern]; [congruence|].
    rewrite append_cons in *. cbn [String.index]. rewrite Hprefix. reflexivity. }
  rewrite Hindex. cbn [Nat.add].
  assert (Hzero : forall s, String.substring 0 0 s = "") by (intros []; reflexivity).
  rewrite Hzero, !append_nil, length_append.
  replace (String.length pattern + String.length rest - String.length pattern)%nat
    with (String.length rest) by lia.
  rewrite substring_skip. apply substring_all.
Qed.

End StringFacts.

(** ** More on the Run Summarizer and the Run Catalog *)

Section FetcherFurther.

Import JS S3 Fetcher Spec Terms.

Variable P : Platform.

Lemma runId_of_prefix (id : string) :
  strip_trailing_slash (replace (PrefixOf (prefixFor id)) "reports/" "") = id.
Proof.
  unfold prefixFor. cbn [PrefixOf].
  rewrite replace_leading by discriminate.
  apply strip_trailing_slash_append.
Qed.

(** X1: the run ids the catalog extracts from common prefixes of the
    form reports/<id>/ are the ids themselves, in order, and the prefix
    [fetchSummary] lists for each extracted id is the common prefix it came
    from. *)
Theorem runIds_round_trip (ids : list string) (contents : option (list S3Object)) :
  let res := {| Contents := contents;
                CommonPrefixes := Some (map prefixFor ids) |} in
  runIdsOf res = ids /\
  map (fun id => Prefix (runListing P id)) (runIdsOf res)
    = map PrefixOf (map prefixFor ids).
Proof.
  cbn zeta.
  assert (Hids : runIdsOf {| Contents := contents;
                             CommonPrefixes := Some (map prefixFor ids) |} = ids).
  { unfold runIdsOf. cbn [CommonPrefixes fmap option_fmap option_map default from_option id].
    induction ids as [|id ids IH]; [reflexivity|].
    cbn [map]. rewrite runId_of_prefix. f_equal. exact IH. }
  split; [exact Hids|]. rewrite Hids.
  rewrite map_map. reflexivity.
Qed.

Lemma occurrences_le (records : list json) :
  (occurrences "passed" records + occurrences "failed" records +
   occurrences "broken" records + occurrences "skipped" records
   <= length records)%nat.
Proof.
  induction records as [|r records IH]; [reflexivity|].
  cbn [occurrences length].
  repeat destruct (decide (hasStatus _ r)) as [?H|?H];
    unfold hasStatus in *; try congruence; lia.
Qed.

Lemma filter_length_le {A} (f : A -> bool) (l : list A) :
  (length (List.filter f l) <= length l)%nat.
Proof.
  induction l as [|x l IH]; [reflexivity|].
  cbn [List.filter]. destruct (f x); cbn [length]; lia.
Qed.

Lemma fetchSummary_cases (execId : string) (reads : nat) :
  match listObjectsV2 (s3Client P) (runListing P execId) with
  | Rejected message => fetchSummary P execId reads = (Rejected message, reads)
  | Resolved listResult =>
      exists s reads', fetchSummary P execId reads = (Resolved s, reads')
  end.
Proof.
  destruct (listObjectsV2 (s3Client P) (runListing P execId))
    as [listResult|message] eqn:Hlist.
  - exact (fetchSummary_settles P execId reads listResult Hlist).
  - exact (fetchSummary_rejects P execId reads message Hlist).
Qed.

(** X2: every summary [fetchSummary] returns satisfies
    passed + failed + broken + skipped <= total <= totalFiles: a record
    is counted under at most one status, and files that cannot be read or
    parsed only lower [total]. *)
Theorem summary_invariants (execId : string) (reads reads' : nat) (s : Summary) :
  fetchSummary P execId reads = (Resolved s, reads') ->
  (passed (statistic s) + failed (statistic s) + broken (statistic s)
   + skipped (statistic s) <= total (statistic s))%nat /\
  (total (statistic s) <= totalFiles s)%nat.
Proof.
  intros Hrun. pose proof (fetchSummary_cases execId reads) as Hcases.
  destruct (listObjectsV2 (s3Client P) (runListing P execId))
    as [listResult|message] eqn:Hlist; [|congruence].
  destruct (resultFilesOf listResult) as [|file files] eqn:Hrf.
  - rewrite (fetchSummary_no_result_files P _ _ _ Hlist Hrf) in Hrun.
    injection Hrun as <- _. cbn. lia.
  - destruct (fetchSummary_unfold P execId reads listResult Hlist)
      as (r1 & r2 & starts & stops & _ & _ & _ & _ & Heq); [congruence|].
    rewrite Heq in Hrun. injection Hrun as <- _.
    cbn [statistic total passed failed broken skipped totalFiles].
    rewrite !countStatus_occurrences. split; [apply occurrences_le|].
    unfold cleanList. rewrite Hrf.
    etransitivity; [apply filter_length_le|].
    rewrite length_map. reflexivity.
Qed.

Lemma bounds_reads (field : string) (records : list json) (reads reads' : nat)
    (vs : list value) :
  mapM (fun r => or_now P (prop r field)) records reads = (Resolved vs, reads') ->
  reads' = (reads + falsyCount field records)%nat.
Proof.
  revert reads reads' vs. unfold falsyCount.
  induction records as [|r records IH]; intros reads reads' vs.
  - cbn. run_async. intros [= <- <-]. cbn. lia.
  - cbn [mapM List.filter]. run_async.
    destruct (or_now_settles P field r reads) as (v & n1 & Hv & _ & Hcase).
    rewrite Hv.
    destruct (mapM (fun r0 => or_now P (prop r0 field)) records n1)
      as [[rest|message] n2] eqn:Hrest; [|discriminate].
    intros [= <- <-]. apply IH in Hrest.
    destruct Hcase as [(Ht & _ & ->)|(Hf & _ & ->)]; rewrite ?Ht, ?Hf;
      cbn [negb length]; lia.
Qed.

(** X3: a call of [fetchSummary] reads the clock once for every clean
    record whose start is falsy and once for every clean record whose stop
    is falsy, and not otherwise; a run whose records all carry truthy
    timestamps is summarized without reading the clock. *)
Theorem summary_clock_reads (execId : string) (reads reads' : nat) (s : Summary)
    (listResult : ListObjectsV2Output) :
  listObjectsV2 (s3Client P) (runListing P execId) = Resolved listResult ->
  fetchSummary P execId reads = (Resolved s, reads') ->
  reads' = (reads + falsyCount "start" (cleanList P listResult)
            + falsyCount "stop" (cleanList P listResult))%nat.
Proof.
  intros Hlist Hrun.
  destruct (resultFilesOf listResult) as [|file files] eqn:Hrf.
  - rewrite (fetchSummary_no_result_files P _ _ _ Hlist Hrf) in Hrun.
    injection Hrun as _ <-. unfold cleanList. rewrite Hrf. cbn. lia.
  - destruct (fetchSummary_unfold P execId reads listResult Hlist)
      as (r1 & r2 & starts & stops & Hstarts & Hstops & _ & _ & Heq); [congruence|].
    rewrite Heq in Hrun. injection Hrun as _ <-.
    apply bounds_reads in Hstarts. apply bounds_reads in Hstops. lia.
Qed.

(** X4: [fetchSummary] rejects exactly when the listing of the run
    rejects, with the message of the listing and without reading the clock;
    an object that cannot be fetched or parsed never makes it reject. *)
Theorem fetchSummary_rejects_iff (execId : string) (reads reads' : nat)
    (message : string) :
  fetchSummary P execId reads = (Rejected message, reads') <->
  listObjectsV2 (s3Client P) (runListing P execId) = Rejected message /\
  reads' = reads.
Proof.
  pose proof (fetchSummary_cases execId reads) as Hcases.
  destruct (listObjectsV2 (s3Client P) (runListing P execId))
    as [listResult|m] eqn:Hlist.
  - destruct Hcases as (s & n & Hrun). rewrite Hrun.
    split; [discriminate|intros [H _]; discriminate H].
  - rewrite Hcases. split.
    + intros [= -> ->]. split; reflexivity.
    + intros [[= ->] ->]. reflexivity.
Qed.

(** X5: the result files of a run are exactly the listed objects whose
    key is some text followed by -result.json. *)
Theorem result_files_spec (listResult : ListObjectsV2Output) (obj : S3Object) :
  In obj (resultFilesOf listResult) <->
  exists files,
    Contents listResult = Some files /\ In obj files /\
    exists p, Key obj = p +:+ "-result.json".
Proof.
  unfold resultFilesOf.
  destruct (Contents listResult) as [files|];
    cbn [fmap option_fmap option_map default from_option id].
  - rewrite filter_In, endsWith_spec. split.
    + intros [Hin Hp]. exists files. auto.
    + intros (files' & [= <-] & Hin & Hp). auto.
  - split; [intros []|intros (files & Hnone & _); discriminate Hnone].
Qed.

End FetcherFurther.

(** ** More on the server *)


Section ServerFurther.

Import JS S3 Server Spec Terms.

Variable P : Platform.



Lemma takeSegment_slash_free (l : list ascii) : ~ In "/"%char (takeSegment l).
Proof.
  induction l as [|c l IH]; cbn [takeSegment]; [intros []|].
  destruct (Ascii.eqb_spec c "/"%char) as [->|Hne]; [intros []|].
  assert (Hcons : match c with
                  | "/"%char => []
                  | _ => c :: takeSegment l
                  end = c :: takeSegment l).
  { destruct c as [[] [] [] [] [] [] [] []]; try reflexivity. congruence. }
  rewrite Hcons. intros [Heq|Hin]; [congruence|exact (IH Hin)].
Qed.

Lemma basename_slash_free (p : string) : slashFree (basename p).
Proof.
  unfold slashFree, basename.
  rewrite String.list_ascii_of_string_of_list_ascii, <- in_rev.
  apply takeSegment_slash_free.
Qed.

Lemma list_ascii_of_append (s t : string) :
  String.list_ascii_of_string (s +:+ t)
  = (String.list_ascii_of_string s ++ String.list_ascii_of_string t)%list.
Proof.
  induction s as [|c s IH]; [reflexivity|].
  rewrite append_cons. cbn [String.list_ascii_of_string]. rewrite IH. reflexivity.
Qed.

Lemma takeSegment_app (l rest : list ascii) :
  ~ In "/"%char l -> takeSegment (l ++ "/"%char :: rest) = l.
Proof.
  induction l as [|c l IH]; intros Hfree; [reflexivity|].
  cbn [app takeSegment].
  assert (Hne : c <> "/"%char) by (intros ->; apply Hfree; left; reflexivity).
  assert (Hcons : forall tail, match c with
                  | "/"%char => []
                  | _ => c :: tail
                  end = c :: tail).
  { intros tail. destruct c as [[] [] [] [] [] [] [] []]; try reflexivity. congruence. }
  rewrite Hcons, IH; [reflexivity|].
  intros Hin. apply Hfree. right. exact Hin.
Qed.

Lemma dropSlashes_id (l : list ascii) :
  l <> [] -> ~ In "/"%char l -> dropSlashes l = l.
Proof.
  destruct l as [|c l]; [congruence|]. intros _ Hfree. cbn [dropSlashes].
  assert (Hne : c <> "/"%char) by (intros ->; apply Hfree; left; reflexivity).
  destruct c as [[] [] [] [] [] [] [] []]; try reflexivity. congruence.
Qed.

(** X6: the archive entry of an object stored as dir/name, where name
    is not empty and has no slash, is called name: entries are named by
    the last segment of the key, so the archive is flat. *)
Theorem basename_of_key (dir name : string) :
  name <> "" ->
  slashFree name ->
  basename (dir +:+ "/" +:+ name) = name /\ slashFree (basename (dir +:+ "/" +:+ name)).
Proof.
  intros Hne Hfree. split; [|apply basename_slash_free].
  unfold basename, slashFree in *.
  rewrite !list_ascii_of_append. cbn [String.list_ascii_of_string app].
  rewrite rev_app_distr. cbn [rev]. rewrite <- app_assoc. cbn [app].
  assert (Hrev_free : ~ In "/"%char (rev (String.list_ascii_of_string name)))
    by (rewrite <- in_rev; exact Hfree).
  assert (Hrev_ne : rev (String.list_ascii_of_string name) <> []).
  { intros Hnil. apply Hne.
    rewrite <- (String.string_of_list_ascii_of_string name).
    rewrite <- (rev_involutive (String.list_ascii_of_string name)), Hnil.
    reflexivity. }
  assert (Hdrop : dropSlashes (rev (String.list_ascii_of_string name)
                               ++ "/"%char :: rev (String.list_ascii_of_string dir))
                  = (rev (String.list_ascii_of_string name)
                     ++ "/"%char :: rev (String.list_ascii_of_string dir))%list).
  { destruct (rev (String.list_ascii_of_string name)) as [|c l] eqn:Hl; [congruence|].
    cbn [app dropSlashes].
    assert (Hc : c <> "/"%char) by (intros ->; apply Hrev_free; left; reflexivity).
    destruct c as [[] [] [] [] [] [] [] []]; try reflexivity. congruence. }
  rewrite Hdrop, takeSegment_app by exact Hrev_free.
  rewrite rev_involutive. apply String.string_of_list_ascii_of_string.
Qed.










Lemma foldl_totals (reports : list Fetcher.Report) (start : nat) :
  foldl (fun sum report =>
           (sum + Fetcher.total (Fetcher.statistic (Fetcher.summary report)))%nat)
        start reports
  = (start + list_sum (map (fun report =>
                              Fetcher.total (Fetcher.statistic (Fetcher.summary report)))
                           reports))%nat.
Proof.
  revert start. induction reports as [|report reports IH]; intros start; cbn.
  - lia.
  - rewrite IH. unfold list_sum. cbn. lia.
Qed.

Lemma api_reports_cases (reads : nat) :
  match Fetcher.listAllReports P reads with
  | (Resolved reports, n) =>
      api_reports P (fresh reads) =
        (Resolved tt,
         {| reads := S n;
            res := {| statusCode := 200; headers := jsonHeaders; headersSent := true;
                      body := JsonBody
                        (ReportsPayload reports (length reports)
                           (list_sum (map (fun report =>
                              Fetcher.total (Fetcher.statistic (Fetcher.summary report)))
                              reports))
                           (toISOString P (clock P n))) |} |})
  | (Rejected message, n) =>
      api_reports P (fresh reads) =
        (Resolved tt,
         {| reads := S n;
            res := {| statusCode := 500; headers := jsonHeaders; headersSent := true;
                      body := JsonBody (ErrorPayload
                        [("error", "Failed to fetch reports");
                         ("details", message);
                         ("timestamp", toISOString P (clock P n))]) |} |})
  end.
Proof.
  unfold api_reports, fresh, withClock. run_async. cbn [Server.reads Server.res].
  destruct (Fetcher.listAllReports P reads) as [[reports|message] n]; cbn.
  - rewrite foldl_totals. reflexivity.
  - reflexivity.
Qed.

(** X9: the handler of GET /api/reports never throws and always sends
    one JSON response: 200 with the reports when the catalog call
    succeeds, where [totalReports] is their number and [totalTests] the sum
    of their totals; 500 carrying the message of the failure when the
    catalog call fails. *)
Theorem api_reports_always_answers (reads : nat) :
  exists r n,
    api_reports P (fresh reads) = (Resolved tt, {| reads := n; res := r |}) /\
    headersSent r = true /\
    ((exists reports n0 lastUpdated,
        Fetcher.listAllReports P reads = (Resolved reports, n0) /\
        statusCode r = 200%nat /\
        body r = JsonBody
          (ReportsPayload reports (length reports)
             (list_sum (map (fun report =>
                Fetcher.total (Fetcher.statistic (Fetcher.summary report))) reports))
             lastUpdated)) \/
     (exists message n0 timestamp,
        Fetcher.listAllReports P reads = (Rejected message, n0) /\
        statusCode r = 500%nat /\
        body r = JsonBody (ErrorPayload
          [("error", "Failed to fetch reports"); ("details", message);
           ("timestamp", timestamp)]))).
Proof.
  pose proof (api_reports_cases reads) as Hcases.
  destruct (Fetcher.listAllReports P reads) as [[reports|message] n] eqn:Hrun.
  - eexists _, _. split; [exact Hcases|]. split; [reflexivity|].
    left. eexists _, _, _. repeat split.
  - eexists _, _. split; [exact Hcases|]. split; [reflexivity|].
    right. eexists _, _, _. repeat split.
Qed.

Lemma fetchSummary_total (execId : string) (reads reads' : nat)
    (s : Fetcher.Summary) (listResult : ListObjectsV2Output) :
  listObjectsV2 (s3Client P) (runListing P execId) = Resolved listResult ->
  Fetcher.fetchSummary P execId reads = (Resolved s, reads') ->
  Fetcher.total (Fetcher.statistic s) = length (cleanList P listResult).
Proof.
  intros Hlist Hrun.
  destruct (Fetcher.resultFilesOf listResult) as [|file files] eqn:Hrf.
  - rewrite (fetchSummary_no_result_files P _ _ _ Hlist Hrf) in Hrun.
    injection Hrun as <- _. unfold cleanList. rewrite Hrf. reflexivity.
  - destruct (fetchSummary_unfold P execId reads listResult Hlist)
      as (r1 & r2 & starts & stops & _ & _ & _ & _ & Heq); [congruence|].
    rewrite Heq in Hrun. injection Hrun as <- _. reflexivity.
Qed.

(** X10: when the catalog listing and the listing of every run succeed,
    GET /api/reports answers 200 with one report per run prefix, in
    listing order; [totalReports] is the number of run prefixes and
    [totalTests] is the number of result files, over all runs, that could be
    read and parsed to a truthy document. *)
Theorem api_reports_totals (reads : nat) (res : ListObjectsV2Output)
    (listingOf : string -> ListObjectsV2Output) :
  listObjectsV2 (s3Client P) (catalogListing P) = Resolved res ->
  (forall runId, In runId (Fetcher.runIdsOf res) ->
     listObjectsV2 (s3Client P) (runListing P runId) = Resolved (listingOf runId)) ->
  exists r n reports lastUpdated,
    api_reports P (fresh reads) = (Resolved tt, {| reads := n; res := r |}) /\
    statusCode r = 200%nat /\
    map Fetcher.runId reports = Fetcher.runIdsOf res /\
    body r = JsonBody
      (ReportsPayload reports
         (length (Fetcher.runIdsOf res))
         (list_sum (map (fun runId => length (cleanList P (listingOf runId)))
                        (Fetcher.runIdsOf res)))
         lastUpdated).
Proof.
  intros Hcatalog Hruns.
  destruct (reports_settle P (Fetcher.runIdsOf res) reads)
    as (reports & n & Hmap & Hids & Hsums).
  { intros runId Hin. eexists. apply Hruns. exact Hin. }
  assert (Hall : Fetcher.listAllReports P reads = (Resolved reports, n)).
  { unfold Fetcher.listAllReports. fold (catalogListing P). run_async.
    rewrite Hcatalog. exact Hmap. }
  pose proof (api_reports_cases reads) as Hcases. rewrite Hall in Hcases.
  eexists _, _, reports, _. split; [exact Hcases|]. cbn [statusCode body].
  split; [reflexivity|]. split; [exact Hids|].
  f_equal. f_equal.
  - rewrite <- Hids. rewrite length_map. reflexivity.
  - f_equal. rewrite <- Hids. rewrite map_map.
    assert (Hin : forall report, In report reports ->
                    In (Fetcher.runId report) (Fetcher.runIdsOf res)).
    { intros report Hr. rewrite <- Hids. apply in_map. exact Hr. }
    clear Hmap Hall Hcases Hids.
    induction Hsums as [|report reports (n1 & n2 & Hs) _ IH]; [reflexivity|].
    cbn [map]. f_equal.
    + apply (fetchSummary_total (Fetcher.runId report) n1 n2); [|exact Hs].
      apply Hruns. apply Hin. left. reflexivity.
    + apply IH. intros r Hr. apply Hin. right. exact Hr.
Qed.

End ServerFurther.

(** ** More on the Comparison Engine *)

Section CompareFurther.

Import JS Client Compare Spec.

(** X11: the icon and the colour of a difference always agree: the
    up arrow goes with green, the down arrow with red, and no icon with
    gray, whatever the value and the direction that counts as good. *)
Theorem icon_matches_color (value : number) (isNegativeGood : bool) :
  (getDifferenceIcon value isNegativeGood = ArrowUp <->
   getDifferenceColor value isNegativeGood = "text-green-600") /\
  (getDifferenceIcon value isNegativeGood = ArrowDown <->
   getDifferenceColor value isNegativeGood = "text-red-600") /\
  (getDifferenceIcon value isNegativeGood = NoIcon <->
   getDifferenceColor value isNegativeGood = "text-gray-600").
Proof.
  unfold getDifferenceIcon, getDifferenceColor, gt, lt, strict_eq.
  destruct value as [| |z|], isNegativeGood; cbn;
    try (repeat split; intros H; first [reflexivity|discriminate H]).
  all: destruct (z =? 0); [repeat split; intros H; first [reflexivity|discriminate H]|].
  all: destruct (0 <? z); [repeat split; intros H; first [reflexivity|discriminate H]|].
  all: destruct (z <? 0); repeat split; intros H; first [reflexivity|discriminate H].
Qed.

(** X12: counting a category as bad flips the reading of a difference:
    the colour and icon of a value for failed, broken or skipped tests are
    those of the opposite value for total or passed tests. *)
Theorem negative_good_is_opposite (value : number) :
  getDifferenceColor value true = getDifferenceColor (neg value) false /\
  getDifferenceIcon value true = getDifferenceIcon (neg value) false.
Proof.
  unfold getDifferenceIcon, getDifferenceColor, gt, lt, strict_eq, neg.
  destruct value as [| |z|]; cbn; try (split; reflexivity).
  destruct (Z.compare_spec z 0) as [->|Hlt|Hgt].
  - split; reflexivity.
  - assert (H1 : (z =? 0) = false) by (apply Z.eqb_neq; lia).
    assert (H2 : (- z =? 0) = false) by (apply Z.eqb_neq; lia).
    assert (H3 : (0 <? z) = false) by (apply Z.ltb_ge; lia).
    assert (H4 : (z <? 0) = true) by (apply Z.ltb_lt; lia).
    assert (H5 : (0 <? - z) = true) by (apply Z.ltb_lt; lia).
    rewrite H1, H2, H3, H4, H5. split; reflexivity.
  - assert (H1 : (z =? 0) = false) by (apply Z.eqb_neq; lia).
    assert (H2 : (- z =? 0) = false) by (apply Z.eqb_neq; lia).
    assert (H3 : (0 <? z) = true) by (apply Z.ltb_lt; lia).
    assert (H4 : (0 <? - z) = false) by (apply Z.ltb_ge; lia).
    assert (H5 : (- z <? 0) = true) by (apply Z.ltb_lt; lia).
    rewrite H1, H2, H3, H4, H5. split; reflexivity.
Qed.

Lemma stats_of_count (A : Report) (X : string) (a : Z) :
  countOf A X = Some a -> stats (viewOf A) !! X = Some (Finite a).
Proof.
  unfold countOf, viewOf. cbn [stats].
  destruct (summary A ≫= statistic) as [m|]; [|discriminate]. cbn.
  destruct (m !! X) as [[| |z|]|]; try discriminate.
  intros [= ->]. reflexivity.
Qed.

Lemma metric_key_is_category (metric : Metric) :
  In metric metrics -> In (key metric) categories.
Proof.
  unfold metrics, categories.
  intros [<-|[<-|[<-|[<-|[<-|[]]]]]]; cbn; auto 10.
Qed.

(** X13: for two run summaries with numeric statistics, each row of the
    detail table shows the two counts, and its difference is the entry of
    [differences] for the same category: the table and the quick stats
    never disagree. *)
Theorem table_matches_differences (A B : Report) (metric : Metric) (a b : Z) :
  In metric metrics ->
  countOf A (key metric) = Some a ->
  countOf B (key metric) = Some b ->
  value1 (detailRow (compare A B) metric) = Finite a /\
  value2 (detailRow (compare A B) metric) = Finite b /\
  differences (compare A B) !! key metric
    = Some (diff (detailRow (compare A B) metric)).
Proof.
  intros Hin Ha Hb.
  rewrite (differences_lookup A B (key metric) (metric_key_is_category metric Hin)).
  rewrite (stat_of_count A _ a Ha), (stat_of_count B _ b Hb).
  unfold detailRow. cbn [value1 value2 diff report1 report2 compare].
  rewrite (stats_of_count A _ a Ha), (stats_of_count B _ b Hb).
  assert (Hzero : forall z, orZero (Some (Finite z)) = Finite z).
  { intros z. unfold orZero, number_truthy.
    destruct (Z.eqb_spec z 0) as [->|_]; reflexivity. }
  rewrite !Hzero. repeat split.
Qed.

(** X14: a percentage of a comparison is never NaN: where the division
    yields NaN (a total of 0 with a count of 0, or a missing statistic) the
    percentage is 0. *)
Theorem percentages_never_NaN (A B : Report) (X : string) :
  In X ["passed"; "failed"; "broken"; "skipped"] ->
  exists p1 p2,
    percentagesReport1 (percentages (compare A B)) !! X = Some p1 /\
    percentagesReport2 (percentages (compare A B)) !! X = Some p2 /\
    p1 <> RNaN /\ p2 <> RNaN /\
    (stat (stats (viewOf A)) "total" = Finite 0 ->
     stat (stats (viewOf A)) X = Finite 0 -> p1 = RFinite 0%Q) /\
    (stats (viewOf A) = ∅ -> p1 = RFinite 0%Q).
Proof.
  intros HX.
  assert (Hlookup : forall stats,
            percentagesOf stats !! X = Some (percentOfTotal stats X)).
  { intros stats. unfold percentagesOf.
    repeat (destruct HX as [<-|HX];
            [rewrite ?lookup_insert_ne by discriminate;
             first [apply lookup_insert_eq|apply lookup_singleton_eq]|]).
    destruct HX. }
  assert (Hnan : forall stats, percentOfTotal stats X <> RNaN).
  { intros stats. unfold percentOfTotal.
    destruct (scale (div (stat stats X) (stat stats "total")) 100) eqn:Hp;
      cbn; try discriminate.
    destruct (negb (Qeq_bool q 0)); discriminate. }
  exists (percentOfTotal (stats (viewOf A)) X), (percentOfTotal (stats (viewOf B)) X).
  unfold compare. cbn [percentages percentagesReport1 percentagesReport2].
  rewrite !Hlookup. repeat split; try apply Hnan.
  - intros Htotal Hcount. unfold percentOfTotal. rewrite Htotal, Hcount. reflexivity.
  - intros Hempty. unfold percentOfTotal, stat. rewrite Hempty, !lookup_empty.
    reflexivity.
Qed.

(** X15: [generateComparison] yields no comparison exactly when one of
    the two selected ids is the id of no available report; when it yields
    one, its two sides are named by the selected ids. *)
Theorem generateComparison_selected (availableReports : list Report)
    (selectedReport1 selectedReport2 : string) :
  (generateComparison availableReports selectedReport1 selectedReport2 = None <->
   (forall r, In r availableReports -> runId r <> selectedReport1) \/
   (forall r, In r availableReports -> runId r <> selectedReport2)) /\
  (forall c,
     generateComparison availableReports selectedReport1 selectedReport2 = Some c ->
     name (report1 c) = selectedReport1 /\ name (report2 c) = selectedReport2).
Proof.
  unfold generateComparison.
  destruct (List.find (fun r => String.eqb (runId r) selectedReport1) availableReports)
    as [r1|] eqn:H1;
  destruct (List.find (fun r => String.eqb (runId r) selectedReport2) availableReports)
    as [r2|] eqn:H2.
  - apply find_some in H1, H2. destruct H1 as [Hin1 Heq1], H2 as [Hin2 Heq2].
    apply String.eqb_eq in Heq1, Heq2. split.
    + split; [discriminate|].
      intros [Hno|Hno]; exfalso; [apply (Hno r1 Hin1)|apply (Hno r2 Hin2)]; assumption.
    + intros c [= <-]. split; assumption.
  - split; [|discriminate]. split; [|reflexivity]. intros _. right.
    intros r Hin. pose proof (find_none _ _ H2 r Hin) as Hne.
    apply String.eqb_neq. exact Hne.
  - split; [|discriminate]. split; [|reflexivity]. intros _. left.
    intros r Hin. pose proof (find_none _ _ H1 r Hin) as Hne.
    apply String.eqb_neq. exact Hne.
  - split; [|discriminate]. split; [|reflexivity]. intros _. left.
    intros r Hin. pose proof (find_none _ _ H1 r Hin) as Hne.
    apply String.eqb_neq. exact Hne.
Qed.

End CompareFurther.

(** ** More on the Client-Side Cache *)

Section CacheFurther.

Import JS Client Cache Spec.

Variable B : Browser.

Ltac run_cache :=
  unfold getCacheStatus, clearCache, getReports, fetchAndCacheReports,
    shouldRefreshData, currentCache, setReportsCache, Cache.fetch,
    Cache.Date_now in *;
  run_async.

(** X16: the status line of the cache.  Without a time of fetch it reads
    No data cached and the clock is not consulted.  Otherwise it depends
    only on the age, the current time minus the time of fetch: Just updated
    below one minute (also when the clock has gone backwards), 1 minute ago
    from one to two minutes, and the whole number of minutes after that.
    The cache and the number of fetches are left as they were. *)
Theorem cache_status_by_age (w : World) :
  (lastFetchedMissing (reportsCache w) = true ->
   getCacheStatus B w = (Resolved "No data cached", w)) /\
  (forall t,
     lastFetched (reportsCache w) = Some t -> t <> 0 ->
     let age := clock B (clockReads w) - t in
     (age < 60000 ->
      getCacheStatus B w = (Resolved "Just updated", afterClockRead w)) /\
     (60000 <= age < 120000 ->
      getCacheStatus B w = (Resolved "1 minute ago", afterClockRead w)) /\
     (120000 <= age ->
      getCacheStatus B w
        = (Resolved (pretty (age / 60000) +:+ " minutes ago"), afterClockRead w))).
Proof.
  split.
  - intros Hmissing. run_cache. rewrite Hmissing. reflexivity.
  - intros t Ht Hne age.
    assert (Hpresent : lastFetchedMissing (reportsCache w) = false).
    { unfold lastFetchedMissing. rewrite Ht. apply Z.eqb_neq. exact Hne. }
    assert (Hunit : 1000 * 60 = 60000) by reflexivity.
    repeat split; intros Hage; run_cache; rewrite Hpresent, Ht;
      cbn [default from_option id]; fold age; rewrite Hunit.
    + assert (Hlt : (age / 60000 <? 1) = true).
      { apply Z.ltb_lt. apply Z.div_lt_upper_bound; lia. }
      rewrite Hlt. reflexivity.
    + assert (Hq : age / 60000 = 1).
      { symmetry. apply (Z.div_unique age 60000 1 (age - 60000)); lia. }
      rewrite Hq. reflexivity.
    + assert (Hge : 2 <= age / 60000) by (apply Z.div_le_lower_bound; lia).
      assert (Hlt : (age / 60000 <? 1) = false) by (apply Z.ltb_ge; lia).
      assert (Hne1 : (age / 60000 =? 1) = false) by (apply Z.eqb_neq; lia).
      rewrite Hlt, Hne1. reflexivity.
Qed.

(** X17: [clearCache] resets the slot to its initial, empty state
    whatever it held, without a fetch; afterwards the status line reads No
    data cached and the next [get(false)] performs a fetch. *)
Theorem clear_then_get_fetches (w : World) :
  let cleared := snd (clearCache w) in
  fst (clearCache w) = Resolved tt /\
  reportsCache cleared = initialCache /\
  fetchCalls cleared = fetchCalls w /\
  fst (getCacheStatus B cleared) = Resolved "No data cached" /\
  fetchCalls (snd (getReports B false cleared)) = S (fetchCalls w).
Proof.
  cbn zeta. repeat split.
  unfold getReports.
  rewrite (stale_refresh_fetches B (snd (clearCache w))); [reflexivity|].
  left. reflexivity.
Qed.

(** X18: a refresh whose fetch succeeds makes the call resolve and
    replaces the slot wholesale: the reports and summary returned are the
    ones stored, the time of fetch is the reading of the clock taken after
    the response, [loading] is false and a previous error is cleared. *)
Theorem successful_refresh_ready (forceRefresh : bool) (w : World) :
  fetchCalls (snd (getReports B forceRefresh w)) <> fetchCalls w ->
  fetchFailure B (fetchCalls w) = None ->
  exists r t,
    fst (getReports B forceRefresh w) = Resolved r /\
    reportsCache (snd (getReports B forceRefresh w)) =
      {| reports := resultReports r; summary := resultSummary r;
         lastFetched := Some t; loading := false; error := None |} /\
    (t = clock B (clockReads w) \/ t = clock B (S (clockReads w))) /\
    fetchCalls (snd (getReports B forceRefresh w)) = S (fetchCalls w).
Proof.
  unfold fetchFailure. run_cache.
  destruct forceRefresh.
  - cbn. intros _.
    destruct (network B (fetchCalls w)) as [response|m]; [|discriminate].
    destruct (ok response); cbn; [|discriminate].
    destruct (json response) as [[data|]|m]; cbn; try discriminate.
    intros _. eexists _, _. repeat split. left. reflexivity.
  - destruct (lastFetchedMissing (reportsCache w)
              || (length (reports (reportsCache w)) =? 0)%nat); cbn.
    + intros _.
      destruct (network B (fetchCalls w)) as [response|m]; [|discriminate].
      destruct (ok response); cbn; [|discriminate].
      destruct (json response) as [[data|]|m]; cbn; try discriminate.
      intros _. eexists _, _. repeat split. left. reflexivity.
    + destruct (default 0 (lastFetched (reportsCache w))
                <? clock B (clockReads w) - 5 * 60 * 1000); cbn.
      * intros _.
        destruct (network B (fetchCalls w)) as [response|m]; [|discriminate].
        destruct (ok response); cbn; [|discriminate].
        destruct (json response) as [[data|]|m]; cbn; try discriminate.
        intros _. eexists _, _. repeat split. right. reflexivity.
      * intros Hfetched. exfalso. apply Hfetched. reflexivity.
Qed.

(** X19: a call of [get] performs at most one fetch; when it performs
    none, it was not forced, it leaves the slot exactly as it was and it
    returns the reports and summary of the slot. *)
Theorem get_fetches_at_most_once (forceRefresh : bool) (w : World) :
  (fetchCalls (snd (getReports B forceRefresh w)) = fetchCalls w /\
   forceRefresh = false /\
   reportsCache (snd (getReports B forceRefresh w)) = reportsCache w /\
   fst (getReports B forceRefresh w)
     = Resolved {| resultReports := reports (reportsCache w);
                   resultSummary := summary (reportsCache w) |}) \/
  fetchCalls (snd (getReports B forceRefresh w)) = S (fetchCalls w).
Proof.
  destruct forceRefresh.
  - right. apply forced_refresh_fetches.
  - destruct (lastFetchedMissing (reportsCache w)
              || (length (reports (reportsCache w)) =? 0)%nat) eqn:Hguard.
    + right. unfold getReports. apply stale_refresh_fetches.
      apply orb_true_iff in Hguard. destruct Hguard as [H|H]; [left; exact H|].
      right. left. destruct (reports (reportsCache w)); [reflexivity|discriminate H].
    + destruct (default 0 (lastFetched (reportsCache w))
                <? clock B (clockReads w) - 5 * 60 * 1000) eqn:Hold.
      * right. unfold getReports. apply stale_refresh_fetches.
        right. right. unfold five_minutes. apply Z.ltb_lt. exact Hold.
      * left. run_cache. rewrite Hguard. cbn. rewrite Hold. cbn. repeat split.
Qed.

End CacheFurther.

(** ** Logging in *)

Section AuthProperties.

Import JS Auth Terms.

Variable C : Crypto.

Lemma split_space_free (s : string) :
  spaceFree s -> split " "%char s = [s].
Proof.
  unfold spaceFree. induction s as [|c s IH]; intros Hfree; [reflexivity|].
  cbn [split]. cbn [String.list_ascii_of_string] in Hfree.
  destruct (Ascii.eqb_spec c " "%char) as [->|Hne].
  - exfalso. apply Hfree. left. reflexivity.
  - rewrite IH; [reflexivity|]. intros Hin. apply Hfree. right. exact Hin.
Qed.

Lemma split_at_space (a b : string) :
  spaceFree a -> split " "%char (a +:+ " " +:+ b) = a :: split " "%char b.
Proof.
  unfold spaceFree. induction a as [|c a IH]; intros Hfree.
  - rewrite append_nil. reflexivity.
  - rewrite append_cons. cbn [split]. cbn [String.list_ascii_of_string] in Hfree.
    destruct (Ascii.eqb_spec c " "%char) as [->|Hne].
    + exfalso. apply Hfree. left. reflexivity.
    + rewrite IH; [reflexivity|]. intros Hin. apply Hfree. right. exact Hin.
Qed.

(** X20: GET /dashboard.  Without an authorization header, or with one
    that has no space in it, the answer is 401.  For a header made of a
    scheme, one space and a token, the answer is 401 when the token is
    empty, 403 when the token does not verify, and the welcome with the
    decoded payload when it does; the scheme itself is not looked at. *)
Theorem dashboard_replies :
  dashboard C None = SendStatus 401 /\
  (forall header, spaceFree header -> dashboard C (Some header) = SendStatus 401) /\
  (forall scheme token,
     spaceFree scheme -> spaceFree token ->
     dashboard C (Some (scheme +:+ " " +:+ token)) =
       if String.eqb token "" then SendStatus 401
       else
         match verify C token with
         | Rejected _ => SendStatus 403
         | Resolved decoded => Welcome decoded
         end).
Proof.
  split; [reflexivity|]. split.
  - intros header Hfree. unfold dashboard, tokenOf.
    destruct (truthy (VString header)) eqn:Htruthy.
    + rewrite (split_space_free header Hfree). reflexivity.
    + rewrite Htruthy. reflexivity.
  - intros scheme token Hscheme Htoken. unfold dashboard, tokenOf.
    assert (Htruthy : truthy (VString (scheme +:+ " " +:+ token)) = true).
    { cbn [truthy]. destruct scheme; reflexivity. }
    rewrite Htruthy, (split_at_space scheme token Hscheme),
      (split_space_free token Htoken).
    cbn [lookup list_lookup truthy]. destruct (String.eqb token ""); reflexivity.
Qed.

(** X21: POST /login issues a token exactly when the email is the
    user's, character for character, and the password check succeeds; any
    other email is answered 400 Invalid email without the password being
    looked at, and a password the check refuses is answered 400 Invalid
    password. *)
Theorem login_replies (email password : value) :
  (forall token,
     login C email password = Resolved (Token token) <->
     email = VString user_email /\ compareSync C password = Resolved true /\
     token = sign C) /\
  (email <> VString user_email ->
   login C email password = Resolved (Message 400 "Invalid email")) /\
  (email = VString user_email -> compareSync C password = Resolved false ->
   login C email password = Resolved (Message 400 "Invalid password")).
Proof.
  assert (Hspec : strict_eq_string email user_email = true <-> email = VString user_email)
    by apply strict_eq_string_spec.
  unfold login. split; [|split].
  - intros token. split.
    + destruct (strict_eq_string email user_email); cbn [negb]; [|discriminate].
      destruct (compareSync C password) as [[|]|message]; cbn [negb];
        try discriminate.
      intros [= <-]. split; [apply Hspec; reflexivity|]. split; reflexivity.
    + intros (Hemail & Hcheck & ->). apply Hspec in Hemail.
      rewrite Hemail, Hcheck. reflexivity.
  - intros Hne.
    destruct (strict_eq_string email user_email); [|reflexivity].
    exfalso. apply Hne. apply Hspec. reflexivity.
  - intros Hemail Hcheck. apply Hspec in Hemail. rewrite Hemail, Hcheck. reflexivity.
Qed.

End AuthProperties.

Section LoginPageProperties.

Import LoginPage Terms.

(** X22: a login attempt that fails, for whatever reason, shows the
    message of the failure and changes neither the stored token nor the
    location, so what [ProtectedRoute] renders is what it rendered
    before. *)
Theorem failed_login_keeps_storage (response : outcome LoginResponse) (p : Page)
    (message : string) :
  loginFailure response = Some message ->
  handleSubmit response p =
    (Resolved tt,
     {| localStorage := localStorage p; error := message; location := location p |}) /\
  ProtectedRoute (localStorage (snd (handleSubmit response p)))
    = ProtectedRoute (localStorage p).
Proof.
  unfold loginFailure, handleSubmit, setError. run_async.
  destruct response as [res|m]; [|intros [= ->]; split; reflexivity].
  destruct (ok res); cbn [negb]; [|intros [= <-]; split; reflexivity].
  destruct (json res) as [[body|]|m]; [discriminate| |];
    intros [= <-]; split; reflexivity.
Qed.

(** X23: a login whose response is ok and carries a body stores the
    token of the body, or the text undefined when the body has none, and
    moves to /dashboard; [ProtectedRoute] then renders its children unless
    the token is the empty string. *)
Theorem successful_login_enters (res : LoginResponse) (body : TokenBody) (p : Page) :
  ok res = true ->
  json res = Resolved (Some body) ->
  handleSubmit (Resolved res) p =
    (Resolved tt,
     {| localStorage := <["token" := default "undefined" (token body)]> (localStorage p);
        error := error p; location := "/dashboard" |}) /\
  (ProtectedRoute (localStorage (snd (handleSubmit (Resolved res) p))) = Children <->
   token body <> Some "").
Proof.
  intros Hok Hjson.
  assert (Hrun : handleSubmit (Resolved res) p =
            (Resolved tt,
             {| localStorage := <["token" := default "undefined" (token body)]> (localStorage p);
                error := error p; location := "/dashboard" |})).
  { unfold handleSubmit, setItem, navigate. run_async. rewrite Hok, Hjson. reflexivity. }
  split; [exact Hrun|]. rewrite Hrun. cbn [snd localStorage].
  unfold ProtectedRoute. rewrite lookup_insert_eq.
  destruct (token body) as [t|]; cbn [default from_option id].
  - destruct (String.eqb_spec t "") as [->|Hne].
    + split; [discriminate|congruence].
    + split; [congruence|reflexivity].
  - cbn. split; [discriminate|reflexivity].
Qed.

End LoginPageProperties.

(** ** The download page *)

Section ReportGeneratorProperties.

Import ReportGenerator Terms.

Ltac run_page :=
  unfold downloadReport, fetchAvailableReports, try_finally, setDownloadingReports,
    setAvailableReports, setIsLoading, setError, saveAs, modify in *;
  run_async.

(** X24: [downloadReport] always settles and always takes the run out
    of the set of downloading runs, whether the download succeeded or not,
    leaving the other runs of the set as they were.  A file named
    <runId>.zip holding the chunks of the body is saved, and the error is
    empty, exactly when the download succeeds; otherwise nothing is saved
    and the error names the run and the failure. *)
Theorem download_unmarks_run (response : outcome DownloadResponse)
    (runId : string) (p : Page) :
  exists p',
    downloadReport response runId p = (Resolved tt, p') /\
    downloadingReports p' = downloadingReports p ∖ {[ runId ]} /\
    availableReports p' = availableReports p /\
    isLoading p' = isLoading p /\
    match downloadOutcome response with
    | Resolved blob =>
        saved p' = (saved p ++ [(runId +:+ ".zip", blob)])%list /\ error p' = ""
    | Rejected message =>
        saved p' = saved p /\
        error p' = "Failed to download " +:+ runId +:+ ": " +:+ message
    end.
Proof.
  assert (Hset : (downloadingReports p ∪ {[ runId ]}) ∖ {[ runId ]}
                 = downloadingReports p ∖ {[ runId ]}).
  { apply set_eq. intros x. rewrite !elem_of_difference, elem_of_union. tauto. }
  unfold downloadOutcome. run_page.
  destruct response as [res|m]; cbn.
  - destruct (ok res); cbn.
    + destruct (chunks res) as [blob|m]; cbn;
        eexists; (split; [reflexivity|]); cbn; rewrite Hset; repeat split.
    + destruct (text res) as [errorText|m]; cbn;
        eexists; (split; [reflexivity|]); cbn; rewrite Hset; repeat split.
  - eexists. split; [reflexivity|]. cbn. rewrite Hset. repeat split.
Qed.

(** X25: [fetchAvailableReports] always settles with [isLoading] false.
    When the request succeeds the list of reports is replaced by the
    reports of the body (the empty list when the body has none) and the
    error is left as it was; when it fails the list is left as it was and
    the error carries the message of the failure. *)
Theorem fetchAvailableReports_settles (response : outcome Cache.HttpResponse)
    (p : Page) :
  exists p',
    fetchAvailableReports response p = (Resolved tt, p') /\
    isLoading p' = false /\
    downloadingReports p' = downloadingReports p /\
    saved p' = saved p /\
    match reportsOutcome response with
    | Resolved reports => availableReports p' = reports /\ error p' = error p
    | Rejected message =>
        availableReports p' = availableReports p /\
        error p' = "Failed to load available reports: " +:+ message
    end.
Proof.
  unfold reportsOutcome. run_page.
  destruct response as [res|m]; cbn.
  - destruct (Cache.ok res); cbn.
    + destruct (Cache.json res) as [[data|]|m]; cbn;
        eexists; (split; [reflexivity|]); cbn; repeat split.
    + eexists. split; [reflexivity|]. cbn. repeat split.
  - eexists. split; [reflexivity|]. cbn. repeat split.
Qed.

End ReportGeneratorProperties.

(** ** The viewer's utilities *)

Section UtilsProperties.

Import JS S3 Utils Terms.

Variable parse : string -> option json.
Variable s3Client : Client.
Variable bucket : value.

Lemma readResult_settles {S} (runId : string) (file : S3Object) (s : S) :
  readResult parse s3Client bucket runId file s
  = (Resolved (recordOf parse s3Client bucket runId file), s).
Proof.
  unfold readResult, recordOf. run_async.
  destruct (getObject s3Client (GetObject bucket (Key file))) as [body|m];
    [|reflexivity].
  destruct (parse body) as [[[]|fields]|]; try reflexivity.
  cbn [prop]. destruct (truthy _ && truthy _); reflexivity.
Qed.

Lemma readResults_settle {S} (runId : string) (files : list S3Object) (s : S) :
  mapM (readResult parse s3Client bucket runId) files s
  = (Resolved (map (recordOf parse s3Client bucket runId) files), s).
Proof.
  induction files as [|file files IH]; [reflexivity|].
  cbn [mapM map]. run_async. rewrite readResult_settles, IH. reflexivity.
Qed.

Lemma recordOf_tagged (runId : string) (file : S3Object) (r : gmap string value) :
  recordOf parse s3Client bucket runId file = Some r ->
  r !! "runId" = Some (VString runId) /\
  r !! "s3Key" = Some (VString (Key file)) /\
  truthy (field r "name") = true /\
  truthy (field r "status") = true.
Proof.
  unfold recordOf, field.
  destruct (getObject s3Client (GetObject bucket (Key file))) as [body|m];
    [|intros H; discriminate H].
  destruct (parse body) as [[v|fields]|]; try (intros H; discriminate H).
  destruct (truthy (default VUndefined (fields !! "name"))) eqn:Hname;
    [|intros H; discriminate H].
  destruct (truthy (default VUndefined (fields !! "status"))) eqn:Hstatus;
    [|intros H; discriminate H].
  cbn [andb]. intros [= <-].
  split; [|split; [|split]].
  - rewrite lookup_insert_ne by discriminate. apply lookup_insert_eq.
  - apply lookup_insert_eq.
  - rewrite !lookup_insert_ne by discriminate. exact Hname.
  - rewrite !lookup_insert_ne by discriminate. exact Hstatus.
Qed.

Lemma omap_length_le {A} (l : list (option A)) :
  (length (omap id l) <= length l)%nat.
Proof.
  induction l as [|[x|] l IH]; cbn; lia.
Qed.

Lemma omap_members {A} (l : list (option A)) (x : A) :
  In x (omap id l) -> In (Some x) l.
Proof.
  induction l as [|[y|] l IH]; cbn.
  - intros [].
  - intros [->|Hin]; [left; reflexivity|right; exact (IH Hin)].
  - intros Hin. right. exact (IH Hin).
Qed.

(** X26: [fetchRunResults] rejects exactly as the listing of the run
    does; otherwise it resolves, whatever happens to single files, with at
    most one record per listed object.  Every record it returns carries a
    truthy name and a truthy status, is tagged with the requested run id
    (overriding a run id of its own) and with the key of the listed .json
    object it was read from. *)
Theorem fetchRunResults_records {S} (runId : string) (s : S) :
  match listObjectsV2 s3Client (resultsListing bucket runId) with
  | Rejected message =>
      fetchRunResults parse s3Client bucket runId s = (Rejected message, s)
  | Resolved data =>
      exists results,
        fetchRunResults parse s3Client bucket runId s = (Resolved results, s) /\
        (length results <= length (default [] (Contents data)))%nat /\
        Forall (fun r =>
                  r !! "runId" = Some (VString runId) /\
                  truthy (field r "name") = true /\
                  truthy (field r "status") = true /\
                  exists file p,
                    In file (default [] (Contents data)) /\
                    Key file = p +:+ ".json" /\
                    r !! "s3Key" = Some (VString (Key file)))
               results
  end.
Proof.
  unfold fetchRunResults. fold (resultsListing bucket runId). run_async.
  destruct (listObjectsV2 s3Client (resultsListing bucket runId)) as [data|m];
    [|reflexivity].
  cbn beta iota.
  set (jsonFiles := default [] (List.filter (fun obj => endsWith (Key obj) ".json")
                                  <$> Contents data)).
  pose proof (readResults_settle runId jsonFiles s) as Hread.
  unfold mbind, mret, Async_bind, Async_ret in Hread. rewrite Hread.
  eexists. split; [reflexivity|].
  assert (Hfiles : forall file, In file jsonFiles ->
            In file (default [] (Contents data)) /\ exists p, Key file = p +:+ ".json").
  { subst jsonFiles. intros file.
    destruct (Contents data) as [files|]; cbn; [|intros []].
    rewrite filter_In, endsWith_spec. tauto. }
  split.
  - etransitivity; [apply omap_length_le|]. rewrite length_map.
    subst jsonFiles. destruct (Contents data) as [files|]; cbn; [|lia].
    apply filter_length_le.
  - apply List.Forall_forall. intros r Hin.
    apply omap_members, in_map_iff in Hin. destruct Hin as (file & Hrec & Hfile).
    destruct (recordOf_tagged runId file r Hrec) as (Hrun & Hkey & Hname & Hstatus).
    destruct (Hfiles file Hfile) as (Hin & p & Hp).
    repeat split; try assumption. exists file, p. auto.
Qed.

Lemma substring_none (n : nat) (s : string) : String.substring n 0 s = "".
Proof.
  revert n. induction s as [|c s IH]; intros [|n]; cbn; try reflexivity. apply IH.
Qed.

Lemma append_empty (s : string) : s +:+ "" = s.
Proof.
  induction s as [|c s IH]; [reflexivity|]. rewrite append_cons, IH. reflexivity.
Qed.

Lemma index_first_slash (id rest : string) :
  slashFree id ->
  String.index 0 "/" (id +:+ String "/" rest) = Some (String.length id).
Proof.
  unfold slashFree. induction id as [|c id IH]; intros Hfree.
  - rewrite append_nil. cbn. destruct rest; reflexivity.
  - rewrite append_cons. cbn [String.index String.length].
    cbn [String.list_ascii_of_string] in Hfree.
    assert (Hne : c <> "/"%char) by (intros ->; apply Hfree; left; reflexivity).
    assert (Hprefix : String.prefix "/" (String c (id +:+ String "/" rest)) = false).
    { cbn [String.prefix]. destruct (ascii_dec "/" c) as [Heq|_]; [congruence|reflexivity]. }
    rewrite Hprefix, IH; [reflexivity|].
    intros Hin. apply Hfree. right. exact Hin.
Qed.

Lemma replace_first_slash (id : string) :
  slashFree id -> replace (id +:+ "/") "/" "" = id.
Proof.
  intros Hfree. unfold replace. rewrite (index_first_slash id "" Hfree).
  rewrite substring_take, length_append. cbn [String.length].
  replace (String.length id + 1 - (String.length id + 1))%nat with 0%nat by lia.
  rewrite substring_none, !append_empty. reflexivity.
Qed.

(** X27: [listAllRuns] rejects as the listing does; for common prefixes
    of the form reports/<id>/ whose ids have no slash it returns one run
    per prefix, in order, with that id as run id and as name: the same ids
    the server's catalog extracts from the same listing. *)
Theorem listAllRuns_ids {S} (s : S) :
  (forall message,
     listObjectsV2 s3Client (runsListing bucket) = Rejected message ->
     listAllRuns (S := S) s3Client bucket s = (Rejected message, s)) /\
  (forall ids contents,
     Forall slashFree ids ->
     listObjectsV2 s3Client (runsListing bucket)
       = Resolved {| Contents := contents;
                     CommonPrefixes := Some (map prefixFor ids) |} ->
     listAllRuns (S := S) s3Client bucket s
       = (Resolved (map (fun id => {| runId := id; name := id |}) ids), s) /\
     Fetcher.runIdsOf {| Contents := contents;
                         CommonPrefixes := Some (map prefixFor ids) |} = ids).
Proof.
  unfold listAllRuns. fold (runsListing bucket). run_async. split.
  - intros message ->. reflexivity.
  - intros ids contents Hfree ->. cbn. split.
    + f_equal. f_equal. induction Hfree as [|id ids Hid _ IH]; [reflexivity|].
      cbn [map]. rewrite IH. f_equal.
      unfold prefixFor. cbn [PrefixOf].
      rewrite replace_leading by discriminate.
      rewrite (replace_first_slash id Hid). reflexivity.
    + unfold Fetcher.runIdsOf. cbn.
      clear Hfree. induction ids as [|id ids IH]; [reflexivity|].
      cbn [map]. rewrite IH. f_equal.
      unfold prefixFor. cbn [PrefixOf].
      rewrite replace_leading by discriminate.
      apply strip_trailing_slash_append.
Qed.

(** X28: [formatDuration] on whole milliseconds.  Nothing, NaN and
    negative durations read 0ms; below a second the duration itself is
    shown; below a minute its thousandth, to one decimal; from a minute on
    it is split into minutes and seconds with at least one minute, fewer
    than sixty seconds, and less than a second left over. *)
Theorem formatDuration_cases (d : Z) :
  formatDuration NaN = ZeroMs /\
  (d <= 0 -> formatDuration (Finite d) = ZeroMs) /\
  (0 < d < 1000 -> formatDuration (Finite d) = Ms (Finite d)) /\
  (1000 <= d < 60000 ->
   formatDuration (Finite d) = Seconds (RFinite (inject_Z d / inject_Z 1000)%Q)) /\
  (60000 <= d ->
   exists m s,
     formatDuration (Finite d) = MinSec (Finite m) (Finite s) /\
     1 <= m /\ 0 <= s < 60 /\
     60000 * m + 1000 * s <= d < 60000 * m + 1000 * s + 1000).
Proof.
  unfold formatDuration, number_truthy, lt, floorDiv, remainder, div.
  split; [reflexivity|]. split; [|split; [|split]].
  - intros Hd. destruct (Z.eqb_spec d 0) as [->|Hne]; [reflexivity|].
    cbn [negb orb]. assert (Hlt : (d <? 0) = true) by (apply Z.ltb_lt; lia).
    rewrite Hlt. reflexivity.
  - intros Hd.
    assert (H0 : (d =? 0) = false) by (apply Z.eqb_neq; lia).
    assert (H1 : (d <? 0) = false) by (apply Z.ltb_ge; lia).
    assert (H2 : (d <? 1000) = true) by (apply Z.ltb_lt; lia).
    rewrite H0, H1, H2. reflexivity.
  - intros Hd.
    assert (H0 : (d =? 0) = false) by (apply Z.eqb_neq; lia).
    assert (H1 : (d <? 0) = false) by (apply Z.ltb_ge; lia).
    assert (H2 : (d <? 1000) = false) by (apply Z.ltb_ge; lia).
    assert (H3 : (d <? 60000) = true) by (apply Z.ltb_lt; lia).
    rewrite H0, H1, H2, H3. reflexivity.
  - intros Hd.
    assert (H0 : (d =? 0) = false) by (apply Z.eqb_neq; lia).
    assert (H1 : (d <? 0) = false) by (apply Z.ltb_ge; lia).
    assert (H2 : (d <? 1000) = false) by (apply Z.ltb_ge; lia).
    assert (H3 : (d <? 60000) = false) by (apply Z.ltb_ge; lia).
    rewrite H0, H1, H2, H3. cbn [negb orb].
    exists (d / 60000), (Z.rem d 60000 / 1000). split; [reflexivity|].
    rewrite Z.rem_mod_nonneg by lia.
    pose proof (Z.div_mod d 60000 ltac:(lia)) as Hdm.
    pose proof (Z.mod_pos_bound d 60000 ltac:(lia)) as Hmod.
    pose proof (Z.div_mod (d mod 60000) 1000 ltac:(lia)) as Hdm2.
    pose proof (Z.mod_pos_bound (d mod 60000) 1000 ltac:(lia)) as Hmod2.
    assert (Hm : 1 <= d / 60000) by (apply Z.div_le_lower_bound; lia).
    assert (Hs0 : 0 <= d mod 60000 / 1000) by (apply Z.div_pos; lia).
    assert (Hs1 : d mod 60000 / 1000 < 60) by (apply Z.div_lt_upper_bound; lia).
    repeat split; lia.
Qed.

Lemma filter_is_sublist {A} (f : A -> bool) (l : list A) :
  sublist (List.filter f l) l.
Proof.
  induction l as [|x l IH]; cbn [List.filter]; [constructor|].
  destruct (f x); constructor; exact IH.
Qed.

Lemma filterThrowing_sublist {A} (callback : A -> outcome bool) (l out : list A) :
  filterThrowing callback l = Resolved out -> sublist out l.
Proof.
  revert out. induction l as [|x l IH]; intros out; cbn [filterThrowing].
  - intros [= <-]. constructor.
  - destruct (callback x) as [keep|e]; [|discriminate].
    destruct (filterThrowing callback l) as [kept|e]; [|discriminate].
    intros [= <-]. destruct keep; constructor; apply IH; reflexivity.
Qed.

Lemma sublist_keeps_Forall {A} (Q : A -> Prop) (out l : list A) :
  sublist out l -> Forall Q l -> Forall Q out.
Proof.
  induction 1 as [|x out l _ IH|x out l _ IH]; intros Hall.
  - constructor.
  - inversion Hall; subst. constructor; auto.
  - inversion Hall; subst. auto.
Qed.

(** X29: whenever [applyFilters] returns, what it returns is the given
    results with some of them left out, in their order; with a status
    filter in force (a status other than the empty text and all) every
    result it returns has exactly that status. *)
Theorem applyFilters_sound (ops : StringOps) (results out : list (gmap string value))
    (filters : Filters) :
  applyFilters ops results filters = Resolved out ->
  sublist out results /\
  (statusFiltered filters ->
   Forall (fun result => field result "status" = VString (status filters)) out).
Proof.
  unfold applyFilters, statusFiltered.
  destruct results as [|first rest]; cbn [length Nat.eqb].
  { intros [= <-]. split; [constructor|]. intros _. constructor. }
  set (results := first :: rest).
  destruct (String.eqb_spec (status filters) "") as [Hempty|Hset];
    [|destruct (String.eqb_spec (status filters) "all") as [Hall|Hnot]];
    cbn [negb andb].
  - intros Hrun. split; [|intros [Hne _]; contradiction].
    destruct (negb (String.eqb (search filters) "")
              && negb (String.eqb (trim ops (search filters)) "")).
    + exact (filterThrowing_sublist _ _ _ Hrun).
    + injection Hrun as <-. reflexivity.
  - intros Hrun. split; [|intros [_ Hne]; contradiction].
    destruct (negb (String.eqb (search filters) "")
              && negb (String.eqb (trim ops (search filters)) "")).
    + exact (filterThrowing_sublist _ _ _ Hrun).
    + injection Hrun as <-. reflexivity.
  - intros Hrun.
    set (byStatus := List.filter
           (fun result => strict_eq_string (field result "status") (status filters))
           results) in *.
    assert (Hsub : sublist out byStatus).
    { destruct (negb (String.eqb (search filters) "")
                && negb (String.eqb (trim ops (search filters)) "")).
      - exact (filterThrowing_sublist _ _ _ Hrun).
      - injection Hrun as <-. reflexivity. }
    split.
    + etransitivity; [exact Hsub|]. apply filter_is_sublist.
    + intros _. apply (sublist_keeps_Forall _ _ _ Hsub).
      apply List.Forall_forall. intros result Hin.
      apply filter_In in Hin. destruct Hin as [_ Heq].
      apply strict_eq_string_spec. exact Heq.
Qed.

(** X30: with no status filter (the empty text or all) and an empty or
    blank search box, [applyFilters] returns the results unchanged and
    never throws, whatever the records hold. *)
Theorem applyFilters_no_filter (ops : StringOps) (results : list (gmap string value))
    (filters : Filters) :
  status filters = "" \/ status filters = "all" ->
  searchBlank ops filters ->
  applyFilters ops results filters = Resolved results.
Proof.
  unfold applyFilters, searchBlank. intros Hstatus Hsearch.
  destruct results as [|first rest]; [reflexivity|]. cbn [length Nat.eqb].
  assert (Hs : negb (String.eqb (status filters) "")
               && negb (String.eqb (status filters) "all") = false).
  { destruct Hstatus as [->| ->]; reflexivity. }
  assert (Hq : negb (String.eqb (search filters) "")
               && negb (String.eqb (trim ops (search filters)) "") = false).
  { destruct Hsearch as [->| ->]; [reflexivity|].
    rewrite String.eqb_refl. cbn. apply andb_false_r. }
  rewrite Hs, Hq. reflexivity.
Qed.

End UtilsProperties.

(** ** Instances of the further properties *)

Section FetcherFurtherExamples.

Import JS S3 Fetcher Spec Examples Terms Scenarios.

Lemma summary_invariants_witness :
  fetchSummary twoRuns "allure-results-1" 0%nat = (Resolved firstRunSummary, 0%nat) /\
  (passed (statistic firstRunSummary) + failed (statistic firstRunSummary)
   + broken (statistic firstRunSummary) + skipped (statistic firstRunSummary)
   <= total (statistic firstRunSummary))%nat /\
  (total (statistic firstRunSummary) <= totalFiles firstRunSummary)%nat.
Proof.
  assert (Hrun : fetchSummary twoRuns "allure-results-1" 0%nat
                 = (Resolved firstRunSummary, 0%nat))
    by (vm_compute; reflexivity).
  split; [exact Hrun|].
  exact (summary_invariants twoRuns "allure-results-1" 0%nat 0%nat firstRunSummary Hrun).
Defined.

Lemma summary_clock_reads_witness :
  listObjectsV2 (s3Client epochRun) (runListing epochRun "run") = Resolved oneResultFile /\
  fetchSummary epochRun "run" 0%nat = (Resolved epochRunSummary, 1%nat) /\
  1%nat = (0 + falsyCount "start" (cleanList epochRun oneResultFile)
           + falsyCount "stop" (cleanList epochRun oneResultFile))%nat.
Proof.
  assert (Hlist : listObjectsV2 (s3Client epochRun) (runListing epochRun "run")
                  = Resolved oneResultFile)
    by (vm_compute; reflexivity).
  assert (Hrun : fetchSummary epochRun "run" 0%nat = (Resolved epochRunSummary, 1%nat))
    by (vm_compute; reflexivity).
  split; [exact Hlist|]. split; [exact Hrun|].
  exact (summary_clock_reads epochRun "run" 0%nat 1%nat epochRunSummary oneResultFile
           Hlist Hrun).
Defined.

End FetcherFurtherExamples.

Section ServerFurtherExamples.

Import JS S3 Server Spec Examples Terms Scenarios.

Lemma basename_of_key_witness :
  "a-result.json" <> "" /\
  slashFree "a-result.json" /\
  basename ("reports/run" +:+ "/" +:+ "a-result.json") = "a-result.json" /\
  slashFree (basename ("reports/run" +:+ "/" +:+ "a-result.json")).
Proof.
  assert (Hne : "a-result.json" <> "") by discriminate.
  assert (Hfree : slashFree "a-result.json").
  { unfold slashFree. cbn. intros H.
    repeat (destruct H as [H|H]; [discriminate H|]). exact H. }
  split; [exact Hne|]. split; [exact Hfree|].
  exact (basename_of_key "reports/run" "a-result.json" Hne Hfree).
Defined.


Lemma api_reports_totals_witness :
  listObjectsV2 (s3Client twoRuns) (catalogListing twoRuns) = Resolved catalogOfTwo /\
  (forall runId, In runId (Fetcher.runIdsOf catalogOfTwo) ->
     listObjectsV2 (s3Client twoRuns) (runListing twoRuns runId)
       = Resolved (listingsOfTwo runId)) /\
  exists r n reports lastUpdated,
    api_reports twoRuns (fresh 0) = (Resolved tt, {| reads := n; res := r |}) /\
    statusCode r = 200%nat /\
    map Fetcher.runId reports = Fetcher.runIdsOf catalogOfTwo /\
    body r = JsonBody
      (ReportsPayload reports
         (length (Fetcher.runIdsOf catalogOfTwo))
         (list_sum (map (fun runId => length (cleanList twoRuns (listingsOfTwo runId)))
                        (Fetcher.runIdsOf catalogOfTwo)))
         lastUpdated).
Proof.
  assert (Hcatalog : listObjectsV2 (s3Client twoRuns) (catalogListing twoRuns)
                     = Resolved catalogOfTwo)
    by (vm_compute; reflexivity).
  assert (Hruns : forall runId, In runId (Fetcher.runIdsOf catalogOfTwo) ->
            listObjectsV2 (s3Client twoRuns) (runListing twoRuns runId)
              = Resolved (listingsOfTwo runId)).
  { intros runId [<-|[<-|[]]]; vm_compute; reflexivity. }
  split; [exact Hcatalog|]. split; [exact Hruns|].
  exact (api_reports_totals twoRuns 0%nat catalogOfTwo listingsOfTwo Hcatalog Hruns).
Defined.

End ServerFurtherExamples.

Section CompareFurtherExamples.

Import JS Client Compare Spec Examples.

Lemma table_matches_differences_witness :
  In {| key := "passed"; label := "Passed Tests"; isNegativeGood := false |} metrics /\
  countOf runA "passed" = Some 7 /\
  countOf runB "passed" = Some 5 /\
  value1 (detailRow (compare runA runB)
            {| key := "passed"; label := "Passed Tests"; isNegativeGood := false |})
    = Finite 7 /\
  value2 (detailRow (compare runA runB)
            {| key := "passed"; label := "Passed Tests"; isNegativeGood := false |})
    = Finite 5 /\
  differences (compare runA runB) !! "passed"
    = Some (diff (detailRow (compare runA runB)
                    {| key := "passed"; label := "Passed Tests";
                       isNegativeGood := false |})).
Proof.
  assert (Hin : In {| key := "passed"; label := "Passed Tests";
                      isNegativeGood := false |} metrics)
    by (right; left; reflexivity).
  assert (Ha : countOf runA "passed" = Some 7) by (vm_compute; reflexivity).
  assert (Hb : countOf runB "passed" = Some 5) by (vm_compute; reflexivity).
  repeat (split; [assumption|]).
  exact (table_matches_differences runA runB
           {| key := "passed"; label := "Passed Tests"; isNegativeGood := false |}
           7 5 Hin Ha Hb).
Defined.

Lemma percentages_never_NaN_witness :
  In "passed" ["passed"; "failed"; "broken"; "skipped"] /\
  exists p1 p2,
    percentagesReport1 (percentages (compare runA runB)) !! "passed" = Some p1 /\
    percentagesReport2 (percentages (compare runA runB)) !! "passed" = Some p2 /\
    p1 <> RNaN /\ p2 <> RNaN /\
    (stat (stats (viewOf runA)) "total" = Finite 0 ->
     stat (stats (viewOf runA)) "passed" = Finite 0 -> p1 = RFinite 0%Q) /\
    (stats (viewOf runA) = ∅ -> p1 = RFinite 0%Q).
Proof.
  assert (Hin : In "passed" ["passed"; "failed"; "broken"; "skipped"])
    by (left; reflexivity).
  split; [exact Hin|].
  exact (percentages_never_NaN runA runB "passed" Hin).
Defined.

End CompareFurtherExamples.

Section CacheFurtherExamples.

Import JS Client Cache Spec Examples.

Lemma successful_refresh_ready_witness :
  fetchCalls (snd (getReports steadyBrowser true filledWorld)) <> fetchCalls filledWorld /\
  fetchFailure steadyBrowser (fetchCalls filledWorld) = None /\
  exists r t,
    fst (getReports steadyBrowser true filledWorld) = Resolved r /\
    reportsCache (snd (getReports steadyBrowser true filledWorld)) =
      {| reports := resultReports r; summary := resultSummary r;
         lastFetched := Some t; loading := false; error := None |} /\
    (t = clock steadyBrowser (clockReads filledWorld) \/
     t = clock steadyBrowser (S (clockReads filledWorld))) /\
    fetchCalls (snd (getReports steadyBrowser true filledWorld))
      = S (fetchCalls filledWorld).
Proof.
  assert (Hfetched : fetchCalls (snd (getReports steadyBrowser true filledWorld))
                     <> fetchCalls filledWorld)
    by (vm_compute; discriminate).
  assert (Hok : fetchFailure steadyBrowser (fetchCalls filledWorld) = None)
    by (vm_compute; reflexivity).
  split; [exact Hfetched|]. split; [exact Hok|].
  exact (successful_refresh_ready steadyBrowser true filledWorld Hfetched Hok).
Defined.

End CacheFurtherExamples.

Section LoginPageExamples.

Import LoginPage Terms Scenarios.

Lemma failed_login_keeps_storage_witness :
  loginFailure (Resolved loginRefused) = Some "Invalid credentials" /\
  handleSubmit (Resolved loginRefused) loginScreen =
    (Resolved tt,
     {| localStorage := localStorage loginScreen; error := "Invalid credentials";
        location := location loginScreen |}) /\
  ProtectedRoute (localStorage (snd (handleSubmit (Resolved loginRefused) loginScreen)))
    = ProtectedRoute (localStorage loginScreen).
Proof.
  assert (Hfail : loginFailure (Resolved loginRefused) = Some "Invalid credentials")
    by reflexivity.
  split; [exact Hfail|].
  exact (failed_login_keeps_storage (Resolved loginRefused) loginScreen
           "Invalid credentials" Hfail).
Defined.

Lemma successful_login_enters_witness :
  ok loginAccepted = true /\
  json loginAccepted = Resolved (Some issuedToken) /\
  handleSubmit (Resolved loginAccepted) loginScreen =
    (Resolved tt,
     {| localStorage :=
          <["token" := default "undefined" (token issuedToken)]>
            (localStorage loginScreen);
        error := error loginScreen; location := "/dashboard" |}) /\
  (ProtectedRoute (localStorage (snd (handleSubmit (Resolved loginAccepted) loginScreen)))
     = Children <->
   token issuedToken <> Some "").
Proof.
  assert (Hok : ok loginAccepted = true) by reflexivity.
  assert (Hbody : json loginAccepted = Resolved (Some issuedToken)) by reflexivity.
  split; [exact Hok|]. split; [exact Hbody|].
  exact (successful_login_enters loginAccepted issuedToken loginScreen Hok Hbody).
Defined.

End LoginPageExamples.

Section UtilsExamples.

Import JS S3 Utils Terms Scenarios.

Lemma applyFilters_sound_witness :
  applyFilters asciiOps threeResults passedLogin
    = Resolved [testResult "login works" "passed"] /\
  sublist [testResult "login works" "passed"] threeResults /\
  (statusFiltered passedLogin ->
   Forall (fun result => field result "status" = VString (status passedLogin))
          [testResult "login works" "passed"]).
Proof.
  assert (Hrun : applyFilters asciiOps threeResults passedLogin
                 = Resolved [testResult "login works" "passed"])
    by (vm_compute; reflexivity).
  split; [exact Hrun|].
  exact (applyFilters_sound asciiOps threeResults
           [testResult "login works" "passed"] passedLogin Hrun).
Defined.

Lemma applyFilters_no_filter_witness :
  (status everything = "" \/ status everything = "all") /\
  searchBlank asciiOps everything /\
  applyFilters asciiOps threeResults everything = Resolved threeResults.
Proof.
  assert (Hstatus : status everything = "" \/ status everything = "all")
    by (right; reflexivity).
  assert (Hsearch : searchBlank asciiOps everything)
    by (right; vm_compute; reflexivity).
  split; [exact Hstatus|]. split; [exact Hsearch|].
  exact (applyFilters_no_filter asciiOps threeResults everything Hstatus Hsearch).
Defined.

End UtilsExamples.
